(** * Session-monitoring agents: watcher, executor and sanity-flag

    A shallow embedding of the three monitoring agents
    ([agent_6_watcher.py], [agent_7_executor.py], [agent_8_sanity_flag.py])
    and the properties of their detectors, scorers and aggregators.

    Conventions of the embedding.
    - A Python [dict] with string keys is a [gmap string pyval]; an event,
      a submission, a violation, a red flag, an anomaly, a sanity check and
      a timeline entry are all such dicts, as in the source.
    - A Python [str] is a [string] whose characters are code points below
      256, so [len], slicing, ordering and [lower] are exact.
    - A Python [float] is an IEEE binary64 number ([spec_float] at
      precision 53, [emax] 1024), with round-to-nearest-even operations.
    - The value of a field of a record is [None], a boolean, an integer, a
      string, a [datetime] or a dict: the values of [pyval].  A JSON array
      and a number with a fraction are outside this universe; the
      statements speak of records made of the values of [pyval].
    - A raised exception is the [Err] case of [result]; a function that
      cannot raise is a plain function.
    - What the agents import from outside the repository ([dateutil]'s
      [parse], [json.loads], [datetime.now], [isoformat], [repr]) is a field
      of [Runtime]; every statement holds for every runtime.
    - What the backend answers to the HTTP client is a field of
      [Database]; the report of an entry point ([watch_session],
      [execute_analysis], [flag_sanity_checks]) is a [Success] with the
      fields of the returned dict, or the [Failure] of the [except] clause. *)

From Stdlib Require Import ZArith Bool Ascii String.
From Stdlib Require Import Floats.SpecFloat.
From Stdlib Require Import Lia.
From stdpp Require Import base option list gmap strings pretty sorting.

#[local] Set Warnings "-register-all".
#[local] Open Scope string_scope.
#[local] Open Scope Z_scope.

(** ** Exceptions *)

Inductive exn :=
| TypeError
| AttributeError
| ValueError
| OverflowError
| ZeroDivisionError
| IndexError.

Inductive result (A : Type) :=
| Ok (a : A)
| Err (e : exn).
Arguments Ok {A} a.
Arguments Err {A} e.

Definition bind {A B} (m : result A) (k : A -> result B) : result B :=
  match m with
  | Ok a => k a
  | Err e => Err e
  end.

Notation "'let*' x ':=' m 'in' k" := (bind m (fun x => k))
  (at level 10, x name, m at level 100, k at level 200).

(** [try: ... except: ...] with a bare [except]. *)
Definition catch {A} (m : result A) : option A :=
  match m with
  | Ok a => Some a
  | Err _ => None
  end.

(** Did the computation return? *)
Definition is_ok {A} (r : result A) : bool :=
  match r with
  | Ok _ => true
  | Err _ => false
  end.

(** The length of a returned list. *)
Definition count_ok {A} (r : result (list A)) : option nat :=
  match r with
  | Ok l => Some (length l)
  | Err _ => None
  end.

(** [for x in l: acc = step(acc, x)], stopping at the first exception. *)
Fixpoint for_each {A S} (step : S -> A -> result S) (l : list A) (acc : S) : result S :=
  match l with
  | [] => Ok acc
  | x :: l' => let* acc' := step acc x in for_each step l' acc'
  end.

(** [any(p(x) for x in l)] where [p] may raise: evaluation stops at the
    first true. *)
Fixpoint any_r {A} (p : A -> result bool) (l : list A) : result bool :=
  match l with
  | [] => Ok false
  | x :: l' => let* b := p x in if b then Ok true else any_r p l'
  end.

(** [l.append(x)]. *)
Definition append {A} (l : list A) (x : A) : list A := (l ++ [x])%list.

(** [len(l)] as a Python integer. *)
Definition len {A} (l : list A) : Z := Z.of_nat (length l).

(** ** Strings *)

Module Str.

Definition newline : ascii := ascii_of_nat 10.

Definition code (c : ascii) : N := N_of_ascii c.

(** [str.lower] on code points below 256: A-Z and the Latin-1 capitals
    U+00C0..U+00DE (without the multiplication sign U+00D7) move up by 32. *)
Definition lower_char (c : ascii) : ascii :=
  let n := code c in
  if ((65 <=? n) && (n <=? 90))%N then ascii_of_N (n + 32)
  else if ((192 <=? n) && (n <=? 222) && negb (n =? 215))%N then ascii_of_N (n + 32)
  else c.

Fixpoint lower (s : string) : string :=
  match s with
  | EmptyString => EmptyString
  | String c s' => String (lower_char c) (lower s')
  end.

Fixpoint starts_with (p s : string) : bool :=
  match p, s with
  | EmptyString, _ => true
  | String a p', String b s' => if Ascii.eqb a b then starts_with p' s' else false
  | String _ _, EmptyString => false
  end.

Fixpoint drop (n : nat) (s : string) : string :=
  match n, s with
  | O, _ => s
  | S n', String _ s' => drop n' s'
  | S _, EmptyString => EmptyString
  end.

Fixpoint take (n : nat) (s : string) : string :=
  match n, s with
  | O, _ => EmptyString
  | S n', String c s' => String c (take n' s')
  | S _, EmptyString => EmptyString
  end.

(** The text after the leftmost occurrence of [p] in [s]. *)
Fixpoint find_after (p s : string) : option string :=
  if starts_with p s then Some (drop (String.length p) s)
  else match s with
       | EmptyString => None
       | String _ s' => find_after p s'
       end.

(** [p in s] for two strings. *)
Definition contains (p s : string) : bool :=
  match find_after p s with
  | Some _ => true
  | None => false
  end.

(** [s.split(sep)] for a one-character separator. *)
Fixpoint split_on (sep : ascii) (s : string) : list string :=
  match s with
  | EmptyString => [EmptyString]
  | String c s' =>
      if Ascii.eqb c sep then EmptyString :: split_on sep s'
      else match split_on sep s' with
           | [] => [String c EmptyString]
           | w :: ws => String c w :: ws
           end
  end.

Definition split_lines (s : string) : list string := split_on newline s.

(** Code-point order, the order of [<] on [str]. *)
Fixpoint ltb (a b : string) : bool :=
  match a, b with
  | _, EmptyString => false
  | EmptyString, String _ _ => true
  | String x a', String y b' =>
      if (code x <? code y)%N then true
      else if (code y <? code x)%N then false
      else ltb a' b'
  end.

Definition leb (a b : string) : bool := negb (ltb b a).

(** [str.isspace] on code points below 256: tab to carriage return, the
    four separators U+001C..U+001F, the space, NEL (U+0085) and the
    no-break space (U+00A0). *)
Definition is_space (c : ascii) : bool :=
  let n := code c in
  (((9 <=? n) && (n <=? 13)) || ((28 <=? n) && (n <=? 32)) || (n =? 133) || (n =? 160))%N.

(** [s.lstrip()]. *)
Fixpoint lstrip (s : string) : string :=
  match s with
  | EmptyString => EmptyString
  | String c s' => if is_space c then lstrip s' else s
  end.

(** [s.rstrip()]. *)
Fixpoint rstrip (s : string) : string :=
  match s with
  | EmptyString => EmptyString
  | String c s' =>
      match rstrip s' with
      | EmptyString => if is_space c then EmptyString else String c EmptyString
      | r => String c r
      end
  end.

(** [s.strip()]. *)
Definition strip (s : string) : string := rstrip (lstrip s).

End Str.

(** ** Regular expressions

    The patterns of the agents are alternatives of literals joined by [.*];
    [.] matches every character but the newline, so one match lies inside
    one line of the text. *)

Module Re.

(** One alternative: the literals, in order, with [.*] between them. *)
Definition branch := list string.

(** A pattern: its alternatives, separated by [|] in the source. *)
Definition pattern := list branch.

Fixpoint line_match (lits : branch) (line : string) : bool :=
  match lits with
  | [] => true
  | p :: ps =>
      match Str.find_after p line with
      | Some rest => line_match ps rest
      | None => false
      end
  end.

(** [re.search(pattern, text) is not None]. *)
Definition search (pat : pattern) (text : string) : bool :=
  existsb (fun br => existsb (line_match br) (Str.split_lines text)) pat.

End Re.

(** ** Floats *)

Module Float64.

Definition prec : Z := 53.
Definition emax : Z := 1024.

Abbreviation float := spec_float.

(** An integer as an (unrounded) floating-point operand. *)
Definition exact (z : Z) : float :=
  match z with
  | Z0 => S754_zero false
  | Zpos p => S754_finite false p 0
  | Zneg p => S754_finite true p 0
  end.

(** [float(z)]. *)
Definition of_Z (z : Z) : float := binary_normalize prec emax z 0 false.

Definition add : float -> float -> float := SFadd prec emax.
Definition mul : float -> float -> float := SFmul prec emax.
Definition div : float -> float -> float := SFdiv prec emax.
Definition ltb : float -> float -> bool := SFltb.

Definition is_zero (x : float) : bool :=
  match x with
  | S754_zero _ => true
  | _ => false
  end.

(** [a / b] on two Python integers: the correctly rounded quotient. *)
Definition truediv (a b : Z) : result float :=
  if b =? 0 then Err ZeroDivisionError
  else match div (exact a) (exact b) with
       | S754_infinity _ => Err OverflowError
       | q => Ok q
       end.

(** [int(x)]: truncation towards zero. *)
Definition to_int (x : float) : result Z :=
  match x with
  | S754_zero _ => Ok 0
  | S754_infinity _ => Err OverflowError
  | S754_nan => Err ValueError
  | S754_finite s m e => Ok (cond_Zopp s (Z.shiftl (Zpos m) e))
  end.

(** [round(x)]: the nearest integer, ties to the even one. *)
Definition round_int (x : float) : result Z :=
  match x with
  | S754_zero _ => Ok 0
  | S754_infinity _ => Err OverflowError
  | S754_nan => Err ValueError
  | S754_finite s m e =>
      if 0 <=? e then Ok (cond_Zopp s (Z.shiftl (Zpos m) e))
      else
        let d := Z.shiftl 1 (- e) in
        let q := Zpos m / d in
        let r := Zpos m mod d in
        let q' := match 2 * r ?= d with
                  | Lt => q
                  | Gt => q + 1
                  | Eq => if Z.even q then q else q + 1
                  end in
        Ok (cond_Zopp s q')
  end.

(** [sum(xs)]: the additions from left to right, from the integer 0
    (CPython 3.12 and later carry a compensation term along). *)
Definition sum (xs : list float) : float := fold_left add xs (of_Z 0).

(** The literal [0.5]. *)
Definition half : float := binary_normalize prec emax 1 (-1) false.

End Float64.

Abbreviation float := spec_float.

(** ** Values *)

(** A [datetime]: its instant in microseconds (on the UTC time line when it
    is aware, on the wall clock when it is naive) and whether it carries a
    time zone. *)
Record datetime := { dt_us : Z; dt_aware : bool }.

(** The values of the fields that the development follows: JSON null,
    booleans, integers, strings and objects, and [datetime] objects.  JSON
    arrays and numbers with a fraction are not among them. *)
Inductive pyval :=
| VNone
| VBool (b : bool)
| VInt (z : Z)
| VStr (s : string)
| VDatetime (d : datetime)
| VDict (d : gmap string pyval).

Abbreviation dict := (gmap string pyval).

(** What the agents call outside the repository. *)
Record Runtime := {
  (** the [k]-th reading of [datetime.now()] during one call of a detector *)
  rt_now : nat -> datetime;
  (** [dateutil.parser.parse]; [None] when it raises *)
  rt_parse : string -> option datetime;
  (** [datetime.isoformat] *)
  rt_isoformat : datetime -> string;
  (** [json.loads]; [None] when it raises *)
  rt_json_loads : string -> option pyval;
  (** [str] of a [datetime] and of a [dict] *)
  rt_repr : pyval -> string
}.

Module Py.

(** [bool(v)]. *)
Definition truthy (v : pyval) : bool :=
  match v with
  | VNone => false
  | VBool b => b
  | VInt z => negb (z =? 0)
  | VStr s => negb (String.eqb s EmptyString)
  | VDatetime _ => true
  | VDict d => negb (Nat.eqb (size d) 0)
  end.

(** [d.get(k)]. *)
Definition get (d : dict) (k : string) : pyval := default VNone (d !! k).

(** [d.get(k, v)]. *)
Definition get_or (d : dict) (k : string) (v : pyval) : pyval := default v (d !! k).

(** [v.get(k, dflt)] on a value that need not be a dict. *)
Definition attr_get (v : pyval) (k : string) (dflt : pyval) : result pyval :=
  match v with
  | VDict d => Ok (get_or d k dflt)
  | _ => Err AttributeError
  end.

(** [a or b]. *)
Definition or_else (a b : pyval) : pyval := if truthy a then a else b.

(** [v == "literal"]. *)
Definition eq_str (v : pyval) (s : string) : bool :=
  match v with
  | VStr s' => String.eqb s' s
  | _ => false
  end.

(** [v == n] for an integer literal [n]. *)
Definition eq_int (v : pyval) (n : Z) : bool :=
  match v with
  | VInt z => z =? n
  | VBool b => (if b then 1 else 0) =? n
  | _ => false
  end.

(** [isinstance(v, datetime)]. *)
Definition is_datetime (v : pyval) : bool :=
  match v with
  | VDatetime _ => true
  | _ => false
  end.

(** [str(v)]. *)
Definition str (rt : Runtime) (v : pyval) : string :=
  match v with
  | VNone => "None"
  | VBool true => "True"
  | VBool false => "False"
  | VInt z => pretty z
  | VStr s => s
  | VDatetime _ | VDict _ => rt_repr rt v
  end.

(** [v.lower()]. *)
Definition lower (v : pyval) : result string :=
  match v with
  | VStr s => Ok (Str.lower s)
  | _ => Err AttributeError
  end.

(** [len(v)]. *)
Definition length (v : pyval) : result Z :=
  match v with
  | VStr s => Ok (Z.of_nat (String.length s))
  | VDict d => Ok (Z.of_nat (size d))
  | _ => Err TypeError
  end.

(** [v[:n]]; a dict does not take a slice (a [TypeError] up to
    CPython 3.11, a [KeyError] from 3.12 on). *)
Definition take (n : nat) (v : pyval) : result pyval :=
  match v with
  | VStr s => Ok (VStr (Str.take n s))
  | _ => Err TypeError
  end.

(** [len(v.split("\n"))]. *)
Definition split_line_count (v : pyval) : result Z :=
  match v with
  | VStr s => Ok (len (Str.split_lines s))
  | _ => Err AttributeError
  end.

(** [a in b]. *)
Definition contains (a b : pyval) : result bool :=
  match b with
  | VStr t =>
      match a with
      | VStr s => Ok (Str.contains s t)
      | _ => Err TypeError
      end
  | VDict d =>
      match a with
      | VStr s => Ok (bool_decide (is_Some (d !! s)))
      | VDict _ => Err TypeError
      | _ => Ok false
      end
  | _ => Err TypeError
  end.

(** The integer a number stands for. *)
Definition as_number (v : pyval) : option Z :=
  match v with
  | VInt z => Some z
  | VBool b => Some (if b then 1 else 0)
  | _ => None
  end.

(** [a < b]; strings by code points, numbers by value, datetimes by
    instant; a naive and an aware datetime, values of two kinds, [None]
    and dicts do not compare. *)
Definition lt (a b : pyval) : result bool :=
  match a, b with
  | VStr s, VStr t => Ok (Str.ltb s t)
  | VDatetime d, VDatetime e =>
      if Bool.eqb (dt_aware d) (dt_aware e) then Ok (dt_us d <? dt_us e)
      else Err TypeError
  | _, _ =>
      match as_number a, as_number b with
      | Some x, Some y => Ok (x <? y)
      | _, _ => Err TypeError
      end
  end.

(** [a == b] on hashable values, as a [set] sees it. *)
Definition eqb (a b : pyval) : bool :=
  match a, b with
  | VNone, VNone => true
  | VStr s, VStr t => String.eqb s t
  | VDatetime d, VDatetime e =>
      Bool.eqb (dt_aware d) (dt_aware e) && (dt_us d =? dt_us e)
  | _, _ =>
      match as_number a, as_number b with
      | Some x, Some y => x =? y
      | _, _ => false
      end
  end.

Definition hashable (v : pyval) : bool :=
  match v with
  | VDict _ => false
  | _ => true
  end.

(** The elements of [set(l)], one per class of equal values. *)
Fixpoint distinct (l : list pyval) : list pyval :=
  match l with
  | [] => []
  | v :: l' => v :: List.filter (fun w => negb (eqb v w)) (distinct l')
  end.

(** [len(set(l))]. *)
Definition set_size (l : list pyval) : result Z :=
  if forallb hashable l then Ok (len (distinct l)) else Err TypeError.

(** *** Sorting

    [sorted] and [list.sort] compute every key first and compare keys
    with [<] only.  The embedding inserts each element, from left to right,
    behind the elements that are not greater: the stable order that
    CPython's sort produces.  CPython compares other pairs on the way; in
    this universe of values two keys compare exactly when they are of one
    kind, every element takes part in a comparison as soon as there are
    two, and so both raise on the same lists. *)

Section Sort.
Context {A : Type}.

Fixpoint insert_sorted (x : pyval * A) (l : list (pyval * A)) : result (list (pyval * A)) :=
  match l with
  | [] => Ok [x]
  | y :: l' =>
      let* b := lt (fst x) (fst y) in
      if b then Ok (x :: y :: l')
      else let* r := insert_sorted x l' in Ok (y :: r)
  end.

Definition sort_keyed (l : list (pyval * A)) : result (list (pyval * A)) :=
  for_each (fun acc x => insert_sorted x acc) l [].

(** [sorted(l, key=...)], the keys already computed. *)
Definition sorted (l : list (pyval * A)) : result (list A) :=
  let* r := sort_keyed l in Ok (map snd r).

(** [min(l, key=...)] on a non-empty list: the first least element. *)
Definition min_by (first : pyval * A) (rest : list (pyval * A)) : result A :=
  let* best :=
    for_each (fun best x =>
                let* b := lt (fst x) (fst best) in
                Ok (if b then x else best)) rest first in
  Ok (snd best).

(** [max(l, key=...)] on a non-empty list: the first greatest element;
    [x > best] is [best < x] reflected. *)
Definition max_by (first : pyval * A) (rest : list (pyval * A)) : result A :=
  let* best :=
    for_each (fun best x =>
                let* b := lt (fst best) (fst x) in
                Ok (if b then x else best)) rest first in
  Ok (snd best).
End Sort.

(** *** Datetimes *)

(** [(b - a).total_seconds()]. *)
Definition seconds_between (a b : datetime) : result float :=
  if Bool.eqb (dt_aware a) (dt_aware b)
  then Float64.truediv (dt_us b - dt_us a) 1000000
  else Err TypeError.

(** The timestamp text of a violation or of a timeline entry:
    [e.get("timestamp", datetime.now()).isoformat()
       if isinstance(e.get("timestamp"), datetime)
       else str(e.get("timestamp", ''))].
    The clock is read only when the timestamp is a datetime, and then its
    reading is not used. *)
Definition timestamp_text (rt : Runtime) (e : dict) : string :=
  match get e "timestamp" with
  | VDatetime d => rt_isoformat rt d
  | _ => str rt (get_or e "timestamp" (VStr EmptyString))
  end.

(** [if isinstance(t, str): t = parse(t)]. *)
Definition parse_if_str (rt : Runtime) (t : pyval) : result pyval :=
  match t with
  | VStr s =>
      match rt_parse rt s with
      | Some d => Ok (VDatetime d)
      | None => Err ValueError
      end
  | _ => Ok t
  end.

(** [if gap:] on an [Optional[float]]: neither [None] nor zero. *)
Definition gap_truthy (gap : option float) : bool :=
  match gap with
  | Some g => negb (Float64.is_zero g)
  | None => false
  end.

(** [e.get("timestamp", datetime.now())] for each element in turn, as the
    [key] of [sorted], [min] and [max] computes it: the element at
    position [i] sees the reading [first + i] of the clock. *)
Definition keyed_by_timestamp (rt : Runtime) (first : nat) (events : list dict)
  : list (pyval * dict) :=
  imap (fun i e => (get_or e "timestamp" (VDatetime (rt_now rt (first + i))), e)) events.

(** Floats in ascending order, for [sorted] on a list of floats. *)
Fixpoint insert_float (x : float) (l : list float) : list float :=
  match l with
  | [] => [x]
  | y :: l' => if Float64.ltb x y then x :: y :: l' else y :: insert_float x l'
  end.

Definition sorted_floats (l : list float) : list float :=
  fold_left (fun acc x => insert_float x acc) l [].

(** The event-type tests of the list comprehensions. *)
Definition is_type (ty : string) (e : dict) : bool := eq_str (get e "event_type") ty.

Definition is_copy (e : dict) : bool :=
  is_type "code_copied_from_ai" e || is_type "code_copied" e.

Definition is_paste (e : dict) : bool :=
  is_type "code_pasted_from_ai" e || is_type "code_pasted" e.

(** [metadata = e.get("metadata", {})], decoded when it is a string:
    a string that does not decode gives [{}]. *)
Definition metadata_of (rt : Runtime) (e : dict) : pyval :=
  match get_or e "metadata" (VDict ∅) with
  | VStr s => default (VDict ∅) (rt_json_loads rt s)
  | v => v
  end.

(** The runtime with another run of clock readings: each detector called
    by an entry point reads the clock anew. *)
Definition with_clock (rt : Runtime) (now : nat -> datetime) : Runtime := {|
  rt_now := now;
  rt_parse := rt_parse rt;
  rt_isoformat := rt_isoformat rt;
  rt_json_loads := rt_json_loads rt;
  rt_repr := rt_repr rt
|}.

End Py.

(** ** The backend

    What [DatabaseAPIClient] answers for a session: the records of each
    endpoint, as the client's signatures have them; a request that fails
    gives the empty list. *)

Record Database := {
  get_interactions : string -> list dict;
  get_submissions : string -> list dict;
  get_code_snapshots : string -> list dict;
  get_file_operations : string -> list dict;
  get_terminal_events : string -> list dict
}.

(** ** Agent 6: the watcher ([agent_6_watcher.py]) *)

Module Watcher.
Section Defs.
Context (rt : Runtime).

Definition red_flag_patterns : list Re.pattern :=
  [ [["solve"; "entire"; "problem"]];
    [["write"; "complete"; "code"]];
    [["give"; "full"; "solution"]];
    [["do"; "whole"; "thing"]] ].

Definition suspicious_files : list string := ["test"; "solution"; "answer"; "cheat"].

Definition violation (severity type description timestamp : string) : dict :=
  list_to_map [ ("severity", VStr severity); ("type", VStr type);
                ("description", VStr description); ("timestamp", VStr timestamp) ].

(** [metadata.get("filePath", '') or metadata.get("fileName", '')]. *)
Definition file_path_of (metadata : pyval) : result pyval :=
  let* a := Py.attr_get metadata "filePath" (VStr EmptyString) in
  if Py.truthy a then Ok a else Py.attr_get metadata "fileName" (VStr EmptyString).

(** The body of the loop over the copy events. *)
Definition check_copy (violations : list dict) (copy_event : dict) : result (list dict) :=
  let code_snippet :=
    Py.or_else (Py.get_or copy_event "code_snippet" (VStr EmptyString)) (VStr EmptyString) in
  let* lines := Py.split_line_count code_snippet in
  if 50 <? lines then
    Ok (append violations
        (violation (if 100 <? lines then "high" else "medium")
                   "large_code_copy"
                   ("Copied " +:+ pretty lines +:+ " lines of code from AI")
                   (Py.timestamp_text rt copy_event)))
  else Ok violations.

(** The body of the loop over the prompts. *)
Definition check_prompt (violations : list dict) (prompt_event : dict) : result (list dict) :=
  let* prompt_text := Py.lower (Py.get_or prompt_event "prompt_text" (VStr EmptyString)) in
  if existsb (fun pattern => Re.search pattern prompt_text) red_flag_patterns then
    Ok (append violations
        (violation "high" "solution_request"
                   "Candidate asked AI to solve the entire problem"
                   (Py.timestamp_text rt prompt_event)))
  else Ok violations.

(** The body of the loop over the file operations. *)
Definition check_file_op (violations : list dict) (file_op : dict) : result (list dict) :=
  let metadata := Py.metadata_of rt file_op in
  let* file_path := file_path_of metadata in
  let* lowered := Py.lower file_path in
  if existsb (fun sus => Str.contains sus lowered) suspicious_files then
    Ok (append violations
        (violation "medium" "suspicious_file_operation"
                   ("Suspicious file operation: " +:+ Py.str rt file_path)
                   (Py.timestamp_text rt file_op)))
  else Ok violations.

Definition _detect_violations (interactions file_operations terminal_events : list dict)
  : result (list dict) :=
  let copy_events := List.filter Py.is_copy interactions in
  let* violations := for_each check_copy copy_events [] in
  let prompts :=
    List.filter (fun i => Py.is_type "prompt_sent" i && Py.truthy (Py.get i "prompt_text"))
                interactions in
  let* violations := for_each check_prompt prompts violations in
  for_each check_file_op file_operations violations.

(** The body of the scoring loop. *)
Definition add_severity (base_score : Z) (violation : dict) : Z :=
  let severity := Py.get_or violation "severity" (VStr "low") in
  if Py.eq_str severity "high" then base_score + 30
  else if Py.eq_str severity "medium" then base_score + 15
  else base_score + 5.

Definition _calculate_risk_score (violations interactions : list dict) : Z :=
  match violations with
  | [] => 0
  | _ => Z.min 100 (fold_left add_severity violations 0)
  end.

Definition _get_event_description (event : dict) : result pyval :=
  let event_type := Py.get_or event "event_type" (VStr EmptyString) in
  if Py.eq_str event_type "prompt_sent" then
    let prompt_text := Py.get_or event "prompt_text" (VStr EmptyString) in
    let* n := Py.length prompt_text in
    if 50 <? n then
      let* head := Py.take 50 prompt_text in
      Ok (VStr ("Asked: " +:+ Py.str rt head +:+ "..."))
    else Ok (VStr ("Asked: " +:+ Py.str rt prompt_text))
  else if Py.eq_str event_type "response_received" then
    Ok (VStr "Received AI response")
  else if Py.eq_str event_type "code_copied_from_ai" || Py.eq_str event_type "code_copied" then
    let code_snippet := Py.get_or event "code_snippet" (VStr EmptyString) in
    let* lines := Py.split_line_count code_snippet in
    Ok (VStr ("Copied code (" +:+ pretty lines +:+ " lines)"))
  else if Py.eq_str event_type "code_modified" then
    Ok (VStr "Modified code")
  else Ok event_type.

Definition _get_file_event_description (event : dict) : result pyval :=
  let event_type := Py.get_or event "event_type" (VStr EmptyString) in
  let metadata := Py.metadata_of rt event in
  let* file_path := file_path_of metadata in
  let* is_directory := Py.attr_get metadata "isDirectory" (VBool false) in
  let kind := if Py.truthy is_directory then "folder" else "file" in
  if Py.eq_str event_type "file_created" then
    Ok (VStr ("Created " +:+ kind +:+ ": " +:+ Py.str rt file_path))
  else if Py.eq_str event_type "file_modified" then
    Ok (VStr ("Modified: " +:+ Py.str rt file_path))
  else if Py.eq_str event_type "file_deleted" then
    Ok (VStr ("Deleted " +:+ kind +:+ ": " +:+ Py.str rt file_path))
  else if Py.eq_str event_type "file_renamed" then
    let* new_name := Py.attr_get metadata "newName" (VStr EmptyString) in
    Ok (VStr ("Renamed: " +:+ Py.str rt file_path +:+ " → " +:+ Py.str rt new_name))
  else Ok event_type.

Definition _get_terminal_event_description (event : dict) : result pyval :=
  let event_type := Py.get_or event "event_type" (VStr EmptyString) in
  let metadata := Py.metadata_of rt event in
  if Py.eq_str event_type "terminal_spawned" then
    let* terminal_name := Py.attr_get metadata "terminalName" (VStr "Terminal") in
    Ok (VStr ("New terminal: " +:+ Py.str rt terminal_name))
  else if Py.eq_str event_type "command_executed" then
    let* command := Py.attr_get metadata "command" (VStr "command") in
    Ok (VStr ("Ran: " +:+ Py.str rt command))
  else Ok event_type.

Definition timeline_entry (event : dict) (description : pyval) : dict :=
  list_to_map [ ("type", Py.get_or event "event_type" (VStr EmptyString));
                ("timestamp", VStr (Py.timestamp_text rt event));
                ("description", description) ].

(** The body of each of the three loops of [_build_timeline]. *)
Definition add_entry (describe : dict -> result pyval)
           (timeline : list dict) (event : dict) : result (list dict) :=
  let* description := describe event in
  Ok (append timeline (timeline_entry event description)).

(** The key of [timeline.sort]. *)
Definition timeline_key (x : dict) : pyval := Py.get_or x "timestamp" (VStr EmptyString).

Definition _build_timeline (interactions file_operations terminal_events : list dict)
  : result (list dict) :=
  let* timeline := for_each (add_entry _get_event_description) interactions [] in
  let* timeline := for_each (add_entry _get_file_event_description) file_operations timeline in
  let* timeline := for_each (add_entry _get_terminal_event_description) terminal_events timeline in
  Py.sorted (map (fun x => (timeline_key x, x)) timeline).

Definition alert (severity message type : string) : dict :=
  list_to_map [ ("severity", VStr severity); ("message", VStr message); ("type", VStr type) ].

Definition _generate_alerts (violations : list dict) (risk_score : Z) : list dict :=
  let alerts : list dict := [] in
  let alerts :=
    if 70 <? risk_score then
      append alerts
        (alert "critical"
               ("High risk detected: " +:+ pretty (len violations) +:+ " violations")
               "risk_alert")
    else alerts in
  let high_severity :=
    List.filter (fun v => Py.eq_str (Py.get v "severity") "high") violations in
  match high_severity with
  | _ :: _ =>
      append alerts
        (alert "high"
               (pretty (len high_severity) +:+ " high-severity violations detected")
               "violation_alert")
  | [] => alerts
  end.

Definition _calculate_metrics (interactions file_operations terminal_events : list dict)
  : dict :=
  list_to_map
    [ ("totalInteractions", VInt (len interactions));
      ("totalFileOperations", VInt (len file_operations));
      ("totalTerminalEvents", VInt (len terminal_events));
      ("fileCreates", VInt (len (List.filter (Py.is_type "file_created") file_operations)));
      ("fileModifies", VInt (len (List.filter (Py.is_type "file_modified") file_operations)));
      ("fileDeletes", VInt (len (List.filter (Py.is_type "file_deleted") file_operations)));
      ("commandsExecuted",
       VInt (len (List.filter (Py.is_type "command_executed") terminal_events))) ].

(** The report of [watch_session] when nothing raises. *)
Record Watched := {
  violations : list dict;
  riskScore : Z;
  alerts : list dict;
  timeline : list dict;
  metrics : dict;
  confidence : Z;
  evidence : list pyval;
  explanation : string
}.

(** The report: [{"success": True, ...}], or, when an exception [e] is
    caught, [{"success": False, "violations": [], "riskScore": 0,
    "explanation": f"Error: {str(e)}"}], of which the embedding keeps the
    exception in the place of its text. *)
Inductive Report :=
| Success (report : Watched)
| Failure (violations : list dict) (riskScore : Z) (error : exn).

Definition watch_session (db : Database) (session_id : string)
           (include_file_operations include_terminal_events : pyval) : Report :=
  let body : result Watched :=
    let interactions := get_interactions db session_id in
    let file_operations :=
      if Py.truthy include_file_operations then get_file_operations db session_id else [] in
    let terminal_events :=
      if Py.truthy include_terminal_events then get_terminal_events db session_id else [] in
    let* violations := _detect_violations interactions file_operations terminal_events in
    let risk_score := _calculate_risk_score violations interactions in
    let alerts := _generate_alerts violations risk_score in
    let* timeline := _build_timeline interactions file_operations terminal_events in
    let metrics := _calculate_metrics interactions file_operations terminal_events in
    Ok {| violations := violations;
          riskScore := risk_score;
          alerts := alerts;
          timeline := timeline;
          metrics := metrics;
          confidence := 80;
          evidence := map (fun v => Py.get_or v "description" (VStr EmptyString)) violations;
          explanation := pretty (len violations) +:+ " violations detected" |} in
  match body with
  | Ok report => Success report
  | Err e => Failure [] 0 e
  end.

End Defs.
End Watcher.

(** ** Agent 7: the executor ([agent_7_executor.py]) *)

Module Executor.

Record CopyPastePattern := {
  copyTimestamp : pyval;
  pasteTimestamp : pyval;
  timeDiff : option float
}.

Record TimingPatterns := {
  averageGap : float;
  medianGap : float;
  totalEvents : Z
}.

Record PromptPatterns := {
  solution_request : Z;
  explanation_request : Z;
  code_review : Z;
  other : Z
}.

(** [timingPatterns] stays [{}] ([None] here) when no gap is found. *)
Record Patterns := {
  copyPastePatterns : list CopyPastePattern;
  timingPatterns : option TimingPatterns;
  promptPatterns : PromptPatterns
}.

Section Defs.
Context (rt : Runtime).

Definition _time_diff (timestamp1 timestamp2 : pyval) : option float :=
  let body : result (option float) :=
    let* timestamp1 := Py.parse_if_str rt timestamp1 in
    let* timestamp2 := Py.parse_if_str rt timestamp2 in
    match timestamp1, timestamp2 with
    | VDatetime d1, VDatetime d2 =>
        let* diff := Py.seconds_between d1 d2 in
        Ok (if Float64.ltb (Float64.of_Z 0) diff then Some diff else None)
    | _, _ => Ok None
    end in
  match catch body with
  | Some r => r
  | None => None
  end.

Definition _events_close_in_time (event1 event2 : dict) (threshold_seconds : Z) : bool :=
  match _time_diff (Py.get event1 "timestamp") (Py.get event2 "timestamp") with
  | Some time_diff =>
      Float64.ltb (Float64.of_Z 0) time_diff
      && Float64.ltb time_diff (Float64.of_Z threshold_seconds)
  | None => false
  end.

(** The body of the loop over the copy events. *)
Definition pair_copy (paste_events : list dict)
           (found : list CopyPastePattern) (copy_event : dict) : list CopyPastePattern :=
  match List.find (fun p => _events_close_in_time copy_event p 30) paste_events with
  | Some paste =>
      if Py.truthy (VDict paste) then
        append found
          {| copyTimestamp := Py.get_or copy_event "timestamp" (VStr EmptyString);
             pasteTimestamp := Py.get_or paste "timestamp" (VStr EmptyString);
             timeDiff := _time_diff (Py.get copy_event "timestamp")
                                    (Py.get paste "timestamp") |}
      else found
  | None => found
  end.

(** The gaps between each interaction and the next:
    [for i in range(1, len(interactions))]. *)
Fixpoint gaps_from (previous : dict) (rest : list dict) : list float :=
  match rest with
  | [] => []
  | e :: rest' =>
      let gap := _time_diff (Py.get previous "timestamp") (Py.get e "timestamp") in
      match gap with
      | Some g => if Py.gap_truthy gap then g :: gaps_from e rest' else gaps_from e rest'
      | None => gaps_from e rest'
      end
  end.

Definition consecutive_gaps (interactions : list dict) : list float :=
  match interactions with
  | [] => []
  | e :: rest => gaps_from e rest
  end.

Definition timing_of (interactions : list dict) : result (option TimingPatterns) :=
  if 2 <=? len interactions then
    let gaps := consecutive_gaps interactions in
    match gaps with
    | [] => Ok None
    | _ =>
        match Py.sorted_floats gaps !! Z.to_nat (len gaps / 2) with
        | Some median =>
            Ok (Some {| averageGap := Float64.div (Float64.sum gaps) (Float64.of_Z (len gaps));
                        medianGap := median;
                        totalEvents := len interactions |})
        | None => Err IndexError
        end
    end
  else Ok None.

Definition solution_re : Re.pattern :=
  [["solve"]; ["complete"]; ["write"; "code"]; ["implement"]].
Definition explanation_re : Re.pattern := [["explain"]; ["why"]; ["how"; "work"]].
Definition review_re : Re.pattern := [["review"]; ["check"]; ["improve"]].

(** The body of the loop over the prompts. *)
Definition categorize (c : PromptPatterns) (prompt : dict) : result PromptPatterns :=
  let* prompt_text := Py.lower (Py.get_or prompt "prompt_text" (VStr EmptyString)) in
  if Re.search solution_re prompt_text then
    Ok {| solution_request := solution_request c + 1;
          explanation_request := explanation_request c;
          code_review := code_review c; other := other c |}
  else if Re.search explanation_re prompt_text then
    Ok {| solution_request := solution_request c;
          explanation_request := explanation_request c + 1;
          code_review := code_review c; other := other c |}
  else if Re.search review_re prompt_text then
    Ok {| solution_request := solution_request c;
          explanation_request := explanation_request c;
          code_review := code_review c + 1; other := other c |}
  else
    Ok {| solution_request := solution_request c;
          explanation_request := explanation_request c;
          code_review := code_review c; other := other c + 1 |}.

Definition _extract_patterns (interactions : list dict) : result Patterns :=
  let copy_events := List.filter Py.is_copy interactions in
  let paste_events := List.filter Py.is_paste interactions in
  let copy_paste := fold_left (pair_copy paste_events) copy_events [] in
  let* timing := timing_of interactions in
  let prompts := List.filter (Py.is_type "prompt_sent") interactions in
  let* categories :=
    for_each categorize prompts
      {| solution_request := 0; explanation_request := 0; code_review := 0; other := 0 |} in
  Ok {| copyPastePatterns := copy_paste;
        timingPatterns := timing;
        promptPatterns := categories |}.

Definition _calculate_behavior_score (interactions : list dict) : result Z :=
  match interactions with
  | [] => Ok 50
  | _ =>
      let prompts := List.filter (Py.is_type "prompt_sent") interactions in
      let modifications := List.filter (Py.is_type "code_modified") interactions in
      match prompts with
      | _ :: _ =>
          let* ratio := Float64.truediv (len modifications) (len prompts) in
          let* score :=
            Float64.to_int
              (Float64.add (Float64.mul ratio (Float64.of_Z 50)) (Float64.of_Z 50)) in
          Ok (Z.min 100 score)
      | [] => Ok 50
      end
  end.

(** A ratio of two counts: the float of a true division, or the integer
    [0] of the guard. *)
Inductive number :=
| NInt (z : Z)
| NFloat (x : float).

Record CodeQuality := {
  totalLines : Z;
  nonEmptyLines : Z;
  comments : Z;
  commentRatio : number;
  complexity : string;
  maxIndentation : Z
}.

(** [len(line) - len(line.lstrip())]. *)
Definition indent_of (line : string) : Z :=
  Z.of_nat (String.length line) - Z.of_nat (String.length (Str.lstrip line)).

(** [l.strip()] as a condition. *)
Definition is_non_empty (l : string) : bool :=
  negb (String.eqb (Str.strip l) EmptyString).

Definition is_comment (l : string) : bool :=
  Str.starts_with "#" (Str.strip l) || Str.starts_with "//" (Str.strip l).

(** The result is [{}] ([None] here) when there is no code. *)
Definition _assess_code_quality (code : pyval) : result (option CodeQuality) :=
  if negb (Py.truthy code) then Ok None
  else
    match code with
    | VStr code =>
        let lines := Str.split_lines code in
        let total_lines := len lines in
        let non_empty_lines := len (List.filter is_non_empty lines) in
        let comments := len (List.filter is_comment lines) in
        let max_indent := fold_left (fun max_indent line => Z.max max_indent (indent_of line))
                                    lines 0 in
        let complexity :=
          if max_indent <? 8 then "low" else if max_indent <? 16 then "medium" else "high" in
        let* comment_ratio :=
          if 0 <? non_empty_lines then
            let* q := Float64.truediv comments non_empty_lines in Ok (NFloat q)
          else Ok (NInt 0) in
        Ok (Some {| totalLines := total_lines;
                    nonEmptyLines := non_empty_lines;
                    comments := comments;
                    commentRatio := comment_ratio;
                    complexity := complexity;
                    maxIndentation := max_indent |})
    | _ => Err AttributeError
    end.

Record CodeIntegration := {
  modifications : Z;
  copies : Z;
  modificationRatio : number;
  integrationQuality : string
}.

Definition _analyze_code_integration (interactions : list dict) : result CodeIntegration :=
  let modifications := List.filter (Py.is_type "code_modified") interactions in
  let copies := List.filter Py.is_copy interactions in
  let* modification_ratio :=
    match copies with
    | _ :: _ => let* q := Float64.truediv (len modifications) (len copies) in Ok (NFloat q)
    | [] => Ok (NInt 0)
    end in
  Ok {| modifications := len modifications;
        copies := len copies;
        modificationRatio := modification_ratio;
        integrationQuality := if len copies <? len modifications then "good" else "poor" |}.

(** The three skills; [codeQualitySkill] is the key ["codeQuality"] of
    the skills, named apart from the key of the report. *)
Record Skills := {
  problemSolving : string;
  codeQualitySkill : string;
  independence : string
}.

Definition _assess_skills (interactions : list dict) (code : pyval) : result Skills :=
  let prompts := List.filter (Py.is_type "prompt_sent") interactions in
  let modifications := List.filter (Py.is_type "code_modified") interactions in
  let* independence :=
    match prompts, modifications with
    | _ :: _, _ :: _ =>
        let* independence_ratio := Float64.truediv (len modifications) (len prompts) in
        if Float64.ltb (Float64.of_Z 2) independence_ratio then Ok "high"
        else if Float64.ltb independence_ratio Float64.half then Ok "low"
        else Ok "medium"
    | _, _ => Ok "medium"
    end in
  let* code_quality :=
    if Py.truthy code then
      let* lines := Py.split_line_count code in
      if 50 <? lines then Ok "high"
      else if lines <? 10 then Ok "low"
      else Ok "medium"
    else Ok "medium" in
  Ok {| problemSolving := "medium";
        codeQualitySkill := code_quality;
        independence := independence |}.

(** The report of [execute_analysis] when nothing raises. *)
Record Analysed := {
  codeQuality : option CodeQuality;
  patterns : Patterns;
  codeIntegration : CodeIntegration;
  behaviorScore : Z;
  skills : Skills;
  confidence : Z;
  explanation : string
}.

(** The report: [{"success": True, ...}], or, when an exception [e] is
    caught, [{"success": False, "explanation": f"Error: {str(e)}"}], of
    which the embedding keeps the exception in the place of its text. *)
Inductive Report :=
| Success (report : Analysed)
| Failure (error : exn).

(** The first step of [execute_analysis]: the code that is analysed is
    the code passed, or else the code of the last snapshot. *)
Definition code_to_analyse (db : Database) (session_id : string) (code : pyval) : pyval :=
  if negb (Py.truthy code) then
    let snapshots := get_code_snapshots db session_id in
    match last snapshots with
    | Some snapshot => Py.get_or snapshot "code" (VStr EmptyString)
    | None => code
    end
  else code.

Definition execute_analysis (db : Database) (session_id : string) (code : pyval) : Report :=
  let body : result Analysed :=
    let code := code_to_analyse db session_id code in
    let interactions := get_interactions db session_id in
    let* code_quality :=
      if Py.truthy code then _assess_code_quality code else Ok None in
    let* patterns := _extract_patterns interactions in
    let* code_integration := _analyze_code_integration interactions in
    let* behavior_score := _calculate_behavior_score interactions in
    let* skills := _assess_skills interactions code in
    Ok {| codeQuality := code_quality;
          patterns := patterns;
          codeIntegration := code_integration;
          behaviorScore := behavior_score;
          skills := skills;
          confidence := 75;
          explanation := "Code analysis completed" |} in
  match body with
  | Ok report => Success report
  | Err e => Failure e
  end.

End Defs.
End Executor.

(** ** Agent 8: the sanity-flag agent ([agent_8_sanity_flag.py]) *)

Module SanityFlag.

Record Analysis := {
  suspicious : bool;
  patterns : list string;
  confidence : Z
}.

Section Defs.
Context (rt : Runtime).

Definition solution_patterns : list Re.pattern :=
  [ [["solve"; "entire"; "problem"]];
    [["write"; "complete"; "solution"]];
    [["give"; "full"; "code"]];
    [["do"; "whole"; "thing"]];
    [["complete"; "for"; "me"]] ].

Definition violation (severity type description timestamp : string) : dict :=
  list_to_map [ ("severity", VStr severity); ("type", VStr type);
                ("description", VStr description); ("timestamp", VStr timestamp) ].

Definition flag (type description severity : string) : dict :=
  list_to_map [ ("type", VStr type); ("description", VStr description);
                ("severity", VStr severity) ].

Definition check (name status message : string) : dict :=
  list_to_map [ ("check", VStr name); ("status", VStr status); ("message", VStr message) ].

Definition _time_diff (timestamp1 timestamp2 : pyval) : option float :=
  let body : result (option float) :=
    let* timestamp1 := Py.parse_if_str rt timestamp1 in
    let* timestamp2 := Py.parse_if_str rt timestamp2 in
    match timestamp1, timestamp2 with
    | VDatetime d1, VDatetime d2 =>
        let* diff := Py.seconds_between d1 d2 in
        Ok (if Float64.ltb (Float64.of_Z 0) diff then Some diff else None)
    | _, _ => Ok None
    end in
  match catch body with
  | Some r => r
  | None => None
  end.

(** The body of the loop over the prompts; the state is the list of
    violations and the number of readings of the clock so far (the
    timestamp expression reads it when the timestamp is a datetime). *)
Definition check_prompt (st : list dict * nat) (prompt : dict) : result (list dict * nat) :=
  let '(violations, ticks) := st in
  let* prompt_text := Py.lower (Py.get_or prompt "prompt_text" (VStr EmptyString)) in
  if existsb (fun pattern => Re.search pattern prompt_text) solution_patterns then
    Ok (append violations
          (violation "high" "solution_request_pattern"
                     "Candidate requested complete solution"
                     (Py.timestamp_text rt prompt)),
        if Py.is_datetime (Py.get prompt "timestamp") then S ticks else ticks)
  else Ok (violations, ticks).

Definition _detect_violations (events : list dict) : result (list dict) :=
  let prompts :=
    List.filter (fun e => Py.is_type "prompt_sent" e && Py.truthy (Py.get e "prompt_text"))
                events in
  let* st := for_each check_prompt prompts ([], O) in
  let '(violations, ticks) := st in
  let copy_events := List.filter Py.is_copy events in
  let '(violations, ticks) :=
    if 5 <? len copy_events then
      (append violations
         (violation "high" "excessive_copying"
                    ("Excessive code copying: " +:+ pretty (len copy_events) +:+ " copy events")
                    (rt_isoformat rt (rt_now rt ticks))),
       S ticks)
    else (violations, ticks) in
  let modifications := List.filter (Py.is_type "code_modified") events in
  let violations :=
    if (len modifications <? 3) && (10 <? len prompts) then
      append violations
        (violation "medium" "suspicious_timing"
                   "Very few modifications compared to prompts (potential copy-paste)"
                   (rt_isoformat rt (rt_now rt ticks)))
    else violations in
  Ok violations.

(** The body of the scoring loop. *)
Definition add_severity (base_score : Z) (violation : dict) : Z :=
  let severity := Py.get_or violation "severity" (VStr "low") in
  if Py.eq_str severity "high" then base_score + 30
  else if Py.eq_str severity "medium" then base_score + 15
  else base_score + 5.

Definition _calculate_risk_score (violations events : list dict) : result Z :=
  let base_score := fold_left add_severity violations 0 in
  let prompts := List.filter (Py.is_type "prompt_sent") events in
  let copies := List.filter Py.is_copy events in
  let modifications := List.filter (Py.is_type "code_modified") events in
  let* base_score :=
    match modifications, copies with
    | _ :: _, _ :: _ =>
        let* copy_mod_ratio := Float64.truediv (len copies) (len modifications) in
        Ok (if Float64.ltb (Float64.of_Z 2) copy_mod_ratio then base_score + 20
            else base_score)
    | _, _ => Ok base_score
    end in
  let base_score := if 20 <? len prompts then base_score + 15 else base_score in
  Ok (Z.min 100 base_score).

Definition _detect_red_flags (events submissions : list dict) : result (list dict) :=
  let red_flags : list dict := [] in
  let red_flags :=
    match submissions with
    | _ :: _ =>
        let perfect_submissions :=
          List.filter (fun s => Py.eq_int (Py.get_or s "score" (VInt 0)) 100) submissions in
        let modifications := List.filter (Py.is_type "code_modified") events in
        match perfect_submissions with
        | _ :: _ =>
            if len modifications <? 3 then
              append red_flags
                (flag "perfect_solution_no_modifications"
                      "Perfect solution with minimal code modifications" "high")
            else red_flags
        | [] => red_flags
        end
    | [] => red_flags
    end in
  let* red_flags :=
    match Py.keyed_by_timestamp rt 0 events,
          Py.keyed_by_timestamp rt (length events) events with
    | k :: ks, k' :: ks' =>
        let* first_event := Py.min_by k ks in
        let* last_event := Py.max_by k' ks' in
        let time_diff :=
          _time_diff (Py.get first_event "timestamp") (Py.get last_event "timestamp") in
        match time_diff with
        | Some d =>
            if Py.gap_truthy time_diff && Float64.ltb d (Float64.of_Z 300) then
              let modifications := List.filter (Py.is_type "code_modified") events in
              if 10 <? len modifications then
                Ok (append red_flags
                      (flag "rapid_completion"
                            "Rapid code completion with many modifications" "medium"))
              else Ok red_flags
            else Ok red_flags
        | None => Ok red_flags
        end
    | _, _ => Ok red_flags
    end in
  let copies := List.filter Py.is_copy events in
  let modifications := List.filter (Py.is_type "code_modified") events in
  match copies with
  | _ :: _ =>
      if len modifications =? 0 then
        Ok (append red_flags
              (flag "no_modifications_only_copies"
                    "No code modifications, only copy-paste operations" "high"))
      else Ok red_flags
  | [] => Ok red_flags
  end.

(** The gaps between each sorted event and the next:
    [for i in range(1, len(sorted_events))]. *)
Fixpoint gaps_from (previous : dict) (rest : list dict) : list float :=
  match rest with
  | [] => []
  | e :: rest' =>
      let gap := _time_diff (Py.get previous "timestamp") (Py.get e "timestamp") in
      match gap with
      | Some g => if Py.gap_truthy gap then g :: gaps_from e rest' else gaps_from e rest'
      | None => gaps_from e rest'
      end
  end.

Definition consecutive_gaps (sorted_events : list dict) : list float :=
  match sorted_events with
  | [] => []
  | e :: rest => gaps_from e rest
  end.

Definition rapid_fire_events : dict :=
  flag "rapid_fire_events" "Events occurring in rapid succession" "medium".

Definition long_inactivity : dict :=
  flag "long_inactivity" "Long periods of inactivity detected" "low".

(** The part of [_detect_anomalies] after the gaps are known. *)
Definition classify_gaps (gaps : list float) : list dict :=
  match gaps with
  | [] => []
  | _ =>
      let avg_gap := Float64.div (Float64.sum gaps) (Float64.of_Z (len gaps)) in
      if Float64.ltb avg_gap (Float64.of_Z 5) then [rapid_fire_events]
      else if Float64.ltb (Float64.of_Z 3600) avg_gap then [long_inactivity]
      else []
  end.

Definition _detect_anomalies (events : list dict) : result (list dict) :=
  if len events <? 2 then Ok []
  else
    let* sorted_events := Py.sorted (Py.keyed_by_timestamp rt 0 events) in
    Ok (classify_gaps (consecutive_gaps sorted_events)).

(** The inner loop of the second check: does some response contain the
    copied code?  The loop stops at the first that does. *)
Definition matches_response (copied_code : pyval) (response : dict) : result bool :=
  let response_text := Py.get_or response "response_text" (VStr EmptyString) in
  if Py.truthy copied_code then
    if Py.truthy response_text then Py.contains copied_code response_text
    else Ok false
  else Ok false.

(** The body of the outer loop of the second check. *)
Definition check_copy (responses : list dict) (analysis : Analysis) (copy_event : dict)
  : result Analysis :=
  let copied_code := Py.get_or copy_event "code_snippet" (VStr EmptyString) in
  let* found := any_r (matches_response copied_code) responses in
  if found then
    Ok {| suspicious := true;
          patterns := append (patterns analysis) "code_matches_ai_response";
          confidence := Z.max (confidence analysis) 70 |}
  else Ok analysis.

(** [codes = [s.get("code", '') for s in submissions if s.get("code")]]. *)
Definition codes_of (submissions : list dict) : list pyval :=
  map (fun s => Py.get_or s "code" (VStr EmptyString))
      (List.filter (fun s => Py.truthy (Py.get s "code")) submissions).

(** The first check of [_analyze_plagiarism]: identical submissions. *)
Definition check_identical (submissions : list dict) (analysis : Analysis)
  : result Analysis :=
  if 1 <? len submissions then
    let codes := codes_of submissions in
    let* distinct_codes := Py.set_size codes in
    if distinct_codes <? len codes then
      Ok {| suspicious := true;
            patterns := append (patterns analysis) "identical_submissions";
            confidence := 80 |}
    else Ok analysis
  else Ok analysis.

(** The second check: code that matches an AI response. *)
Definition check_responses (events : list dict) (analysis : Analysis) : result Analysis :=
  let copies := List.filter Py.is_copy events in
  let responses := List.filter (Py.is_type "response_received") events in
  match copies, responses with
  | _ :: _, _ :: _ => for_each (check_copy responses) copies analysis
  | _, _ => Ok analysis
  end.

(** [{"suspicious": False, "patterns": [], "confidence": 0}]. *)
Definition initial_analysis : Analysis :=
  {| suspicious := false; patterns := []; confidence := 0 |}.

Definition _analyze_plagiarism (submissions events : list dict) : result Analysis :=
  let analysis := initial_analysis in
  let* analysis := check_identical submissions analysis in
  check_responses events analysis.

Definition _generate_sanity_checks (violations red_flags anomalies : list dict) : list dict :=
  let checks : list dict := [] in
  let checks :=
    if 5 <? len violations then
      append checks
        (check "violation_count" "failed"
               ("Too many violations: " +:+ pretty (len violations)))
    else
      append checks
        (check "violation_count" "passed"
               ("Violation count acceptable: " +:+ pretty (len violations))) in
  let checks :=
    match red_flags with
    | _ :: _ =>
        let high_severity_flags :=
          List.filter (fun f => Py.eq_str (Py.get f "severity") "high") red_flags in
        match high_severity_flags with
        | _ :: _ =>
            append checks
              (check "red_flags" "failed"
                     (pretty (len high_severity_flags)
                      +:+ " high-severity red flags detected"))
        | [] =>
            append checks
              (check "red_flags" "warning"
                     (pretty (len red_flags) +:+ " red flags detected"))
        end
    | [] => append checks (check "red_flags" "passed" "No red flags detected")
    end in
  match anomalies with
  | _ :: _ =>
      append checks
        (check "anomalies" "warning" (pretty (len anomalies) +:+ " anomalies detected"))
  | [] => append checks (check "anomalies" "passed" "No anomalies detected")
  end.

End Defs.

(** The report of [flag_sanity_checks] when nothing raises;
    [reportConfidence] is the key ["confidence"] of the report, named apart
    from that of the analysis. *)
Record Flagged := {
  violations : list dict;
  riskScore : Z;
  redFlags : list dict;
  anomalies : list dict;
  plagiarismAnalysis : Analysis;
  sanityChecks : list dict;
  reportConfidence : Z;
  explanation : string
}.

(** The report: [{"success": True, ...}], or, when an exception [e] is
    caught, [{"success": False, "explanation": f"Error: {str(e)}"}], of
    which the embedding keeps the exception in the place of its text. *)
Inductive Report :=
| Success (report : Flagged)
| Failure (error : exn).

(** The first step of [flag_sanity_checks]: the events that are analysed
    are the events passed, or else, when none or an empty list is passed,
    the stored events of the session. *)
Definition events_to_analyse (db : Database) (session_id : string)
           (events : option (list dict)) : list dict :=
  match events with
  | Some (e :: events') => e :: events'
  | _ =>
      let interactions := get_interactions db session_id in
      let file_operations := get_file_operations db session_id in
      let terminal_events := get_terminal_events db session_id in
      (interactions ++ file_operations ++ terminal_events)%list
  end.

(** [rt] has the readings of the clock during [_detect_violations];
    [clock_red_flags] and [clock_anomalies] are the readings during the two
    later detectors. *)
Definition flag_sanity_checks (rt : Runtime) (clock_red_flags clock_anomalies : nat -> datetime)
           (db : Database) (session_id : string) (events : option (list dict)) : Report :=
  let body : result Flagged :=
    let events := events_to_analyse db session_id events in
    let submissions := get_submissions db session_id in
    let* violations := _detect_violations rt events in
    let* risk_score := _calculate_risk_score violations events in
    let* red_flags := _detect_red_flags (Py.with_clock rt clock_red_flags) events submissions in
    let* anomalies := _detect_anomalies (Py.with_clock rt clock_anomalies) events in
    let* plagiarism_analysis := _analyze_plagiarism submissions events in
    let sanity_checks := _generate_sanity_checks violations red_flags anomalies in
    Ok {| violations := violations;
          riskScore := risk_score;
          redFlags := red_flags;
          anomalies := anomalies;
          plagiarismAnalysis := plagiarism_analysis;
          sanityChecks := sanity_checks;
          reportConfidence := 85;
          explanation :=
            "Risk assessment completed: " +:+ pretty (len violations) +:+ " violations, "
            +:+ pretty (len red_flags) +:+ " red flags" |} in
  match body with
  | Ok report => Success report
  | Err e => Failure e
  end.

End SanityFlag.

(** ** The formulas of the specification

    Written after the words of the specification, to be compared with the
    functions above. *)

Module Spec.

(** The number of elements of [l] that satisfy [p]. *)
Fixpoint count {A} (p : A -> bool) (l : list A) : Z :=
  match l with
  | [] => 0
  | x :: l' => (if p x then 1 else 0) + count p l'
  end.

(** Weights high = 30, medium = 15, anything else = 5. *)
Definition severityWeight (v : dict) : Z :=
  match v !! "severity" with
  | Some (VStr s) =>
      if String.eqb s "high" then 30
      else if String.eqb s "medium" then 15
      else 5
  | _ => 5
  end.

Fixpoint weight_sum (violations : list dict) : Z :=
  match violations with
  | [] => 0
  | v :: rest => severityWeight v + weight_sum rest
  end.

(** [score = min(100, sum of severityWeight(v))]. *)
Definition watch_risk_score (violations : list dict) : Z :=
  Z.min 100 (weight_sum violations).

(** Add 20 if both counts are nonzero and [copies / modifications > 2]. *)
Definition copy_ratio_bonus (copies modifications : Z) : result Z :=
  if (copies =? 0) || (modifications =? 0) then Ok 0
  else
    let* ratio := Float64.truediv copies modifications in
    Ok (if Float64.ltb (Float64.of_Z 2) ratio then 20 else 0).

(** Add 15 if the prompt count exceeds 20. *)
Definition prompt_bonus (prompts : Z) : Z := if 20 <? prompts then 15 else 0.

(** The flag-mode score: the bonuses join the sum before the cap. *)
Definition flag_risk_score (violations events : list dict) : result Z :=
  let* bonus :=
    copy_ratio_bonus (count Py.is_copy events)
                     (count (Py.is_type "code_modified") events) in
  Ok (Z.min 100 (weight_sum violations + bonus
                 + prompt_bonus (count (Py.is_type "prompt_sent") events))).

(** [min(100, f(modifications / prompts * 50 + 50))] if there are prompts,
    else 50, for a conversion [f] of a float to an integer. *)
Definition behavior_score_with (f : float -> result Z) (interactions : list dict)
  : result Z :=
  let prompts := count (Py.is_type "prompt_sent") interactions in
  let modifications := count (Py.is_type "code_modified") interactions in
  if prompts =? 0 then Ok 50
  else
    let* ratio := Float64.truediv modifications prompts in
    let* score := f (Float64.add (Float64.mul ratio (Float64.of_Z 50)) (Float64.of_Z 50)) in
    Ok (Z.min 100 score).

(** With [round], as the specification has it. *)
Definition behavior_score_round : list dict -> result Z :=
  behavior_score_with Float64.round_int.

(** With the truncation of [int]. *)
Definition behavior_score_trunc : list dict -> result Z :=
  behavior_score_with Float64.to_int.

(** The type tag and the severity of a violation, a red flag or an anomaly. *)
Definition has_type (ty : string) (v : dict) : Prop := v !! "type" = Some (VStr ty).
Definition has_severity (sev : string) (v : dict) : Prop := v !! "severity" = Some (VStr sev).

(** The timestamp text of a timeline entry. *)
Definition entry_timestamp (x : dict) : option string :=
  match x !! "timestamp" with
  | Some (VStr s) => Some s
  | _ => None
  end.

(** [a.timestamp <= b.timestamp] on two timeline entries. *)
Definition timestamp_le (a b : dict) : Prop :=
  exists s u,
    entry_timestamp a = Some s /\ entry_timestamp b = Some u /\ Str.leb s u = true.

(** An entry whose timestamp is a string. *)
Definition stamped (x : dict) : Prop := exists s, x !! "timestamp" = Some (VStr s).

(** In a list of keyed elements, [a] may stand before [b]: the key of [b]
    is not less than the key of [a]. *)
Definition key_le {A} (a b : pyval * A) : Prop := Py.lt (fst b) (fst a) = Ok false.

(** All keys are strings. *)
Definition str_keyed {A} (l : list (pyval * A)) : Prop :=
  Forall (fun p => exists s, fst p = VStr s) l.

(** A prompt that carries text: a non-empty string. *)
Definition carries_text (e : dict) : Prop :=
  exists s, e !! "prompt_text" = Some (VStr s) /\ s <> EmptyString.

(** The number of lines of the snippet of a copy event. *)
Definition snippet_lines (e : dict) : result Z :=
  Py.split_line_count
    (Py.or_else (Py.get_or e "code_snippet" (VStr EmptyString)) (VStr EmptyString)).

(** The lowered text of a prompt matches one of the patterns. *)
Definition prompt_matches (patterns : list Re.pattern) (e : dict) : Prop :=
  exists text,
    Py.lower (Py.get_or e "prompt_text" (VStr EmptyString)) = Ok text
    /\ existsb (fun pattern => Re.search pattern text) patterns = true.

(** A prompt of the detectors: a [prompt_sent] event with a text. *)
Definition is_text_prompt (e : dict) : bool :=
  Py.is_type "prompt_sent" e && Py.truthy (Py.get e "prompt_text").

(** The watch-mode rules: what a violation of the watcher is, given the
    interactions and the file operations. *)
Definition watch_rule (rt : Runtime) (interactions file_operations : list dict)
           (v : dict) : Prop :=
  (has_type "large_code_copy" v
   /\ exists e n,
       e ∈ interactions /\ Py.is_copy e = true
       /\ snippet_lines e = Ok n /\ 50 < n
       /\ has_severity (if 100 <? n then "high" else "medium") v)
  \/ (has_type "solution_request" v /\ has_severity "high" v
      /\ exists e,
          e ∈ interactions /\ is_text_prompt e = true
          /\ prompt_matches Watcher.red_flag_patterns e)
  \/ (has_type "suspicious_file_operation" v /\ has_severity "medium" v
      /\ exists e path lowered,
          e ∈ file_operations
          /\ Watcher.file_path_of (Py.metadata_of rt e) = Ok path
          /\ Py.lower path = Ok lowered
          /\ existsb (fun sus => Str.contains sus lowered) Watcher.suspicious_files = true).

(** The flag-mode rules: what a violation of the sanity-flag agent is,
    given the events. *)
Definition flag_rule (events : list dict) (v : dict) : Prop :=
  (has_type "solution_request_pattern" v /\ has_severity "high" v
   /\ exists e,
       e ∈ events /\ is_text_prompt e = true
       /\ prompt_matches SanityFlag.solution_patterns e)
  \/ (has_type "excessive_copying" v /\ has_severity "high" v
      /\ 5 < count Py.is_copy events)
  \/ (has_type "suspicious_timing" v /\ has_severity "medium" v
      /\ count (Py.is_type "code_modified") events < 3
      /\ 10 < count is_text_prompt events).

(** A text field: a string, null or absent. *)
Definition text_or_null (v : pyval) : Prop :=
  match v with
  | VStr _ | VNone => True
  | _ => False
  end.

(** The instant a timestamp stands for: a datetime itself, or what a
    string parses to; nothing for an unparsable string or another value. *)
Definition instant (rt : Runtime) (t : pyval) : option datetime :=
  match Py.parse_if_str rt t with
  | Ok (VDatetime d) => Some d
  | _ => None
  end.

(** The second timestamp parses strictly later than the first. *)
Definition later (rt : Runtime) (t1 t2 : pyval) : Prop :=
  exists d1 d2,
    instant rt t1 = Some d1 /\ instant rt t2 = Some d2
    /\ dt_aware d1 = dt_aware d2 /\ dt_us d1 < dt_us d2.

(** What a recorded copy-to-paste pattern says: a copy event and a paste
    event of the interactions, the paste strictly later, the gap above 0
    and below 30 seconds. *)
Definition paired (rt : Runtime) (interactions : list dict)
           (p : Executor.CopyPastePattern) : Prop :=
  exists c paste d,
    c ∈ interactions /\ paste ∈ interactions
    /\ Py.is_copy c = true /\ Py.is_paste paste = true
    /\ Executor.copyTimestamp p = Py.get_or c "timestamp" (VStr EmptyString)
    /\ Executor.pasteTimestamp p = Py.get_or paste "timestamp" (VStr EmptyString)
    /\ Executor.timeDiff p = Some d
    /\ Float64.ltb (Float64.of_Z 0) d = true
    /\ Float64.ltb d (Float64.of_Z 30) = true
    /\ later rt (Py.get c "timestamp") (Py.get paste "timestamp").

(** All values are strings. *)
Definition all_text (l : list pyval) : Prop := Forall (fun v => exists s, v = VStr s) l.

(** [s] occurs in [t]. *)
Definition substring (s t : string) : Prop := exists pre post, t = pre +:+ s +:+ post.

(** The code text of a submission, when it is not empty. *)
Definition code_text (submission : dict) (code : string) : Prop :=
  submission !! "code" = Some (VStr code) /\ code <> EmptyString.

(** Two submissions have the same non-empty code text. *)
Definition identical_submissions (submissions : list dict) : Prop :=
  exists l1 a l2 b l3 code,
    submissions = (l1 ++ a :: l2 ++ b :: l3)%list
    /\ code_text a code /\ code_text b code.

(** A copy event matches a response: its snippet, not empty, occurs in
    the text of the response. *)
Definition matches (c r : dict) : Prop :=
  exists snippet text,
    c !! "code_snippet" = Some (VStr snippet) /\ snippet <> EmptyString
    /\ r !! "response_text" = Some (VStr text)
    /\ substring snippet text.

(** Some copy event matches some [response_received] event. *)
Definition copy_matches_response (events : list dict) : Prop :=
  exists c r,
    c ∈ events /\ r ∈ events
    /\ Py.is_copy c = true /\ Py.is_type "response_received" r = true
    /\ matches c r.

(** The text fields that the plagiarism analysis reads are texts: the
    code of a submission, the snippet of a copy event, the text of a
    response. *)
Definition text_fields (submissions events : list dict) : Prop :=
  Forall (fun s => text_or_null (Py.get s "code")) submissions
  /\ Forall (fun e =>
               (Py.is_copy e = true -> text_or_null (Py.get e "code_snippet"))
               /\ (Py.is_type "response_received" e = true ->
                   text_or_null (Py.get e "response_text"))) events.

(** *** Predicates of the further properties

    What the statements about the other functions of the agents speak of:
    the shapes of fields, the offending events, the kinds of sort keys. *)

(** A submission with the perfect score. *)
Definition perfect (s : dict) : Prop := s !! "score" = Some (VInt 100).

(** The three red flags. *)
Definition perfect_solution_flag : dict :=
  SanityFlag.flag "perfect_solution_no_modifications"
                  "Perfect solution with minimal code modifications" "high".

Definition rapid_completion_flag : dict :=
  SanityFlag.flag "rapid_completion"
                  "Rapid code completion with many modifications" "medium".

Definition only_copies_flag : dict :=
  SanityFlag.flag "no_modifications_only_copies"
                  "No code modifications, only copy-paste operations" "high".

(** A text field that [.lower()] or [.split()] accepts where the code
    guards it with a truth test: a string, or a value that counts as
    false. *)
Definition text_or_falsy (v : pyval) : bool :=
  match v with
  | VStr _ => true
  | _ => negb (Py.truthy v)
  end.

(** A string. *)
Definition is_text (v : pyval) : bool :=
  match v with
  | VStr _ => true
  | _ => false
  end.

(** A file operation whose metadata, decoded, is an object with a path
    that is a string. *)
Definition has_file_path (rt : Runtime) (e : dict) : bool :=
  match Py.metadata_of rt e with
  | VDict m =>
      is_text (Py.or_else (Py.get_or m "filePath" (VStr EmptyString))
                          (Py.get_or m "fileName" (VStr EmptyString)))
  | _ => false
  end.

(** The total of the four prompt categories. *)
Definition category_total (c : Executor.PromptPatterns) : Z :=
  Executor.solution_request c + Executor.explanation_request c
  + Executor.code_review c + Executor.other c.

(** An interaction that [_get_event_description] can describe: the text
    of a prompt has a length and, beyond 50, a slice; the snippet of a copy
    splits into lines. *)
Definition describable (e : dict) : bool :=
  if Py.is_type "prompt_sent" e then
    match Py.get_or e "prompt_text" (VStr EmptyString) with
    | VStr _ => true
    | VDict d => Z.of_nat (size d) <=? 50
    | _ => false
    end
  else if Py.is_copy e then
    is_text (Py.get_or e "code_snippet" (VStr EmptyString))
  else true.

(** An event whose metadata, decoded, is an object. *)
Definition has_metadata (rt : Runtime) (e : dict) : bool :=
  match Py.metadata_of rt e with
  | VDict _ => true
  | _ => false
  end.

(** What a timeline entry keeps of its event: the type and the timestamp
    text. *)
Definition entry_of_event (rt : Runtime) (e : dict) : pyval * string :=
  (Py.get_or e "event_type" (VStr EmptyString), Py.timestamp_text rt e).

(** The type and the timestamp of a timeline entry. *)
Definition entry_head (x : dict) : option (pyval * string) :=
  match x !! "type", x !! "timestamp" with
  | Some ty, Some (VStr s) => Some (ty, s)
  | _, _ => None
  end.

(** A copy event whose snippet has more than 50 lines. *)
Definition large_copy (e : dict) : bool :=
  Py.is_copy e
  && match snippet_lines e with
     | Ok n => 50 <? n
     | Err _ => false
     end.

(** A prompt with a text that matches one of the patterns. *)
Definition asks_for_solution (patterns : list Re.pattern) (e : dict) : bool :=
  is_text_prompt e
  && match Py.lower (Py.get_or e "prompt_text" (VStr EmptyString)) with
     | Ok text => existsb (fun pattern => Re.search pattern text) patterns
     | Err _ => false
     end.

(** A file operation on a path that contains a suspicious keyword. *)
Definition suspicious_operation (rt : Runtime) (e : dict) : bool :=
  match (let* path := Watcher.file_path_of (Py.metadata_of rt e) in Py.lower path) with
  | Ok lowered => existsb (fun sus => Str.contains sus lowered) Watcher.suspicious_files
  | Err _ => false
  end.

(** The violations of one type. *)
Definition of_type (ty : string) (v : dict) : bool := Py.eq_str (Py.get v "type") ty.

(** The violation that the watcher reports for a large copy, for a prompt
    that asks for the solution, and for a suspicious file operation. *)
Definition copy_violation (rt : Runtime) (e : dict) : dict :=
  match snippet_lines e with
  | Ok n =>
      Watcher.violation (if 100 <? n then "high" else "medium") "large_code_copy"
        ("Copied " +:+ pretty n +:+ " lines of code from AI") (Py.timestamp_text rt e)
  | Err _ => ∅
  end.

Definition prompt_violation (rt : Runtime) (e : dict) : dict :=
  Watcher.violation "high" "solution_request"
    "Candidate asked AI to solve the entire problem" (Py.timestamp_text rt e).

Definition file_violation (rt : Runtime) (e : dict) : dict :=
  match Watcher.file_path_of (Py.metadata_of rt e) with
  | Ok path =>
      Watcher.violation "medium" "suspicious_file_operation"
        ("Suspicious file operation: " +:+ Py.str rt path) (Py.timestamp_text rt e)
  | Err _ => ∅
  end.

(** What a plagiarism analysis can look like after [k] copy events have
    matched a response: untouched, or flagged for identical submissions
    (confidence 80), or flagged for the matches only (confidence 70). *)
Definition analysis_shape (k : nat) (a : SanityFlag.Analysis) : Prop :=
  (a = SanityFlag.initial_analysis /\ k = O)
  \/ (SanityFlag.suspicious a = true /\ SanityFlag.confidence a = 80
      /\ SanityFlag.patterns a
         = ("identical_submissions" :: repeat "code_matches_ai_response" k))
  \/ (SanityFlag.suspicious a = true /\ SanityFlag.confidence a = 70
      /\ (0 < k)%nat
      /\ SanityFlag.patterns a = repeat "code_matches_ai_response" k).

(** The entry heads with the timestamp text [s]. *)
Definition at_time (s : string) (h : option (pyval * string)) : bool :=
  match h with
  | Some (_, u) => String.eqb u s
  | None => false
  end.

(** The keyed elements with the string key [k]. *)
Definition with_key {A} (k : string) (p : pyval * A) : bool := Py.eq_str (fst p) k.

(** The number of line breaks in a text. *)
Fixpoint newlines (s : string) : Z :=
  match s with
  | EmptyString => 0
  | String c s' => (if Ascii.eqb c Str.newline then 1 else 0) + newlines s'
  end.

(** The kinds of keys that [<] compares: texts among themselves, numbers
    among themselves, datetimes of one awareness among themselves; [None]
    and dicts compare with nothing. *)
Inductive key_kind :=
| KText
| KNumber
| KDatetime (aware : bool).

Definition kind_of (v : pyval) : option key_kind :=
  match v with
  | VStr _ => Some KText
  | VInt _ | VBool _ => Some KNumber
  | VDatetime d => Some (KDatetime (dt_aware d))
  | VNone | VDict _ => None
  end.

(** All keys are of the kind [k]. *)
Definition keys_of_kind {A} (k : key_kind) (l : list (pyval * A)) : Prop :=
  Forall (fun p => kind_of (fst p) = Some k) l.

(** A prompt text that both the detector and the timeline of the watcher
    accept: absent, a string, or an empty object. *)
Definition prompt_text_ok (e : dict) : bool :=
  match e !! "prompt_text" with
  | None | Some (VStr _) => true
  | Some (VDict d) => Nat.eqb (size d) 0
  | Some _ => false
  end.

(** A float that is not negative and at most [2^N]: a zero, or a finite
    float with a mantissa and an exponent in these bounds. *)
Definition float_at_most (N : Z) (x : float) : Prop :=
  match x with
  | S754_zero s => s = false
  | S754_finite s m e => s = false /\ Zpos m <= 2 ^ (N - e) /\ e <= N /\ e <= 971
  | _ => False
  end.

(** A copy event whose snippet has more than 100 lines. *)
Definition huge_copy (e : dict) : bool :=
  Py.is_copy e
  && match snippet_lines e with
     | Ok n => 100 <? n
     | Err _ => false
     end.

(** [x] is the timeline entry of the event [e], with the description that
    [describe] gives for it. *)
Definition entry_for (rt : Runtime) (describe : dict -> result pyval) (e x : dict) : Prop :=
  exists description,
    describe e = Ok description /\ x = Watcher.timeline_entry rt e description.

(** The timeline entries with the timestamp text [s]. *)
Definition entry_at (s : string) (x : dict) : bool := Py.eq_str (Watcher.timeline_key x) s.

(** A [prompt_sent] event whose text the timeline cannot show: null, a
    boolean, an integer or a datetime, which have no length, or an object
    of more than 50 keys, which has no slice. *)
Definition unshowable_prompt (e : dict) : bool :=
  Py.is_type "prompt_sent" e
  && match e !! "prompt_text" with
     | Some VNone | Some (VBool _) | Some (VInt _) | Some (VDatetime _) => true
     | Some (VDict d) => 50 <? Z.of_nat (size d)
     | Some (VStr _) | None => false
     end.

(** A [prompt_sent] event whose text stops the watcher, in the detector
    or in the timeline: null, a boolean, an integer, a datetime, or an
    object that is not empty. *)
Definition unfit_prompt (e : dict) : bool :=
  Py.is_type "prompt_sent" e
  && match e !! "prompt_text" with
     | Some VNone | Some (VBool _) | Some (VInt _) | Some (VDatetime _) => true
     | Some (VDict d) => negb (Nat.eqb (size d) 0)
     | Some (VStr _) | None => false
     end.

(** A copy event whose snippet is present and not a string. *)
Definition snippet_not_text (e : dict) : bool :=
  Py.is_copy e && negb (is_text (Py.get_or e "code_snippet" (VStr EmptyString))).

(** A terminal event whose description reads the metadata, and whose
    metadata, decoded, is not an object. *)
Definition terminal_without_metadata (rt : Runtime) (e : dict) : bool :=
  (Py.is_type "terminal_spawned" e || Py.is_type "command_executed" e)
  && negb (has_metadata rt e).

(** Keys that [<] does not compare: one of them is null or an object, or
    two of them are of two kinds. *)
Definition incomparable_keys {A} (l : list (pyval * A)) : Prop :=
  exists p q,
    p ∈ l /\ q ∈ l
    /\ (kind_of (fst p) = None \/ kind_of (fst p) <> kind_of (fst q)).

(** Some event is later than the one before it. *)
Definition some_later (rt : Runtime) (events : list dict) : Prop :=
  exists k a b,
    events !! k = Some a /\ events !! S k = Some b
    /\ later rt (Py.get a "timestamp") (Py.get b "timestamp").

(** The instants of the timestamps of the events lie within [2^1000]
    microseconds of the origin of the time line (those of a [datetime] of
    Python lie within [2^59]). *)
Definition instants_bounded (rt : Runtime) (events : list dict) : Prop :=
  Forall (fun e => forall d, instant rt (Py.get e "timestamp") = Some d ->
                             Z.abs (dt_us d) <= 2 ^ 1000) events.

(** A submission whose code is an object that is not empty. *)
Definition object_code (s : dict) : bool :=
  match Py.get s "code" with
  | VDict d => negb (Nat.eqb (size d) 0)
  | _ => false
  end.

End Spec.

(** ** A concrete runtime, for evaluating the agents *)

Module Demo.

Definition digit (c : ascii) : option Z :=
  let n := Z.of_N (N_of_ascii c) - 48 in
  if (0 <=? n) && (n <=? 9) then Some n else None.

(** Reads [hh:mm:ss] as a naive datetime on the first day of the clock. *)
Definition parse (s : string) : option datetime :=
  match s with
  | String h1 (String h2 (String ":" (String m1 (String m2 (String ":"
      (String s1 (String s2 EmptyString))))))) =>
      match digit h1, digit h2, digit m1, digit m2, digit s1, digit s2 with
      | Some a, Some b, Some c, Some d, Some e, Some f =>
          Some {| dt_us := (((a * 10 + b) * 60 + (c * 10 + d)) * 60 + (e * 10 + f)) * 1000000;
                  dt_aware := false |}
      | _, _, _, _, _, _ => None
      end
  | _ => None
  end.

Definition runtime : Runtime := {|
  rt_now := fun k => {| dt_us := 86400000000 + Z.of_nat k; dt_aware := false |};
  rt_parse := parse;
  rt_isoformat := fun d => "us=" +:+ pretty (dt_us d);
  rt_json_loads := fun _ => None;
  rt_repr := fun _ => "<object>"
|}.

(** An event with its type only. *)
Definition event (event_type : string) : dict := {[ "event_type" := VStr event_type ]}.

(** An event with its type and a timestamp string. *)
Definition event_at (event_type timestamp : string) : dict :=
  <[ "timestamp" := VStr timestamp ]> (event event_type).

(** A text of [n] lines. *)
Fixpoint lines (n : nat) : string :=
  match n with
  | O => EmptyString
  | S O => "x"
  | S n' => String "x" (String Str.newline (lines n'))
  end.


(** A copy event with a snippet of 120 lines. *)
Definition big_copy : dict :=
  <[ "code_snippet" := VStr (lines 120) ]> (event "code_copied").

(** Two submissions with the same code. *)
Definition twin_submissions : list dict :=
  [ {[ "code" := VStr "print(1)" ]}; {[ "code" := VStr "print(1)" ]} ].

(** A response and a copy of a part of it. *)
Definition copied_answer : list dict :=
  [ <[ "response_text" := VStr "try x = 1 first" ]> (event "response_received");
    <[ "code_snippet" := VStr "x = 1" ]> (event "code_copied") ].

(** Three submissions: an object as code, then the same text twice. *)
Definition object_code_submissions : list dict :=
  [ {[ "code" := VDict {[ "a" := VInt 1 ]} ]};
    {[ "code" := VStr "x" ]}; {[ "code" := VStr "x" ]} ].

(** A response, a copy whose snippet is a number, and a copy of a part of
    the response. *)
Definition number_snippet_events : list dict :=
  [ <[ "response_text" := VStr "try x = 1 first" ]> (event "response_received");
    <[ "code_snippet" := VInt 5 ]> (event "code_copied");
    <[ "code_snippet" := VStr "x = 1" ]> (event "code_copied") ].

(** A copy and a paste five seconds later. *)
Definition copy_then_paste : list dict :=
  [ event_at "code_copied" "10:00:00"; event_at "code_pasted" "10:00:05" ].

(** A prompt with a text. *)
Definition text_prompt : dict :=
  <[ "prompt_text" := VStr "how do I start" ]> (event "prompt_sent").

(** A backend with one session: two interactions, two submissions and one
    snapshot of three lines. *)
Definition database : Database := {|
  get_interactions := fun _ => [text_prompt; event "code_modified"];
  get_submissions := fun _ => twin_submissions;
  get_code_snapshots := fun _ => [ {[ "code" := VStr (lines 3) ]} ];
  get_file_operations := fun _ => [];
  get_terminal_events := fun _ => []
|}.

(** A prompt whose text is null. *)
Definition null_prompt : dict := <[ "prompt_text" := VNone ]> (event "prompt_sent").

(** A backend with one session that holds a prompt with a null text. *)
Definition database_with_null_prompt : Database := {|
  get_interactions := fun _ => [text_prompt; null_prompt];
  get_submissions := fun _ => [];
  get_code_snapshots := fun _ => [];
  get_file_operations := fun _ => [];
  get_terminal_events := fun _ => []
|}.

(** An event with a timestamp text and an event without a timestamp. *)
Definition one_missing_timestamp : list dict :=
  [ event_at "code_modified" "10:00:00"; event "code_modified" ].

End Demo.

(** * Properties *)

Lemma is_ok_inv {A} (r : result A) : is_ok r = true -> exists a, r = Ok a.
Proof. destruct r; [eauto|discriminate]. Qed.

(** ** Scoring *)

Section Scoring.

Lemma severityWeight_cases v :
  Spec.severityWeight v = 30 \/ Spec.severityWeight v = 15 \/ Spec.severityWeight v = 5.
Proof.
  unfold Spec.severityWeight.
  destruct (v !! "severity") as [[]|]; auto.
  destruct (String.eqb s "high"); auto.
  destruct (String.eqb s "medium"); auto.
Qed.

Lemma weight_sum_nonneg vs : 0 <= Spec.weight_sum vs.
Proof.
  induction vs as [|v vs IH]; simpl; [lia|].
  destruct (severityWeight_cases v) as [H|[H|H]]; lia.
Qed.

Lemma weight_sum_app vs ws :
  Spec.weight_sum (vs ++ ws) = Spec.weight_sum vs + Spec.weight_sum ws.
Proof. induction vs as [|v vs IH]; simpl; lia. Qed.

Lemma watcher_add_severity base v :
  Watcher.add_severity base v = base + Spec.severityWeight v.
Proof.
  unfold Watcher.add_severity, Spec.severityWeight, Py.get_or.
  destruct (v !! "severity") as [[]|]; simpl; try reflexivity.
  destruct (String.eqb s "high"); [reflexivity|].
  destruct (String.eqb s "medium"); reflexivity.
Qed.

Lemma flag_add_severity base v :
  SanityFlag.add_severity base v = base + Spec.severityWeight v.
Proof. apply watcher_add_severity. Qed.

Lemma watcher_fold_add_severity vs base :
  fold_left Watcher.add_severity vs base = base + Spec.weight_sum vs.
Proof.
  revert base; induction vs as [|v vs IH]; intros base; simpl; [lia|].
  rewrite IH, watcher_add_severity. lia.
Qed.

Lemma flag_fold_add_severity vs base :
  fold_left SanityFlag.add_severity vs base = base + Spec.weight_sum vs.
Proof. apply watcher_fold_add_severity. Qed.

Lemma len_filter_count {A} (p : A -> bool) (l : list A) :
  len (List.filter p l) = Spec.count p l.
Proof.
  unfold len. induction l as [|x l IH]; simpl; [reflexivity|].
  destruct (p x); simpl length; lia.
Qed.

Lemma count_nonneg {A} (p : A -> bool) (l : list A) : 0 <= Spec.count p l.
Proof. induction l as [|x l IH]; simpl; [lia|]. destruct (p x); lia. Qed.

End Scoring.

(** C1. The watch-mode risk score of any list of violations is
    [min(100, sum of the severity weights)], weights 30 for "high", 15 for
    "medium" and 5 for anything else, the cap applied once to the whole sum;
    in particular it is an integer between 0 and 100. *)
Theorem watch_risk_score_is_capped_weight_sum (violations interactions : list dict) :
  Watcher._calculate_risk_score violations interactions = Spec.watch_risk_score violations
  /\ 0 <= Watcher._calculate_risk_score violations interactions <= 100.
Proof.
  assert (E : Watcher._calculate_risk_score violations interactions
              = Spec.watch_risk_score violations).
  { unfold Watcher._calculate_risk_score, Spec.watch_risk_score.
    destruct violations as [|v vs]; [reflexivity|].
    rewrite watcher_fold_add_severity. reflexivity. }
  split; [exact E|].
  rewrite E. unfold Spec.watch_risk_score.
  pose proof (weight_sum_nonneg violations). lia.
Qed.


(** ** The flag-mode score and detector *)

Lemma flag_risk_score_eq (violations events : list dict) :
  SanityFlag._calculate_risk_score violations events = Spec.flag_risk_score violations events.
Proof.
  unfold SanityFlag._calculate_risk_score, Spec.flag_risk_score,
    Spec.copy_ratio_bonus, Spec.prompt_bonus.
  rewrite flag_fold_add_severity, <- !len_filter_count.
  destruct (List.filter (Py.is_type "code_modified") events) as [|m ms];
    destruct (List.filter Py.is_copy events) as [|c cs].
  1-3: change (len (@nil dict)) with 0; rewrite Z.eqb_refl, ?orb_true_r;
    cbn [orb bind]; destruct (20 <? _); do 2 f_equal; lia.
  replace (len (c :: cs) =? 0) with false
    by (symmetry; apply Z.eqb_neq; unfold len; simpl length; lia).
  replace (len (m :: ms) =? 0) with false
    by (symmetry; apply Z.eqb_neq; unfold len; simpl length; lia).
  cbn [orb].
  destruct (Float64.truediv (len (c :: cs)) (len (m :: ms))) as [ratio|e];
    cbn [bind]; [|reflexivity].
  destruct (Float64.ltb (Float64.of_Z 2) ratio), (20 <? _); do 2 f_equal; lia.
Qed.

Lemma carries_text_truthy e : Spec.carries_text e -> Py.truthy (Py.get e "prompt_text") = true.
Proof.
  intros (s & Hs & Hne). unfold Py.get. rewrite Hs. simpl.
  destruct (String.eqb s EmptyString) eqn:E; [|reflexivity].
  apply String.eqb_eq in E. contradiction.
Qed.

Lemma filter_prompts_with_text (events : list dict) :
  Forall (fun e => Py.is_type "prompt_sent" e = true -> Spec.carries_text e) events ->
  List.filter (fun e => Py.is_type "prompt_sent" e && Py.truthy (Py.get e "prompt_text")) events
  = List.filter (Py.is_type "prompt_sent") events.
Proof.
  induction 1 as [|e events He _ IH]; simpl; [reflexivity|].
  destruct (Py.is_type "prompt_sent" e) eqn:E; simpl.
  - rewrite (carries_text_truthy e (He eq_refl)), IH. reflexivity.
  - exact IH.
Qed.

Lemma flag_check_prompt_total rt (prompts : list dict) st :
  Forall Spec.carries_text prompts ->
  exists st', for_each (SanityFlag.check_prompt rt) prompts st = Ok st'.
Proof.
  intros H. revert st. induction H as [|e prompts (s & Hs & _) _ IH]; intros st; simpl.
  - eauto.
  - destruct st as [vs k]. unfold SanityFlag.check_prompt at 1.
    unfold Py.get_or. rewrite Hs.
    change (Py.lower (default (VStr EmptyString) (Some (VStr s))))
      with (@Ok string (Str.lower s)).
    cbn [bind].
    match goal with |- context [existsb ?f ?l] => destruct (existsb f l) end;
      cbn [bind]; apply IH.
Qed.

Lemma filter_Forall_carries (events : list dict) :
  Forall (fun e => Py.is_type "prompt_sent" e = true -> Spec.carries_text e) events ->
  Forall Spec.carries_text (List.filter (Py.is_type "prompt_sent") events).
Proof.
  induction 1 as [|e events He _ IH]; simpl; [constructor|].
  destruct (Py.is_type "prompt_sent" e) eqn:E; [constructor; auto|exact IH].
Qed.

(** C2, as amended.  The flag-mode risk score is
    [min(100, weight sum + bonuses)], with 20 added when the copy and the
    modification counts are both nonzero and [copies / modifications > 2],
    and 15 added when the [prompt_sent] count exceeds 20.  In particular, on
    an event list with 25 [prompt_sent] events, each carrying a non-empty
    text, and no [code_modified] event, the score has the prompt bonus of
    15, and the flag-mode detector returns a [suspicious_timing] violation
    of severity "medium". *)
Theorem flag_risk_score_formula (rt : Runtime) (violations events : list dict) :
  SanityFlag._calculate_risk_score violations events = Spec.flag_risk_score violations events
  /\ (Spec.count (Py.is_type "prompt_sent") events = 25 ->
      Spec.count (Py.is_type "code_modified") events = 0 ->
      Forall (fun e => Py.is_type "prompt_sent" e = true -> Spec.carries_text e) events ->
      SanityFlag._calculate_risk_score violations events
      = Ok (Z.min 100 (Spec.weight_sum violations + 15))
      /\ exists found v,
          SanityFlag._detect_violations rt events = Ok found
          /\ v ∈ found
          /\ Spec.has_type "suspicious_timing" v
          /\ Spec.has_severity "medium" v).
Proof.
  split; [apply flag_risk_score_eq|].
  intros Hp Hm Htext. split.
  - rewrite flag_risk_score_eq. unfold Spec.flag_risk_score, Spec.copy_ratio_bonus.
    rewrite Hp, Hm. rewrite Z.eqb_refl, orb_true_r. cbn [bind].
    unfold Spec.prompt_bonus. change (20 <? 25) with true. cbv iota.
    rewrite Z.add_0_r. reflexivity.
  - unfold SanityFlag._detect_violations.
    rewrite (filter_prompts_with_text events Htext).
    destruct (flag_check_prompt_total rt _ ([], O) (filter_Forall_carries events Htext))
      as [[vs k] Hvs].
    rewrite Hvs. cbn [bind].
    rewrite !len_filter_count, Hp, Hm. change (0 <? 3) with true. change (10 <? 25) with true. cbn [andb].
    destruct (5 <? Spec.count Py.is_copy events);
      eexists _, _; (split; [reflexivity|]);
      (split; [unfold append; apply elem_of_app; right; apply list_elem_of_singleton;
               reflexivity|]);
      split; reflexivity.
Qed.

(** The same list without the texts: the detector reports nothing. *)
Lemma flag_textless_prompts_no_suspicious_timing :
  let events := repeat (Demo.event "prompt_sent") 25 in
  Spec.count (Py.is_type "prompt_sent") events = 25
  /\ Spec.count (Py.is_type "code_modified") events = 0
  /\ SanityFlag._detect_violations Demo.runtime events = Ok []
  /\ ~ (exists found v,
          SanityFlag._detect_violations Demo.runtime events = Ok found
          /\ v ∈ found /\ Spec.has_type "suspicious_timing" v).
Proof.
  assert (E : SanityFlag._detect_violations Demo.runtime
                (repeat (Demo.event "prompt_sent") 25) = Ok [])
    by (vm_compute; reflexivity).
  cbv zeta. repeat split; try (vm_compute; reflexivity); try exact E.
  intros (found & v & Hf & Hv & _). rewrite E in Hf. injection Hf as <-.
  apply not_elem_of_nil in Hv. exact Hv.
Qed.

Lemma flag_risk_score_formula_witness :
  let events := repeat Demo.text_prompt 25 in
  SanityFlag._calculate_risk_score [] events = Ok 15
  /\ exists found v,
      SanityFlag._detect_violations Demo.runtime events = Ok found
      /\ v ∈ found
      /\ Spec.has_type "suspicious_timing" v
      /\ Spec.has_severity "medium" v.
Proof.
  cbv zeta.
  apply (proj2 (flag_risk_score_formula Demo.runtime [] (repeat Demo.text_prompt 25))).
  - vm_compute; reflexivity.
  - vm_compute; reflexivity.
  - apply Forall_forall. intros e He _.
    apply list_elem_of_In in He. apply repeat_spec in He. subst e.
    exists "how do I start". split; [vm_compute; reflexivity|discriminate].
Defined.

(** ** The behavior score *)

(** C7, as amended.  The behavior score is
    [min(100, int(modifications / prompts * 50 + 50))], the float truncated
    towards zero, when the list has a [prompt_sent] event, and 50 when it has
    none or is empty. *)
Theorem behavior_score_truncates (interactions : list dict) :
  Executor._calculate_behavior_score interactions = Spec.behavior_score_trunc interactions
  /\ (Spec.count (Py.is_type "prompt_sent") interactions = 0 ->
      Executor._calculate_behavior_score interactions = Ok 50).
Proof.
  assert (E : Executor._calculate_behavior_score interactions
              = Spec.behavior_score_trunc interactions).
  { unfold Executor._calculate_behavior_score, Spec.behavior_score_trunc,
      Spec.behavior_score_with.
    destruct interactions as [|i rest]; [reflexivity|].
    rewrite <- !len_filter_count.
    destruct (List.filter (Py.is_type "prompt_sent") (i :: rest)) as [|p ps];
      [reflexivity|].
    replace (len (p :: ps) =? 0) with false
      by (symmetry; apply Z.eqb_neq; unfold len; simpl length; lia).
    reflexivity. }
  split; [exact E|].
  intros H. rewrite E. unfold Spec.behavior_score_trunc, Spec.behavior_score_with.
  rewrite H. reflexivity.
Qed.

Lemma behavior_score_truncates_witness :
  Executor._calculate_behavior_score [Demo.event "code_modified"; Demo.event "code_modified"]
  = Ok 50.
Proof.
  apply (proj2 (behavior_score_truncates
                  [Demo.event "code_modified"; Demo.event "code_modified"])).
  vm_compute; reflexivity.
Defined.

(** Three prompts and one modification: [1/3 * 50 + 50] is 66.67 and the
    score is 66, where rounding gives 67. *)
Lemma behavior_score_is_not_rounded :
  let interactions :=
    [ Demo.event "prompt_sent"; Demo.event "prompt_sent"; Demo.event "prompt_sent";
      Demo.event "code_modified" ] in
  Executor._calculate_behavior_score interactions = Ok 66
  /\ Spec.behavior_score_round interactions = Ok 67
  /\ Executor._calculate_behavior_score interactions
     <> Spec.behavior_score_round interactions.
Proof.
  cbv zeta. split; [vm_compute; reflexivity|].
  split; [vm_compute; reflexivity|].
  vm_compute. discriminate.
Qed.

(** ** Sorting *)

Section SortLemmas.

Lemma N_ltb_asym (x y : N) : (x <? y)%N = true -> (y <? x)%N = false.
Proof. intros H. apply N.ltb_lt in H. apply N.ltb_ge. lia. Qed.

Lemma str_ltb_asym (a b : string) : Str.ltb a b = true -> Str.ltb b a = false.
Proof.
  revert b. induction a as [|x a IH]; intros [|y b]; simpl; try congruence.
  destruct (Str.code x <? Str.code y)%N eqn:Exy.
  - intros _. rewrite (N_ltb_asym _ _ Exy). reflexivity.
  - destruct (Str.code y <? Str.code x)%N eqn:Eyx; [discriminate|].
    apply IH.
Qed.

Lemma py_lt_asym (a b : pyval) : Py.lt a b = Ok true -> Py.lt b a = Ok false.
Proof.
  destruct a as [|x|x|s|d|m], b as [|y|y|t|e|n]; simpl; try discriminate.
  - intros H. injection H as H. f_equal. apply Z.ltb_lt in H. apply Z.ltb_ge. lia.
  - intros H. injection H as H. f_equal. apply Z.ltb_lt in H. apply Z.ltb_ge. lia.
  - intros H. injection H as H. f_equal. apply Z.ltb_lt in H. apply Z.ltb_ge. lia.
  - intros H. injection H as H. f_equal. apply Z.ltb_lt in H. apply Z.ltb_ge. lia.
  - intros H. injection H as H. f_equal. apply str_ltb_asym, H.
  - destruct (Bool.eqb (dt_aware d) (dt_aware e)) eqn:E; [|discriminate].
    replace (Bool.eqb (dt_aware e) (dt_aware d)) with true
      by (destruct (dt_aware d), (dt_aware e); simpl in *; congruence). intros H. injection H as H. f_equal.
    apply Z.ltb_lt in H. apply Z.ltb_ge. lia.
Qed.

Context {A : Type}.

Lemma insert_sorted_spec (x : pyval * A) (l r : list (pyval * A)) :
  Py.insert_sorted x l = Ok r ->
  r ≡ₚ x :: l
  /\ (Sorted Spec.key_le l -> Sorted Spec.key_le r)
  /\ (forall y, HdRel Spec.key_le y l -> Spec.key_le y x -> HdRel Spec.key_le y r).
Proof.
  revert r. induction l as [|y l IH]; intros r; simpl.
  - intros H. injection H as <-. repeat split; auto.
  - destruct (Py.lt (fst x) (fst y)) as [[|]|e] eqn:Exy; cbn [bind]; [| |discriminate].
    + intros H. injection H as <-. repeat split; auto.
      intros Hs. constructor; [exact Hs|]. constructor.
      apply py_lt_asym, Exy.
    + destruct (Py.insert_sorted x l) as [r'|e] eqn:Er; cbn [bind]; [|discriminate].
      intros H. injection H as <-.
      destruct (IH r' eq_refl) as (Hp & Hs & Hh).
      split; [rewrite Hp; apply Permutation_swap|].
      split.
      * intros Hyl. inversion Hyl as [|? ? Hl Hhd]; subst.
        constructor; [apply Hs, Hl|]. apply Hh; [exact Hhd|exact Exy].
      * intros z Hz Hzx. inversion Hz; subst. constructor. assumption.
Qed.

Lemma sort_from_spec (l acc r : list (pyval * A)) :
  for_each (fun acc x => Py.insert_sorted x acc) l acc = Ok r ->
  Sorted Spec.key_le acc ->
  r ≡ₚ acc ++ l /\ Sorted Spec.key_le r.
Proof.
  revert acc. induction l as [|x l IH]; intros acc; simpl.
  - intros H Hs. injection H as <-. rewrite app_nil_r. auto.
  - destruct (Py.insert_sorted x acc) as [acc'|e] eqn:E; cbn [bind]; [|discriminate].
    intros H Hs. destruct (insert_sorted_spec _ _ _ E) as (Hp & Hs' & _).
    destruct (IH acc' H (Hs' Hs)) as [Hp' Hr]. split; [|exact Hr].
    rewrite Hp', Hp. rewrite <- Permutation_middle. reflexivity.
Qed.

(** A sort that returns gives a sorted permutation. *)
Lemma sort_keyed_spec (l r : list (pyval * A)) :
  Py.sort_keyed l = Ok r -> r ≡ₚ l /\ Sorted Spec.key_le r.
Proof. intros H. apply (sort_from_spec l [] r H). constructor. Qed.

(** Keys of one kind that compares: the sort returns. *)
Lemma insert_sorted_total (x : pyval * A) (l : list (pyval * A)) :
  Forall (fun y => exists b, Py.lt (fst x) (fst y) = Ok b) l ->
  exists r, Py.insert_sorted x l = Ok r.
Proof.
  induction 1 as [|y l [b Hb] _ [r IH]]; simpl; [eauto|].
  rewrite Hb; cbn [bind]. destruct b; [eauto|]. rewrite IH; cbn [bind]. eauto.
Qed.

Lemma sort_from_str_total (l acc : list (pyval * A)) :
  Spec.str_keyed l -> Spec.str_keyed acc ->
  exists r, for_each (fun acc x => Py.insert_sorted x acc) l acc = Ok r.
Proof.
  intros Hl. revert acc. induction Hl as [|x l [s Hs] _ IH]; intros acc Hacc; simpl.
  - eauto.
  - destruct (insert_sorted_total x acc) as [acc' E].
    { eapply Forall_impl; [exact Hacc|]. intros y [t Ht]. rewrite Hs, Ht. simpl. eauto. }
    rewrite E; cbn [bind]. apply IH.
    destruct (insert_sorted_spec _ _ _ E) as (Hp & _).
    unfold Spec.str_keyed. rewrite Hp. constructor; [eauto|exact Hacc].
Qed.

Lemma sort_keyed_str_total (l : list (pyval * A)) :
  Spec.str_keyed l -> exists r, Py.sort_keyed l = Ok r.
Proof. intros H. apply sort_from_str_total; [exact H|constructor]. Qed.

End SortLemmas.

(** ** The timeline *)

Section Timeline.
Context (rt : Runtime).

Lemma timeline_entry_stamped e d : Spec.stamped (Watcher.timeline_entry rt e d).
Proof. eexists. reflexivity. Qed.

Lemma add_entries_stamped describe (events timeline r : list dict) :
  for_each (Watcher.add_entry rt describe) events timeline = Ok r ->
  Forall Spec.stamped timeline -> Forall Spec.stamped r.
Proof.
  revert timeline. induction events as [|e events IH]; intros timeline; simpl.
  - intros H; injection H as <-. auto.
  - unfold Watcher.add_entry at 1.
    destruct (describe e) as [d|err]; cbn [bind]; [|discriminate].
    intros H Ht. apply (IH _ H). unfold append.
    apply Forall_app. split; [exact Ht|]. constructor; [|constructor].
    apply timeline_entry_stamped.
Qed.

Lemma timeline_key_le (a b : dict) :
  Spec.stamped a -> Spec.stamped b ->
  Spec.key_le (Watcher.timeline_key a, a) (Watcher.timeline_key b, b) ->
  Spec.timestamp_le a b.
Proof.
  intros [s Hs] [u Hu]. unfold Spec.key_le, Watcher.timeline_key, Py.get_or,
    Spec.timestamp_le, Spec.entry_timestamp. simpl.
  rewrite Hs, Hu. simpl. intros H. injection H as H.
  exists s, u. unfold Str.leb. rewrite H. auto.
Qed.

Lemma build_timeline_sorted i f t (tl : list dict) :
  Watcher._build_timeline rt i f t = Ok tl -> Sorted Spec.timestamp_le tl.
Proof.
  unfold Watcher._build_timeline.
  destruct (for_each _ i []) as [t1|e] eqn:E1; cbn [bind]; [|discriminate].
  destruct (for_each _ f t1) as [t2|e] eqn:E2; cbn [bind]; [|discriminate].
  destruct (for_each _ t t2) as [t3|e] eqn:E3; cbn [bind]; [|discriminate].
  assert (H3 : Forall Spec.stamped t3).
  { eapply add_entries_stamped; [exact E3|].
    eapply add_entries_stamped; [exact E2|].
    eapply add_entries_stamped; [exact E1|constructor]. }
  unfold Py.sorted.
  destruct (Py.sort_keyed _) as [r|e] eqn:Er; cbn [bind]; [|discriminate].
  intros H; injection H as <-.
  destruct (sort_keyed_spec _ _ Er) as [Hp Hs].
  assert (Hr : Forall (fun p => fst p = Watcher.timeline_key (snd p) /\ Spec.stamped (snd p)) r).
  { rewrite Hp. apply Forall_fmap. eapply Forall_impl; [exact H3|].
    intros x Hx. simpl. auto. }
  clear Hp Er. induction Hs as [|p r Hs IH Hhd]; simpl; [constructor|].
  inversion Hr as [|? ? [Hk Hst] Hr']; subst.
  constructor; [apply IH, Hr'|].
  destruct Hhd as [|q r Hq]; simpl; constructor.
  inversion Hr' as [|? ? [Hk' Hst'] _]; subst.
  apply timeline_key_le; auto.
  destruct p as [kp p], q as [kq q]; simpl in *; subst. exact Hq.
Qed.

End Timeline.

Lemma Sorted_adjacent {A} (R : A -> A -> Prop) (l : list A) k a b :
  Sorted R l -> l !! k = Some a -> l !! S k = Some b -> R a b.
Proof.
  intros Hs. revert k. induction Hs as [|x l Hs IH Hhd]; intros k; [discriminate|].
  destruct k as [|k]; simpl.
  - intros Ha Hb. injection Ha as <-. destruct Hhd as [|y l Hy]; [discriminate|].
    simpl in Hb. injection Hb as <-. exact Hy.
  - apply IH.
Qed.

(** C4. Whatever the three event lists, the timeline that the builder
    returns is in ascending order of its timestamp strings: for two adjacent
    entries [a], [b], [a.timestamp <= b.timestamp]. *)
Theorem timeline_is_sorted (rt : Runtime)
        (interactions file_operations terminal_events timeline : list dict) :
  Watcher._build_timeline rt interactions file_operations terminal_events = Ok timeline ->
  forall k a b,
    timeline !! k = Some a -> timeline !! S k = Some b ->
    exists s u,
      Spec.entry_timestamp a = Some s /\ Spec.entry_timestamp b = Some u
      /\ Str.leb s u = true.
Proof.
  intros H k a b Ha Hb.
  exact (Sorted_adjacent _ _ k a b (build_timeline_sorted rt _ _ _ _ H) Ha Hb).
Qed.

(** ** The two rule sets *)

Lemma for_each_invariant {A S} (step : S -> A -> result S) (P : S -> Prop)
      (l : list A) (acc r : S) :
  for_each step l acc = Ok r ->
  P acc ->
  (forall s x s', x ∈ l -> P s -> step s x = Ok s' -> P s') ->
  P r.
Proof.
  revert acc. induction l as [|x l IH]; intros acc; simpl.
  - intros H Hacc _. injection H as <-. exact Hacc.
  - destruct (step acc x) as [acc'|e] eqn:E; cbn [bind]; [|discriminate].
    intros H Hacc Hstep. apply (IH acc' H).
    + apply (Hstep acc x acc'); [left|exact Hacc|exact E].
    + intros s y s' Hy. apply Hstep. right. exact Hy.
Qed.

Lemma elem_of_filter_bool {A} (p : A -> bool) (l : list A) x :
  x ∈ List.filter p l <-> x ∈ l /\ p x = true.
Proof. rewrite !list_elem_of_In. apply filter_In. Qed.

Lemma Forall_append {A} (P : A -> Prop) (l : list A) x :
  Forall P l -> P x -> Forall P (append l x).
Proof. intros Hl Hx. apply Forall_app. split; [exact Hl|]. constructor; [exact Hx|constructor]. Qed.

Lemma has_type_functional v a b : Spec.has_type a v -> Spec.has_type b v -> a = b.
Proof. unfold Spec.has_type. congruence. Qed.

Section RuleSets.
Context (rt : Runtime).

Lemma watch_violations_sound (interactions file_operations terminal_events ws : list dict) :
  Watcher._detect_violations rt interactions file_operations terminal_events = Ok ws ->
  Forall (Spec.watch_rule rt interactions file_operations) ws.
Proof.
  unfold Watcher._detect_violations.
  destruct (for_each _ (List.filter Py.is_copy interactions) []) as [v1|e] eqn:E1;
    cbn [bind]; [|discriminate].
  destruct (for_each _ _ v1) as [v2|e] eqn:E2; cbn [bind]; [|discriminate].
  intros E3.
  assert (H1 : Forall (Spec.watch_rule rt interactions file_operations) v1).
  { apply (for_each_invariant _ _ _ _ _ E1); [constructor|].
    intros s x s' Hx Hs. apply elem_of_filter_bool in Hx as [Hx Hc].
    unfold Watcher.check_copy.
    destruct (Py.split_line_count _) as [n|e] eqn:En; cbn [bind]; [|discriminate].
    destruct (50 <? n) eqn:E50; intros H; injection H as <-; [|exact Hs].
    apply Forall_append; [exact Hs|]. left. split; [reflexivity|].
    exists x, n. split; [exact Hx|]. split; [exact Hc|]. split; [exact En|].
    split; [apply Z.ltb_lt, E50|].
    destruct (100 <? n); reflexivity. }
  assert (H2 : Forall (Spec.watch_rule rt interactions file_operations) v2).
  { apply (for_each_invariant _ _ _ _ _ E2); [exact H1|].
    intros s x s' Hx Hs. apply elem_of_filter_bool in Hx as [Hx Hc].
    unfold Watcher.check_prompt.
    destruct (Py.lower _) as [text|e] eqn:Et; cbn [bind]; [|discriminate].
    destruct (existsb _ Watcher.red_flag_patterns) eqn:Em;
      intros H; injection H as <-; [|exact Hs].
    apply Forall_append; [exact Hs|]. right; left.
    split; [reflexivity|]. split; [reflexivity|].
    exists x. split; [exact Hx|]. split; [exact Hc|]. exists text. auto. }
  apply (for_each_invariant _ _ _ _ _ E3); [exact H2|].
  intros s x s' Hx Hs. unfold Watcher.check_file_op.
  destruct (Watcher.file_path_of _) as [path|e] eqn:Ep; cbn [bind]; [|discriminate].
  destruct (Py.lower path) as [lowered|e] eqn:El; cbn [bind]; [|discriminate].
  destruct (existsb _ Watcher.suspicious_files) eqn:Em;
    intros H; injection H as <-; [|exact Hs].
  apply Forall_append; [exact Hs|]. right; right.
  split; [reflexivity|]. split; [reflexivity|].
  exists x, path, lowered. auto.
Qed.

Lemma flag_prompt_loop_sound (events prompts : list dict) st st' :
  for_each (SanityFlag.check_prompt rt) prompts st = Ok st' ->
  (forall e, e ∈ prompts -> e ∈ events /\ Spec.is_text_prompt e = true) ->
  Forall (fun v => Spec.has_type "solution_request_pattern" v /\ Spec.flag_rule events v)
         (fst st) ->
  Forall (fun v => Spec.has_type "solution_request_pattern" v /\ Spec.flag_rule events v)
         (fst st').
Proof.
  intros E Hin Hst.
  apply (for_each_invariant _ (fun st => Forall _ (fst st)) _ _ _ E); [exact Hst|].
  intros [vs k] x [vs' k'] Hx Hs. unfold SanityFlag.check_prompt.
  destruct (Py.lower _) as [text|e] eqn:Et; cbn [bind]; [|discriminate].
  destruct (existsb _ SanityFlag.solution_patterns) eqn:Em;
    intros H; injection H as <- <-; [|exact Hs].
  simpl. apply Forall_append; [exact Hs|]. split; [reflexivity|]. left.
  split; [reflexivity|]. split; [reflexivity|].
  exists x. destruct (Hin x Hx) as [Hi Hp]. split; [exact Hi|]. split; [exact Hp|].
  exists text. auto.
Qed.

Lemma flag_violations_sound (events fs : list dict) :
  SanityFlag._detect_violations rt events = Ok fs ->
  Forall (Spec.flag_rule events) fs
  /\ (5 < Spec.count Py.is_copy events -> Exists (Spec.has_type "excessive_copying") fs)
  /\ (Spec.count (Py.is_type "code_modified") events < 3
      /\ 10 < Spec.count Spec.is_text_prompt events ->
      Exists (Spec.has_type "suspicious_timing") fs).
Proof.
  unfold SanityFlag._detect_violations.
  destruct (for_each _ _ ([], O)) as [[vs k]|e] eqn:E; cbn [bind]; [|discriminate].
  assert (H0 : Forall (Spec.flag_rule events) vs).
  { pose proof (flag_prompt_loop_sound events _ _ _ E) as H. simpl in H.
    eapply Forall_impl; [apply H|].
    - intros e He. apply elem_of_filter_bool in He. exact He.
    - constructor.
    - intros v [_ Hv]. exact Hv. }
  rewrite !len_filter_count.
  change (Spec.count (fun e => Py.is_type "prompt_sent" e && Py.truthy (Py.get e "prompt_text"))
                     events)
    with (Spec.count Spec.is_text_prompt events).
  destruct (5 <? Spec.count Py.is_copy events) eqn:E5;
    destruct (Spec.count (Py.is_type "code_modified") events <? 3) eqn:E3;
    destruct (10 <? Spec.count Spec.is_text_prompt events) eqn:E10;
    cbn [andb]; intros H; injection H as <-;
    rewrite ?Z.ltb_lt, ?Z.ltb_ge in *;
    (split; [|split]);
    try (intros; lia);
    repeat (apply Forall_append);
    try exact H0;
    try (right; left; repeat split; lia);
    try (right; right; repeat split; lia).
  all: intros _; unfold append; rewrite ?Exists_app; simpl.
  all: try (right; left; reflexivity).
  all: try (left; right; left; reflexivity).
Qed.

End RuleSets.

(** C3, as amended.  The flag-mode rules are not a superset of the
    watch-mode rules: the two sets are disjoint.  Whenever the detectors
    return, every violation of the watch-mode detector is a
    [large_code_copy] (a copied snippet of more than 50 lines, "high" above
    100 lines, else "medium"), a [solution_request] (a prompt matching its
    patterns) or a [suspicious_file_operation] (a file path containing a
    suspicious keyword); every violation of the flag-mode detector is a
    [solution_request_pattern] (a prompt matching its own patterns), an
    [excessive_copying], present exactly when there are more than 5 copy
    events, or a [suspicious_timing], present exactly when there are fewer
    than 3 modifications and more than 10 prompts with a text; and no
    violation of the first is a violation of the second. *)
Theorem flag_rules_disjoint_from_watch_rules (rt : Runtime)
        (interactions file_operations terminal_events events ws fs : list dict) :
  Watcher._detect_violations rt interactions file_operations terminal_events = Ok ws ->
  SanityFlag._detect_violations rt events = Ok fs ->
  Forall (Spec.watch_rule rt interactions file_operations) ws
  /\ Forall (Spec.flag_rule events) fs
  /\ (Exists (Spec.has_type "excessive_copying") fs <-> 5 < Spec.count Py.is_copy events)
  /\ (Exists (Spec.has_type "suspicious_timing") fs <->
      Spec.count (Py.is_type "code_modified") events < 3
      /\ 10 < Spec.count Spec.is_text_prompt events)
  /\ (forall v, v ∈ ws -> v ∉ fs).
Proof.
  intros Hw Hf.
  pose proof (watch_violations_sound rt _ _ _ _ Hw) as Hws.
  destruct (flag_violations_sound rt _ _ Hf) as (Hfs & Hex & Hst).
  split; [exact Hws|]. split; [exact Hfs|].
  split; [|split].
  - split; [|exact Hex]. intros H. apply Exists_exists in H as (v & Hv & Ht).
    rewrite Forall_forall in Hfs.
    destruct (Hfs v Hv) as [(Ht' & _)|[(_ & _ & Hc)|(Ht' & _)]];
      [|exact Hc|]; pose proof (has_type_functional _ _ _ Ht Ht'); discriminate.
  - split; [|exact Hst]. intros H. apply Exists_exists in H as (v & Hv & Ht).
    rewrite Forall_forall in Hfs.
    destruct (Hfs v Hv) as [(Ht' & _)|[(Ht' & _)|(_ & _ & Hc)]];
      [| |exact Hc]; pose proof (has_type_functional _ _ _ Ht Ht'); discriminate.
  - intros v Hv Hv'.
    rewrite Forall_forall in Hws, Hfs.
    destruct (Hws v Hv) as [(Ht & _)|[(Ht & _)|(Ht & _)]];
      destruct (Hfs v Hv') as [(Ht' & _)|[(Ht' & _)|(Ht' & _)]];
      pose proof (has_type_functional _ _ _ Ht Ht'); discriminate.
Qed.

(** A copied snippet of 120 lines: one [large_code_copy] of severity "high"
    from the watcher, nothing from the sanity-flag agent. *)
Lemma flag_rules_miss_large_code_copy :
  exists v,
    Watcher._detect_violations Demo.runtime [Demo.big_copy] [] [] = Ok [v]
    /\ Spec.has_type "large_code_copy" v
    /\ Spec.has_severity "high" v
    /\ SanityFlag._detect_violations Demo.runtime [Demo.big_copy] = Ok []
    /\ ~ (forall ws fs,
            Watcher._detect_violations Demo.runtime [Demo.big_copy] [] [] = Ok ws ->
            SanityFlag._detect_violations Demo.runtime [Demo.big_copy] = Ok fs ->
            forall w, w ∈ ws -> w ∈ fs).
Proof.
  assert (Ef : SanityFlag._detect_violations Demo.runtime [Demo.big_copy] = Ok [])
    by (vm_compute; reflexivity).
  pose (v := Watcher.violation "high" "large_code_copy"
               "Copied 120 lines of code from AI" EmptyString).
  assert (Ew : Watcher._detect_violations Demo.runtime [Demo.big_copy] [] [] = Ok [v])
    by (vm_compute; reflexivity).
  exists v. split; [exact Ew|].
  split; [vm_compute; reflexivity|]. split; [vm_compute; reflexivity|].
  split; [exact Ef|].
  intros H. specialize (H _ _ Ew Ef v (list_elem_of_here _ _)).
  apply not_elem_of_nil in H. exact H.
Qed.

Lemma flag_rules_disjoint_from_watch_rules_witness :
  exists ws fs,
    Watcher._detect_violations Demo.runtime [Demo.big_copy] [] [] = Ok ws
    /\ SanityFlag._detect_violations Demo.runtime [Demo.big_copy] = Ok fs
    /\ forall v, v ∈ ws -> v ∉ fs.
Proof.
  assert (Hw : is_ok (Watcher._detect_violations Demo.runtime [Demo.big_copy] [] []) = true)
    by (vm_compute; reflexivity).
  assert (Hf : is_ok (SanityFlag._detect_violations Demo.runtime [Demo.big_copy]) = true)
    by (vm_compute; reflexivity).
  apply is_ok_inv in Hw as [ws Ew]. apply is_ok_inv in Hf as [fs Ef].
  exists ws, fs. split; [exact Ew|]. split; [exact Ef|].
  apply (flag_rules_disjoint_from_watch_rules Demo.runtime _ _ _ _ ws fs Ew Ef).
Defined.

(** ** Substrings *)

Lemma starts_with_append (p post : string) : Str.starts_with p (p +:+ post) = true.
Proof.
  induction p as [|c p IH]; simpl; [reflexivity|].
  rewrite Ascii.eqb_refl. exact IH.
Qed.

Lemma starts_with_inv (p s : string) :
  Str.starts_with p s = true -> s = p +:+ Str.drop (String.length p) s.
Proof.
  revert s. induction p as [|c p IH]; intros s; simpl; [reflexivity|].
  destruct s as [|d s]; [discriminate|].
  destruct (Ascii.eqb c d) eqn:E; [|discriminate].
  apply Ascii.eqb_eq in E. subst d. intros H.
  change (String c s = String c (p +:+ Str.drop (String.length p) s)).
  f_equal. apply IH, H.
Qed.

Lemma find_after_append (p pre post : string) :
  exists rest, Str.find_after p (pre +:+ p +:+ post) = Some rest.
Proof.
  induction pre as [|c pre IH]; simpl.
  - destruct p as [|a p]; simpl; [destruct post; simpl; eauto|].
    rewrite Ascii.eqb_refl, starts_with_append. eauto.
  - destruct (Str.starts_with p (String c (pre +:+ p +:+ post))); [eauto|exact IH].
Qed.

Lemma find_after_inv (p s rest : string) :
  Str.find_after p s = Some rest -> exists pre, s = pre +:+ p +:+ rest.
Proof.
  revert rest. induction s as [|c s IH]; intros rest; simpl.
  - destruct (Str.starts_with p EmptyString) eqn:E; [|discriminate].
    intros H. injection H as <-. exists EmptyString. simpl. apply starts_with_inv, E.
  - destruct (Str.starts_with p (String c s)) eqn:E.
    + intros H. injection H as <-. exists EmptyString. simpl. apply starts_with_inv, E.
    + intros H. destruct (IH _ H) as [pre ->]. exists (String c pre). reflexivity.
Qed.

(** [in] on two strings is the substring relation. *)
Lemma contains_substring (s t : string) :
  Str.contains s t = true <-> Spec.substring s t.
Proof.
  unfold Str.contains, Spec.substring. split.
  - destruct (Str.find_after s t) as [rest|] eqn:E; [|discriminate].
    intros _. destruct (find_after_inv _ _ _ E) as [pre ->]. eauto.
  - intros (pre & post & ->).
    destruct (find_after_append s pre post) as [rest ->]. reflexivity.
Qed.

(** ** The plagiarism analysis *)

Section Distinct.

Lemma distinct_length_le (l : list pyval) : (length (Py.distinct l) <= length l)%nat.
Proof.
  induction l as [|v l IH]; simpl; [lia|].
  pose proof (List.filter_length_le (fun w => negb (Py.eqb v w)) (Py.distinct l)). lia.
Qed.

Lemma distinct_subset (l : list pyval) v : v ∈ Py.distinct l -> v ∈ l.
Proof.
  revert v. induction l as [|a l IH]; intros v; simpl; [auto|].
  intros H. apply elem_of_cons in H as [->|H]; [left|right].
  apply elem_of_filter_bool in H as [H _]. apply IH, H.
Qed.

Lemma distinct_complete (l : list pyval) v :
  Spec.all_text l -> v ∈ l -> v ∈ Py.distinct l.
Proof.
  intros Hl. revert v. induction Hl as [|a l [s ->] Hl IH]; intros v; simpl; [auto|].
  intros H. apply elem_of_cons in H as [->|H]; [left|].
  assert (Hv : exists t, v = VStr t).
  { unfold Spec.all_text in Hl. rewrite Forall_forall in Hl. apply Hl, H. }
  destruct Hv as [t ->].
  destruct (String.eqb s t) eqn:E.
  - apply String.eqb_eq in E. subst t. left.
  - right. apply elem_of_filter_bool. split; [apply IH, H|]. simpl. rewrite E. reflexivity.
Qed.

Lemma filter_length_lt {A} (p : A -> bool) (l : list A) x :
  x ∈ l -> p x = false -> (length (List.filter p l) < length l)%nat.
Proof.
  induction l as [|a l IH]; intros H Hp; [inversion H|].
  apply elem_of_cons in H as [->|H]; simpl.
  - rewrite Hp. pose proof (List.filter_length_le p l). lia.
  - specialize (IH H Hp). destruct (p a); simpl; lia.
Qed.

Lemma distinct_shrinks (l1 l2 l3 : list pyval) (s : string) :
  Spec.all_text (l1 ++ VStr s :: l2 ++ VStr s :: l3) ->
  (length (Py.distinct (l1 ++ VStr s :: l2 ++ VStr s :: l3))
   < length (l1 ++ VStr s :: l2 ++ VStr s :: l3))%nat.
Proof.
  induction l1 as [|a l1 IH]; intros Hl.
  - simpl app. inversion Hl as [|? ? _ Hl']; subst.
    change (Py.distinct (VStr s :: l2 ++ VStr s :: l3))
      with (VStr s :: List.filter (fun w => negb (Py.eqb (VStr s) w))
                                  (Py.distinct (l2 ++ VStr s :: l3))).
    simpl length.
    assert (Hin : VStr s ∈ Py.distinct (l2 ++ VStr s :: l3)).
    { apply distinct_complete; [exact Hl'|]. apply elem_of_app. right. left. }
    pose proof (filter_length_lt (fun w => negb (Py.eqb (VStr s) w)) _ _ Hin) as Hlt.
    simpl in Hlt. rewrite String.eqb_refl in Hlt. specialize (Hlt eq_refl).
    pose proof (distinct_length_le (l2 ++ VStr s :: l3)). lia.
  - inversion Hl as [|? ? _ Hl']; subst. specialize (IH Hl').
    simpl.
    pose proof (List.filter_length_le (fun w => negb (Py.eqb a w))
                  (Py.distinct (l1 ++ VStr s :: l2 ++ VStr s :: l3))).
    lia.
Qed.

Lemma filter_length_eq_or_witness {A} (p : A -> bool) (l : list A) :
  (length (List.filter p l) < length l)%nat -> exists x, x ∈ l /\ p x = false.
Proof.
  induction l as [|a l IH]; simpl; [lia|].
  destruct (p a) eqn:E; simpl.
  - intros H. destruct IH as (x & Hx & Hp); [lia|]. exists x. split; [right|]; auto.
  - intros _. exists a. split; [left|exact E].
Qed.

Lemma distinct_shrinks_inv (l : list pyval) :
  Spec.all_text l ->
  (length (Py.distinct l) < length l)%nat ->
  exists l1 s l2 l3, l = (l1 ++ VStr s :: l2 ++ VStr s :: l3)%list.
Proof.
  induction 1 as [|a l [s ->] Hl IH]; [simpl; lia|].
  intros H.
  change (Py.distinct (VStr s :: l))
    with (VStr s :: List.filter (fun w => negb (Py.eqb (VStr s) w)) (Py.distinct l)) in H.
  cbn [length] in H.
  destruct (Nat.lt_ge_cases
              (length (List.filter (fun w => negb (Py.eqb (VStr s) w)) (Py.distinct l)))
              (length (Py.distinct l))) as [Hlt|Hge].
  - apply filter_length_eq_or_witness in Hlt as (x & Hx & Hp).
    apply distinct_subset in Hx.
    assert (Hv : exists t, x = VStr t).
    { unfold Spec.all_text in Hl. rewrite Forall_forall in Hl. apply Hl, Hx. }
    destruct Hv as [t ->]. simpl in Hp. apply negb_false_iff, String.eqb_eq in Hp. subst t.
    apply list_elem_of_split in Hx as (l2 & l3 & ->).
    exists [], s, l2, l3. reflexivity.
  - destruct IH as (l1 & t & l2 & l3 & ->); [lia|].
    exists (VStr s :: l1), t, l2, l3. reflexivity.
Qed.

Lemma all_text_hashable (l : list pyval) : Spec.all_text l -> forallb Py.hashable l = true.
Proof. induction 1 as [|a l [s ->] _ IH]; simpl; auto. Qed.

End Distinct.

Section Plagiarism.

Lemma map_filter_split {A B} (f : A -> B) (p : A -> bool) (l : list A) c1 x c2 :
  map f (List.filter p l) = (c1 ++ x :: c2)%list ->
  exists l1 a l2,
    l = (l1 ++ a :: l2)%list /\ p a = true /\ f a = x
    /\ map f (List.filter p l1) = c1 /\ map f (List.filter p l2) = c2.
Proof.
  revert c1. induction l as [|a l IH]; intros c1; simpl.
  - destruct c1; discriminate.
  - destruct (p a) eqn:E; simpl.
    + destruct c1 as [|y c1]; simpl; intros H; injection H as Hx Hrest.
      * exists [], a, l. simpl. auto.
      * destruct (IH _ Hrest) as (l1 & b & l2 & -> & Hp & Hf & H1 & H2).
        exists (a :: l1), b, l2. simpl. rewrite E. simpl. repeat split; auto.
        congruence.
    + intros H. destruct (IH _ H) as (l1 & b & l2 & -> & Hp & Hf & H1 & H2).
      exists (a :: l1), b, l2. simpl. rewrite E. auto.
Qed.

(** The code of a submission as the analysis reads it. *)
Lemma code_text_read (s : dict) code :
  Spec.code_text s code ->
  Py.truthy (Py.get s "code") = true /\ Py.get_or s "code" (VStr EmptyString) = VStr code.
Proof.
  intros [Hs Hne]. unfold Py.get, Py.get_or. rewrite Hs. simpl. split; [|reflexivity].
  destruct (String.eqb code EmptyString) eqn:E; [|reflexivity].
  apply String.eqb_eq in E. contradiction.
Qed.

Lemma code_text_of_truthy (s : dict) :
  Spec.text_or_null (Py.get s "code") ->
  Py.truthy (Py.get s "code") = true ->
  exists code, Spec.code_text s code /\ Py.get_or s "code" (VStr EmptyString) = VStr code.
Proof.
  unfold Py.get, Py.get_or, Spec.code_text.
  destruct (s !! "code") as [[]|]; simpl; try contradiction; try discriminate.
  intros _ H. exists s0. repeat split.
  intros ->. discriminate.
Qed.

Lemma codes_all_text (submissions : list dict) :
  Forall (fun s => Spec.text_or_null (Py.get s "code")) submissions ->
  Spec.all_text (SanityFlag.codes_of submissions).
Proof.
  unfold SanityFlag.codes_of. induction 1 as [|s l Hs _ IH]; simpl; [constructor|].
  destruct (Py.truthy (Py.get s "code")) eqn:E; [|exact IH].
  simpl. constructor; [|exact IH].
  destruct (code_text_of_truthy s Hs E) as (code & _ & ->). eauto.
Qed.

Lemma identical_codes (submissions : list dict) :
  Forall (fun s => Spec.text_or_null (Py.get s "code")) submissions ->
  Spec.identical_submissions submissions <->
  exists c1 code c2 c3, SanityFlag.codes_of submissions = (c1 ++ VStr code :: c2 ++ VStr code :: c3)%list.
Proof.
  intros Ht. split.
  - intros (l1 & a & l2 & b & l3 & code & -> & Ha & Hb).
    destruct (code_text_read _ _ Ha) as [Ta Ga], (code_text_read _ _ Hb) as [Tb Gb].
    unfold SanityFlag.codes_of.
    rewrite List.filter_app. simpl. rewrite Ta. rewrite List.filter_app. simpl. rewrite Tb.
    rewrite map_app. simpl. rewrite map_app. simpl. rewrite Ga, Gb. eauto.
  - intros (c1 & code & c2 & c3 & H). unfold SanityFlag.codes_of in H.
    apply map_filter_split in H as (l1 & a & l' & -> & Ta & Ga & H1 & H').
    apply map_filter_split in H' as (l2 & b & l3 & -> & Tb & Gb & H2 & H3).
    exists l1, a, l2, b, l3, code. split; [reflexivity|].
    rewrite Forall_app, Forall_cons, Forall_app, Forall_cons in Ht.
    destruct Ht as (_ & Hta & _ & Htb & _).
    destruct (code_text_of_truthy a Hta Ta) as (ca & Hca & Ea).
    destruct (code_text_of_truthy b Htb Tb) as (cb & Hcb & Eb).
    rewrite Ea in Ga. rewrite Eb in Gb.
    injection Ga as ->. injection Gb as ->. auto.
Qed.

Lemma first_check_spec (submissions : list dict) :
  Forall (fun s => Spec.text_or_null (Py.get s "code")) submissions ->
  (Spec.identical_submissions submissions
   /\ SanityFlag.check_identical submissions SanityFlag.initial_analysis
      = Ok {| SanityFlag.suspicious := true;
              SanityFlag.patterns := ["identical_submissions"];
              SanityFlag.confidence := 80 |})
  \/ (~ Spec.identical_submissions submissions
      /\ SanityFlag.check_identical submissions SanityFlag.initial_analysis
         = Ok SanityFlag.initial_analysis).
Proof.
  intros Ht. pose proof (codes_all_text _ Ht) as Hall.
  pose proof (identical_codes _ Ht) as Hid.
  unfold SanityFlag.check_identical.
  destruct (1 <? len submissions) eqn:E1.
  - unfold Py.set_size. rewrite (all_text_hashable _ Hall). cbn [bind].
    destruct (len (Py.distinct (SanityFlag.codes_of submissions)) <? len (SanityFlag.codes_of submissions)) eqn:E.
    + left. split; [|reflexivity]. apply Hid.
      apply Z.ltb_lt in E. unfold len in E.
      destruct (distinct_shrinks_inv _ Hall) as (c1 & s & c2 & c3 & Hc); [lia|]. eauto.
    + right. split; [|reflexivity]. intros Hi. apply Hid in Hi as (c1 & s & c2 & c3 & Hc).
      apply Z.ltb_ge in E. unfold len in E.
      pose proof (distinct_shrinks c1 c2 c3 s) as Hlt. rewrite <- Hc in Hlt.
      specialize (Hlt Hall). lia.
  - right. split; [|reflexivity].
    intros (l1 & a & l2 & b & l3 & code & -> & _).
    apply Z.ltb_ge in E1. unfold len in E1.
    rewrite length_app in E1. simpl in E1. rewrite length_app in E1. simpl in E1. lia.
Qed.

End Plagiarism.

Section Responses.

Lemma matches_response_spec (c r : dict) :
  Spec.text_or_null (Py.get c "code_snippet") ->
  Spec.text_or_null (Py.get r "response_text") ->
  exists b,
    SanityFlag.matches_response (Py.get_or c "code_snippet" (VStr EmptyString)) r = Ok b
    /\ (b = true <-> Spec.matches c r).
Proof.
  unfold SanityFlag.matches_response, Py.get, Py.get_or, Spec.matches.
  destruct (c !! "code_snippet") as [[| | |s| |]|]; simpl; try contradiction; intros _;
    try (intros _; exists false; split; [reflexivity|];
         split; [discriminate|]; intros (? & ? & H & _); discriminate).
  - destruct (r !! "response_text") as [[| | |t| |]|]; simpl; try contradiction; intros _.
    + destruct (String.eqb s EmptyString) eqn:Es; simpl.
      * exists false. split; [reflexivity|]. split; [discriminate|].
        intros (? & ? & H & Hne & _). injection H as <-.
        apply String.eqb_eq in Es. contradiction.
      * exists false. split; [reflexivity|]. split; [discriminate|].
        intros (? & ? & _ & _ & H & _). discriminate.
    + destruct (String.eqb s EmptyString) eqn:Es; simpl.
      * exists false. split; [reflexivity|]. split; [discriminate|].
        intros (? & ? & H & Hne & _). injection H as <-.
        apply String.eqb_eq in Es. contradiction.
      * assert (Hne : s <> EmptyString) by (intros ->; discriminate).
        destruct (String.eqb t EmptyString) eqn:Et; simpl.
        -- exists false. split; [reflexivity|]. split; [discriminate|].
           intros (? & ? & H & _ & H' & Hsub). injection H as <-. injection H' as <-.
           apply String.eqb_eq in Et. subst t.
           apply contains_substring in Hsub.
           destruct s; [contradiction|]. discriminate.
        -- exists (Str.contains s t). split; [reflexivity|].
           rewrite contains_substring. split.
           ++ intros H. exists s, t. auto.
           ++ intros (? & ? & H & _ & H' & Hsub). injection H as <-. injection H' as <-.
              exact Hsub.
    + destruct (String.eqb s EmptyString) eqn:Es; simpl.
      * exists false. split; [reflexivity|]. split; [discriminate|].
        intros (? & ? & _ & _ & H & _). discriminate.
      * exists false. split; [reflexivity|]. split; [discriminate|].
        intros (? & ? & _ & _ & H & _). discriminate.
Qed.

Lemma any_match_spec (c : dict) (responses : list dict) :
  Spec.text_or_null (Py.get c "code_snippet") ->
  Forall (fun r => Spec.text_or_null (Py.get r "response_text")) responses ->
  exists b,
    any_r (SanityFlag.matches_response (Py.get_or c "code_snippet" (VStr EmptyString))) responses
    = Ok b
    /\ (b = true <-> exists r, r ∈ responses /\ Spec.matches c r).
Proof.
  intros Hc. induction 1 as [|r responses Hr _ (b & Hb & IH)]; simpl.
  - exists false. split; [reflexivity|]. split; [discriminate|].
    intros (r & Hr & _). inversion Hr.
  - destruct (matches_response_spec c r Hc Hr) as (b0 & -> & Hb0). cbn [bind].
    destruct b0.
    + exists true. split; [reflexivity|]. split; [|reflexivity].
      intros _. exists r. split; [left|]. apply Hb0. reflexivity.
    + exists b. split; [exact Hb|]. rewrite IH. split.
      * intros (r' & Hr' & Hm). exists r'. split; [right|]; assumption.
      * intros (r' & Hr' & Hm). apply elem_of_cons in Hr' as [->|Hr'].
        -- apply Hb0 in Hm. discriminate.
        -- eauto.
Qed.

Lemma copy_loop_spec (responses copies : list dict) (a0 : SanityFlag.Analysis) :
  Forall (fun c => Spec.text_or_null (Py.get c "code_snippet")) copies ->
  Forall (fun r => Spec.text_or_null (Py.get r "response_text")) responses ->
  exists a,
    for_each (SanityFlag.check_copy responses) copies a0 = Ok a
    /\ (((exists c r, c ∈ copies /\ r ∈ responses /\ Spec.matches c r)
         /\ SanityFlag.suspicious a = true
         /\ "code_matches_ai_response" ∈ SanityFlag.patterns a
         /\ (forall p, p ∈ SanityFlag.patterns a0 -> p ∈ SanityFlag.patterns a)
         /\ SanityFlag.confidence a = Z.max (SanityFlag.confidence a0) 70)
        \/ (~ (exists c r, c ∈ copies /\ r ∈ responses /\ Spec.matches c r) /\ a = a0)).
Proof.
  intros Hc Hr. revert a0. induction Hc as [|c copies Hc _ IH]; intros a0; simpl.
  - exists a0. split; [reflexivity|]. right. split; [|reflexivity].
    intros (c & r & Hin & _). inversion Hin.
  - unfold SanityFlag.check_copy at 1.
    destruct (any_match_spec c responses Hc Hr) as (b & -> & Hb). cbn [bind].
    destruct b; cbn [bind].
    + destruct (proj1 Hb eq_refl) as (r & Hrin & Hm).
      match goal with |- context [for_each _ copies ?x] => set (a1 := x) end.
      destruct (IH a1) as (a & -> & [(_ & Hs & Hp & Hsub & Hconf)|(_ & ->)]);
        exists a || exists a1; (split; [reflexivity|]); left.
      * split; [exists c, r; split; [left|]; auto|].
        split; [exact Hs|]. split; [exact Hp|]. split.
        -- intros p Hp0. apply Hsub. subst a1. simpl. unfold append.
           apply elem_of_app. left. exact Hp0.
        -- rewrite Hconf. subst a1. simpl. lia.
      * split; [exists c, r; split; [left|]; auto|].
        subst a1. simpl. split; [reflexivity|]. unfold append.
        split; [apply elem_of_app; right; left|].
        split; [|reflexivity]. intros p Hp0. apply elem_of_app. left. exact Hp0.
    + destruct (IH a0) as (a & -> & [((c' & r & Hc' & Hr' & Hm) & Hrest)|(Hno & ->)]);
        exists a || exists a0; (split; [reflexivity|]).
      * left. split; [|exact Hrest]. exists c', r. split; [right|]; auto.
      * right. split; [|reflexivity]. intros (c' & r & Hc' & Hr' & Hm).
        apply elem_of_cons in Hc' as [->|Hc'].
        -- assert (false = true); [|discriminate]. apply Hb. eauto.
        -- apply Hno. eauto.
Qed.

End Responses.

Section PlagiarismTheorem.

Lemma check_responses_spec (events : list dict) (a0 : SanityFlag.Analysis) :
  Forall (fun e =>
            (Py.is_copy e = true -> Spec.text_or_null (Py.get e "code_snippet"))
            /\ (Py.is_type "response_received" e = true ->
                Spec.text_or_null (Py.get e "response_text"))) events ->
  exists a,
    SanityFlag.check_responses events a0 = Ok a
    /\ ((Spec.copy_matches_response events
         /\ SanityFlag.suspicious a = true
         /\ "code_matches_ai_response" ∈ SanityFlag.patterns a
         /\ (forall p, p ∈ SanityFlag.patterns a0 -> p ∈ SanityFlag.patterns a)
         /\ SanityFlag.confidence a = Z.max (SanityFlag.confidence a0) 70)
        \/ (~ Spec.copy_matches_response events /\ a = a0)).
Proof.
  intros Ht. rewrite Forall_forall in Ht.
  set (copies := List.filter Py.is_copy events).
  set (responses := List.filter (Py.is_type "response_received") events).
  assert (Hc : Forall (fun c => Spec.text_or_null (Py.get c "code_snippet")) copies).
  { apply Forall_forall. intros c Hc. apply elem_of_filter_bool in Hc as [Hc Hp].
    apply (Ht c Hc), Hp. }
  assert (Hr : Forall (fun r => Spec.text_or_null (Py.get r "response_text")) responses).
  { apply Forall_forall. intros r Hr. apply elem_of_filter_bool in Hr as [Hr Hp].
    apply (Ht r Hr), Hp. }
  assert (Hiff : (exists c r, c ∈ copies /\ r ∈ responses /\ Spec.matches c r)
                 <-> Spec.copy_matches_response events).
  { unfold Spec.copy_matches_response. split.
    - intros (c & r & Hc' & Hr' & Hm).
      apply elem_of_filter_bool in Hc' as [? ?]. apply elem_of_filter_bool in Hr' as [? ?].
      exists c, r. auto.
    - intros (c & r & Hc' & Hr' & Hpc & Hpr & Hm). exists c, r.
      split; [apply elem_of_filter_bool; auto|].
      split; [apply elem_of_filter_bool; auto|exact Hm]. }
  destruct (copy_loop_spec responses copies a0 Hc Hr) as (a & Ha & Hcases).
  unfold SanityFlag.check_responses. fold copies. fold responses.
  destruct copies as [|c copies'] eqn:Ec.
  - exists a0. split; [reflexivity|]. right. split; [|reflexivity].
    rewrite <- Hiff. intros (c & r & Hin & _). inversion Hin.
  - destruct responses as [|r responses'] eqn:Er.
    + exists a0. split; [reflexivity|]. right. split; [|reflexivity].
      rewrite <- Hiff. intros (c' & r & _ & Hin & _). inversion Hin.
    + exists a. split; [exact Ha|]. rewrite <- Hiff. exact Hcases.
Qed.

End PlagiarismTheorem.

(** ** The plagiarism analysis on any records *)

Section PlagiarismReturns.

Lemma distinct_keeps_text (l : list pyval) (s : string) :
  VStr s ∈ l -> VStr s ∈ Py.distinct l.
Proof.
  induction l as [|a l IH]; simpl; [auto|].
  intros H. destruct (Py.eqb a (VStr s)) eqn:E.
  - destruct a; try discriminate E. simpl in E. apply String.eqb_eq in E. subst. left.
  - apply elem_of_cons in H as [H|H].
    + subst a. simpl in E. rewrite String.eqb_refl in E. discriminate.
    + right. apply elem_of_filter_bool. split; [apply IH, H|]. rewrite E. reflexivity.
Qed.

Lemma distinct_shrinks_text (l1 l2 l3 : list pyval) (s : string) :
  (length (Py.distinct (l1 ++ VStr s :: l2 ++ VStr s :: l3))
   < length (l1 ++ VStr s :: l2 ++ VStr s :: l3))%nat.
Proof.
  induction l1 as [|a l1 IH].
  - simpl app.
    change (Py.distinct (VStr s :: l2 ++ VStr s :: l3))
      with (VStr s :: List.filter (fun w => negb (Py.eqb (VStr s) w))
                                  (Py.distinct (l2 ++ VStr s :: l3))).
    simpl length.
    assert (Hin : VStr s ∈ Py.distinct (l2 ++ VStr s :: l3)).
    { apply distinct_keeps_text. apply elem_of_app. right. left. }
    pose proof (filter_length_lt (fun w => negb (Py.eqb (VStr s) w)) _ _ Hin) as Hlt.
    simpl in Hlt. rewrite String.eqb_refl in Hlt. specialize (Hlt eq_refl).
    pose proof (distinct_length_le (l2 ++ VStr s :: l3)). lia.
  - simpl.
    pose proof (List.filter_length_le (fun w => negb (Py.eqb a w))
                  (Py.distinct (l1 ++ VStr s :: l2 ++ VStr s :: l3))).
    lia.
Qed.

Lemma identical_codes_split (submissions : list dict) :
  Spec.identical_submissions submissions ->
  (1 < len submissions)
  /\ exists c1 code c2 c3,
      SanityFlag.codes_of submissions = (c1 ++ VStr code :: c2 ++ VStr code :: c3)%list.
Proof.
  intros (l1 & a & l2 & b & l3 & code & -> & Ha & Hb). split.
  - unfold len. rewrite length_app. simpl. rewrite length_app. simpl. lia.
  - destruct (code_text_read _ _ Ha) as [Ta Ga], (code_text_read _ _ Hb) as [Tb Gb].
    unfold SanityFlag.codes_of.
    rewrite List.filter_app. simpl. rewrite Ta. rewrite List.filter_app. simpl. rewrite Tb.
    rewrite map_app. simpl. rewrite map_app. simpl. rewrite Ga, Gb. eauto.
Qed.

(** The first check, whenever it returns. *)
Lemma first_check_returns (submissions : list dict) (a0 a : SanityFlag.Analysis) :
  SanityFlag.check_identical submissions a0 = Ok a ->
  (a = a0
   \/ a = {| SanityFlag.suspicious := true;
             SanityFlag.patterns := append (SanityFlag.patterns a0) "identical_submissions";
             SanityFlag.confidence := 80 |})
  /\ (Spec.identical_submissions submissions ->
      a = {| SanityFlag.suspicious := true;
             SanityFlag.patterns := append (SanityFlag.patterns a0) "identical_submissions";
             SanityFlag.confidence := 80 |}).
Proof.
  unfold SanityFlag.check_identical.
  destruct (1 <? len submissions) eqn:E1.
  - destruct (Py.set_size (SanityFlag.codes_of submissions)) as [n|e] eqn:En; cbn [bind];
      [|discriminate].
    unfold Py.set_size in En.
    destruct (forallb Py.hashable (SanityFlag.codes_of submissions)); [|discriminate].
    injection En as <-.
    destruct (len (Py.distinct (SanityFlag.codes_of submissions))
              <? len (SanityFlag.codes_of submissions)) eqn:E;
      intros H; injection H as <-.
    + split; [right; reflexivity|reflexivity].
    + split; [left; reflexivity|]. intros Hi.
      apply identical_codes_split in Hi as (_ & c1 & code & c2 & c3 & Hc).
      apply Z.ltb_ge in E. unfold len in E.
      pose proof (distinct_shrinks_text c1 c2 c3 code) as Hlt. rewrite <- Hc in Hlt. lia.
  - intros H; injection H as <-. split; [left; reflexivity|]. intros Hi.
    apply identical_codes_split in Hi as (Hlen & _). apply Z.ltb_ge in E1. lia.
Qed.

Lemma matches_found (c r : dict) :
  Spec.matches c r ->
  SanityFlag.matches_response (Py.get_or c "code_snippet" (VStr EmptyString)) r = Ok true.
Proof.
  intros (s & t & Hs & Hne & Ht & Hsub).
  unfold SanityFlag.matches_response, Py.get_or. rewrite Hs, Ht. simpl.
  pose proof (proj2 (contains_substring s t) Hsub) as Hc.
  destruct (String.eqb s EmptyString) eqn:Es; [apply String.eqb_eq in Es; contradiction|].
  destruct (String.eqb t EmptyString) eqn:Et; simpl.
  - apply String.eqb_eq in Et. subst t. destruct s; [contradiction|discriminate].
  - rewrite Hc. reflexivity.
Qed.

Lemma any_found (c r : dict) (responses : list dict) (b : bool) :
  r ∈ responses -> Spec.matches c r ->
  any_r (SanityFlag.matches_response (Py.get_or c "code_snippet" (VStr EmptyString)))
        responses = Ok b ->
  b = true.
Proof.
  intros Hr Hm. induction responses as [|r' responses IH]; [inversion Hr|].
  simpl.
  destruct (SanityFlag.matches_response _ r') as [[|]|e] eqn:E; cbn [bind];
    [congruence| |discriminate].
  apply elem_of_cons in Hr as [->|Hr]; [|exact (IH Hr)].
  rewrite (matches_found _ _ Hm) in E. discriminate.
Qed.

(** The loop of the second check, whenever it returns. *)
Lemma copy_loop_returns (responses copies : list dict) (a0 a : SanityFlag.Analysis) :
  for_each (SanityFlag.check_copy responses) copies a0 = Ok a ->
  (forall p, p ∈ SanityFlag.patterns a0 -> p ∈ SanityFlag.patterns a)
  /\ (SanityFlag.suspicious a0 = true -> SanityFlag.suspicious a = true)
  /\ (SanityFlag.confidence a = SanityFlag.confidence a0
      \/ SanityFlag.confidence a = Z.max (SanityFlag.confidence a0) 70)
  /\ ((exists c r, c ∈ copies /\ r ∈ responses /\ Spec.matches c r) ->
      SanityFlag.suspicious a = true
      /\ "code_matches_ai_response" ∈ SanityFlag.patterns a
      /\ SanityFlag.confidence a = Z.max (SanityFlag.confidence a0) 70).
Proof.
  revert a0. induction copies as [|c copies IH]; intros a0; simpl.
  - intros H; injection H as <-.
    split; [auto|]. split; [auto|]. split; [left; reflexivity|].
    intros (c & r & Hin & _). inversion Hin.
  - unfold SanityFlag.check_copy at 1.
    destruct (any_r _ responses) as [found|e] eqn:Ef; cbn [bind]; [|discriminate].
    destruct found; cbn [bind].
    + intros H. destruct (IH _ H) as (Hp & Hs & Hc & _). simpl in *.
      assert (Hconf : SanityFlag.confidence a = Z.max (SanityFlag.confidence a0) 70)
        by (destruct Hc; lia).
      split; [intros p Hin; apply Hp; unfold append; apply elem_of_app; left; exact Hin|].
      split; [auto|]. split; [right; exact Hconf|].
      intros _. split; [auto|]. split; [|exact Hconf].
      apply Hp. unfold append. apply elem_of_app. right. left.
    + intros H. destruct (IH _ H) as (Hp & Hs & Hc & Hm).
      split; [exact Hp|]. split; [exact Hs|]. split; [exact Hc|].
      intros (c' & r & Hc' & Hr & Hcr). apply Hm.
      apply elem_of_cons in Hc' as [->|Hc']; [|eauto].
      pose proof (any_found _ _ _ _ Hr Hcr Ef). discriminate.
Qed.

(** The second check, whenever it returns. *)
Lemma check_responses_returns (events : list dict) (a0 a : SanityFlag.Analysis) :
  SanityFlag.check_responses events a0 = Ok a ->
  (forall p, p ∈ SanityFlag.patterns a0 -> p ∈ SanityFlag.patterns a)
  /\ (SanityFlag.suspicious a0 = true -> SanityFlag.suspicious a = true)
  /\ (SanityFlag.confidence a = SanityFlag.confidence a0
      \/ SanityFlag.confidence a = Z.max (SanityFlag.confidence a0) 70)
  /\ (Spec.copy_matches_response events ->
      SanityFlag.suspicious a = true
      /\ "code_matches_ai_response" ∈ SanityFlag.patterns a
      /\ SanityFlag.confidence a = Z.max (SanityFlag.confidence a0) 70).
Proof.
  unfold SanityFlag.check_responses.
  set (copies := List.filter Py.is_copy events).
  set (responses := List.filter (Py.is_type "response_received") events).
  intros H.
  assert (Hin : Spec.copy_matches_response events ->
                exists c r, c ∈ copies /\ r ∈ responses /\ Spec.matches c r).
  { intros (c & r & Hc & Hr & Hpc & Hpr & Hm). exists c, r.
    split; [apply elem_of_filter_bool; auto|].
    split; [apply elem_of_filter_bool; auto|exact Hm]. }
  destruct copies as [|c copies'] eqn:Ec.
  { injection H as <-. split; [auto|]. split; [auto|]. split; [left; reflexivity|].
    intros Hm. destruct (Hin Hm) as (c & r & Hc & _). inversion Hc. }
  destruct responses as [|r responses'] eqn:Er.
  { injection H as <-. split; [auto|]. split; [auto|]. split; [left; reflexivity|].
    intros Hm. destruct (Hin Hm) as (c' & r & _ & Hr & _). inversion Hr. }
  destruct (copy_loop_returns _ _ _ _ H) as (Hp & Hs & Hc & Hm).
  split; [exact Hp|]. split; [exact Hs|]. split; [exact Hc|].
  intros Hcm. apply Hm, Hin, Hcm.
Qed.

(** The first check raises on a code that [set] cannot hash. *)
Lemma first_check_raises (submissions : list dict) (a0 : SanityFlag.Analysis) :
  1 < len submissions ->
  Exists (fun s => Spec.object_code s = true) submissions ->
  SanityFlag.check_identical submissions a0 = Err TypeError.
Proof.
  intros Hlen Hex. unfold SanityFlag.check_identical.
  replace (1 <? len submissions) with true by (symmetry; apply Z.ltb_lt; exact Hlen).
  unfold Py.set_size.
  replace (forallb Py.hashable (SanityFlag.codes_of submissions)) with false; [reflexivity|].
  symmetry. unfold SanityFlag.codes_of.
  clear Hlen. induction Hex as [s l Hs|s l _ IH]; simpl.
  - assert (H : Py.truthy (Py.get s "code") = true
                /\ Py.hashable (Py.get_or s "code" (VStr EmptyString)) = false).
    { unfold Spec.object_code, Py.get, Py.get_or in *.
      destruct (s !! "code") as [[| | | | |d]|]; try discriminate. simpl. auto. }
    destruct H as [-> H]. simpl. rewrite H. reflexivity.
  - destruct (Py.truthy (Py.get s "code")); [|exact IH].
    simpl. rewrite IH. apply andb_false_r.
Qed.

(** The analysis, whenever it returns. *)
Lemma plagiarism_on_return (submissions events : list dict) (a : SanityFlag.Analysis) :
  SanityFlag._analyze_plagiarism submissions events = Ok a ->
  (Spec.identical_submissions submissions ->
   SanityFlag.suspicious a = true
   /\ "identical_submissions" ∈ SanityFlag.patterns a
   /\ SanityFlag.confidence a = 80)
  /\ (Spec.copy_matches_response events ->
      SanityFlag.suspicious a = true
      /\ "code_matches_ai_response" ∈ SanityFlag.patterns a
      /\ 70 <= SanityFlag.confidence a)
  /\ (SanityFlag.confidence a = 0 \/ SanityFlag.confidence a = 70
      \/ SanityFlag.confidence a = 80).
Proof.
  unfold SanityFlag._analyze_plagiarism. cbv zeta.
  destruct (SanityFlag.check_identical submissions SanityFlag.initial_analysis)
    as [a1|e] eqn:E1; cbn [bind]; [|discriminate].
  intros H2.
  destruct (first_check_returns _ _ _ E1) as (Hcases & Hid).
  destruct (check_responses_returns _ _ _ H2) as (Hp & Hs & Hc & Hm).
  split; [|split].
  - intros Hi. specialize (Hid Hi). subst a1. simpl in *.
    split; [auto|]. split; [apply Hp; left|]. destruct Hc; lia.
  - intros Hcm. destruct (Hm Hcm) as (Hs' & Hp' & Hc'). split; [auto|]. split; [auto|]. lia.
  - destruct Hcases as [->| ->]; simpl in *; destruct Hc; lia.
Qed.

End PlagiarismReturns.

(** C6. Whenever the plagiarism analysis returns, on any submissions and
    events: if two or more submissions have the same non-empty code text,
    it is suspicious, has the pattern "identical_submissions" and
    confidence 80; if the non-empty snippet of a copy event occurs in the
    text of a [response_received] event, it is suspicious, has the pattern
    "code_matches_ai_response" and confidence at least 70; and the
    confidence is 0, 70 or 80, never a sum.  When the text fields are texts
    (a string, null or absent), the analysis returns, and the confidence is
    the maximum of 80 for the first check, when it triggers, and 70 for the
    second, when it triggers.  It does not return on all records: with two
    or more submissions, of which one has an object that is not empty for
    its code, it raises [TypeError]. *)
Theorem plagiarism_confidence_is_max (submissions events : list dict) :
  (forall a,
     SanityFlag._analyze_plagiarism submissions events = Ok a ->
     (Spec.identical_submissions submissions ->
      SanityFlag.suspicious a = true
      /\ "identical_submissions" ∈ SanityFlag.patterns a
      /\ SanityFlag.confidence a = 80)
     /\ (Spec.copy_matches_response events ->
         SanityFlag.suspicious a = true
         /\ "code_matches_ai_response" ∈ SanityFlag.patterns a
         /\ 70 <= SanityFlag.confidence a)
     /\ (SanityFlag.confidence a = 0 \/ SanityFlag.confidence a = 70
         \/ SanityFlag.confidence a = 80))
  /\ (Spec.text_fields submissions events ->
      exists a,
        SanityFlag._analyze_plagiarism submissions events = Ok a
        /\ (Spec.identical_submissions submissions ->
            SanityFlag.suspicious a = true
            /\ "identical_submissions" ∈ SanityFlag.patterns a
            /\ SanityFlag.confidence a = 80)
        /\ (Spec.copy_matches_response events ->
            SanityFlag.suspicious a = true
            /\ "code_matches_ai_response" ∈ SanityFlag.patterns a
            /\ 70 <= SanityFlag.confidence a)
        /\ exists c1 c2,
            SanityFlag.confidence a = Z.max c1 c2
            /\ (Spec.identical_submissions submissions /\ c1 = 80
                \/ ~ Spec.identical_submissions submissions /\ c1 = 0)
            /\ (Spec.copy_matches_response events /\ c2 = 70
                \/ ~ Spec.copy_matches_response events /\ c2 = 0))
  /\ (1 < len submissions ->
      Exists (fun s => Spec.object_code s = true) submissions ->
      SanityFlag._analyze_plagiarism submissions events = Err TypeError).
Proof.
  split; [intros a; apply plagiarism_on_return|].
  split.
  2:{ intros Hlen Hex. unfold SanityFlag._analyze_plagiarism. cbv zeta.
      rewrite (first_check_raises _ _ Hlen Hex). reflexivity. }
  intros [Hs He]. unfold SanityFlag._analyze_plagiarism. cbv zeta.
  destruct (first_check_spec submissions Hs) as [[Hi ->]|[Hi ->]]; cbn [bind];
    match goal with |- context [SanityFlag.check_responses events ?a0] =>
      destruct (check_responses_spec events a0 He)
        as (a & -> & [(Hm & Hsus & Hpat & Hsub & Hconf)|(Hm & ->)])
    end; simpl in *.
  - exists a. split; [reflexivity|]. rewrite Hconf.
    split; [intros _; repeat split; auto; apply Hsub; left|].
    split; [intros _; repeat split; auto; lia|].
    exists 80, 70. split; [reflexivity|]. split; [left|left]; auto.
  - eexists. split; [reflexivity|]. simpl.
    split; [intros _; repeat split; left|].
    split; [intros H; contradiction|].
    exists 80, 0. split; [reflexivity|]. split; [left|right]; auto.
  - exists a. split; [reflexivity|]. rewrite Hconf.
    split; [intros H; contradiction|].
    split; [intros _; repeat split; auto; lia|].
    exists 0, 70. split; [reflexivity|]. split; [right|left]; auto.
  - eexists. split; [reflexivity|]. simpl.
    split; [intros H; contradiction|].
    split; [intros H; contradiction|].
    exists 0, 0. split; [reflexivity|]. split; [right|right]; auto.
Qed.

Lemma plagiarism_confidence_is_max_witness :
  Spec.text_fields Demo.twin_submissions Demo.copied_answer
  /\ exists a,
      SanityFlag._analyze_plagiarism Demo.twin_submissions Demo.copied_answer = Ok a
      /\ SanityFlag.suspicious a = true
      /\ SanityFlag.confidence a = 80.
Proof.
  assert (Ht : Spec.text_fields Demo.twin_submissions Demo.copied_answer).
  { split; repeat (apply List.Forall_cons; [vm_compute; auto|]); apply List.Forall_nil. }
  split; [exact Ht|].
  destruct (proj1 (proj2 (plagiarism_confidence_is_max _ _)) Ht) as (a & Ha & Hid & _).
  exists a. split; [exact Ha|].
  destruct Hid as (Hs & _ & Hc); [|auto].
  exists [], {[ "code" := VStr "print(1)" ]}, [], {[ "code" := VStr "print(1)" ]}, [],
         "print(1)".
  repeat split; discriminate.
Defined.

(** C6, counterexample.  Two of three submissions have the same non-empty
    code text and the analysis raises [TypeError], the code of the third
    being an object, which [set] cannot hash; and the snippet of a copy
    event occurs in a response and the analysis raises [TypeError], the
    snippet of an earlier copy event being a number, which [in] does not
    look for in a string. *)
Theorem plagiarism_raises_on_other_fields :
  (Spec.identical_submissions Demo.object_code_submissions
   /\ SanityFlag._analyze_plagiarism Demo.object_code_submissions [] = Err TypeError)
  /\ (Spec.copy_matches_response Demo.number_snippet_events
      /\ SanityFlag._analyze_plagiarism [] Demo.number_snippet_events = Err TypeError).
Proof.
  split; split.
  - exists [ {[ "code" := VDict {[ "a" := VInt 1 ]} ]} ],
           {[ "code" := VStr "x" ]}, [], {[ "code" := VStr "x" ]}, [], "x".
    repeat split; discriminate.
  - vm_compute. reflexivity.
  - exists (<[ "code_snippet" := VStr "x = 1" ]> (Demo.event "code_copied")),
           (<[ "response_text" := VStr "try x = 1 first" ]> (Demo.event "response_received")).
    split; [right; right; left|]. split; [left|].
    split; [vm_compute; reflexivity|]. split; [vm_compute; reflexivity|].
    exists "x = 1", "try x = 1 first".
    split; [reflexivity|]. split; [discriminate|]. split; [reflexivity|].
    exists "try ", " first". reflexivity.
  - vm_compute. reflexivity.
Qed.

(** ** Time differences *)

Section TimeDiff.
Context (rt : Runtime).

(** A value rounded with a negative sign is not above zero. *)
Lemma round_negative_not_positive mx ex lx :
  SFltb (S754_zero false)
        (binary_round_aux Float64.prec Float64.emax true mx ex lx) = false.
Proof.
  unfold binary_round_aux.
  destruct (shr_fexp _ _ mx ex lx) as [mrs' e'].
  destruct (shr_fexp _ _ _ e' loc_Exact) as [mrs'' e''].
  destruct (shr_m mrs'') as [|m|m]; try reflexivity.
  destruct (e'' <=? Float64.emax - Float64.prec); reflexivity.
Qed.

Lemma truediv_positive (n : Z) (q : float) :
  Float64.truediv n 1000000 = Ok q ->
  Float64.ltb (Float64.of_Z 0) q = true ->
  0 < n.
Proof.
  unfold Float64.truediv. change (1000000 =? 0) with false. cbv iota.
  destruct n as [|p|p]; [| lia |].
  - simpl. intros H; injection H as <-. discriminate.
  - unfold Float64.div, Float64.exact, SFdiv.
    destruct (SFdiv_core_binary _ _ _ _ _ _) as [[mz ez] lz].
    change (xorb true false) with true.
    pose proof (round_negative_not_positive mz ez lz) as Hneg.
    destruct (binary_round_aux _ _ true mz ez lz) eqn:E; try discriminate;
      intros H; injection H as <-; intros Hpos;
      change (Float64.ltb (Float64.of_Z 0)) with (SFltb (S754_zero false)) in Hpos;
      congruence.
Qed.

Lemma time_diff_later (t1 t2 : pyval) (d : float) :
  Executor._time_diff rt t1 t2 = Some d ->
  Spec.later rt t1 t2 /\ Float64.ltb (Float64.of_Z 0) d = true.
Proof.
  unfold Executor._time_diff, Spec.later, Spec.instant.
  destruct (Py.parse_if_str rt t1) as [v1|e]; cbn [bind catch]; [|discriminate].
  destruct (Py.parse_if_str rt t2) as [v2|e]; cbn [bind catch]; [|discriminate].
  destruct v1 as [| | | |d1|]; try discriminate.
  destruct v2 as [| | | |d2|]; try discriminate.
  unfold Py.seconds_between.
  destruct (Bool.eqb (dt_aware d1) (dt_aware d2)) eqn:Ea; cbn [bind catch]; [|discriminate].
  destruct (Float64.truediv (dt_us d2 - dt_us d1) 1000000) as [q|e] eqn:Eq;
    cbn [bind catch]; [|discriminate].
  destruct (Float64.ltb (Float64.of_Z 0) q) eqn:Epos; [|discriminate].
  intros H; injection H as <-. split; [|exact Epos].
  exists d1, d2. repeat split.
  - apply Bool.eqb_prop, Ea.
  - pose proof (truediv_positive _ _ Eq Epos). lia.
Qed.

Lemma flag_time_diff_same (t1 t2 : pyval) :
  SanityFlag._time_diff rt t1 t2 = Executor._time_diff rt t1 t2.
Proof. reflexivity. Qed.

Lemma not_later_no_diff (t1 t2 : pyval) :
  ~ Spec.later rt t1 t2 -> Executor._time_diff rt t1 t2 = None.
Proof.
  intros H. destruct (Executor._time_diff rt t1 t2) as [d|] eqn:E; [|reflexivity].
  exfalso. apply H. apply (time_diff_later _ _ _ E).
Qed.

Lemma executor_gap_discarded (a b : dict) (rest : list dict) :
  ~ Spec.later rt (Py.get a "timestamp") (Py.get b "timestamp") ->
  Executor.gaps_from rt a (b :: rest) = Executor.gaps_from rt b rest.
Proof. intros H. simpl. rewrite (not_later_no_diff _ _ H). reflexivity. Qed.

Lemma flag_gap_discarded (a b : dict) (rest : list dict) :
  ~ Spec.later rt (Py.get a "timestamp") (Py.get b "timestamp") ->
  SanityFlag.gaps_from rt a (b :: rest) = SanityFlag.gaps_from rt b rest.
Proof.
  intros H. simpl. rewrite flag_time_diff_same, (not_later_no_diff _ _ H). reflexivity.
Qed.

Lemma not_later_cases (t1 t2 : pyval) :
  (Spec.instant rt t1 = None \/ Spec.instant rt t2 = None
   \/ exists d1 d2, Spec.instant rt t1 = Some d1 /\ Spec.instant rt t2 = Some d2
                    /\ dt_us d2 <= dt_us d1) ->
  ~ Spec.later rt t1 t2.
Proof.
  intros H (d1 & d2 & H1 & H2 & _ & Hlt).
  destruct H as [H|[H|(e1 & e2 & E1 & E2 & Hle)]]; try congruence.
  rewrite H1 in E1. rewrite H2 in E2. injection E1 as <-. injection E2 as <-. lia.
Qed.

Lemma close_in_time_spec (c p : dict) :
  Executor._events_close_in_time rt c p 30 = true ->
  exists d,
    Executor._time_diff rt (Py.get c "timestamp") (Py.get p "timestamp") = Some d
    /\ Float64.ltb (Float64.of_Z 0) d = true
    /\ Float64.ltb d (Float64.of_Z 30) = true.
Proof.
  unfold Executor._events_close_in_time.
  destruct (Executor._time_diff rt _ _) as [d|]; [|discriminate].
  intros H. apply andb_true_iff in H as [H0 H30]. eauto.
Qed.

Lemma pair_copy_sound (interactions : list dict) (copies : list dict) found :
  (forall c, c ∈ copies -> c ∈ interactions /\ Py.is_copy c = true) ->
  Forall (Spec.paired rt interactions) found ->
  Forall (Spec.paired rt interactions)
         (fold_left (Executor.pair_copy rt (List.filter Py.is_paste interactions))
                    copies found).
Proof.
  revert found. induction copies as [|c copies IH]; intros found Hc Hf; simpl; [exact Hf|].
  apply IH; [intros c' Hc'; apply Hc; right; exact Hc'|].
  unfold Executor.pair_copy.
  destruct (List.find _ _) as [paste|] eqn:Efind; [|exact Hf].
  destruct (Py.truthy (VDict paste)); [|exact Hf].
  apply List.find_some in Efind as [Hin Hclose].
  apply list_elem_of_In, elem_of_filter_bool in Hin as [Hin Hp].
  destruct (close_in_time_spec _ _ Hclose) as (d & Hd & H0 & H30).
  apply Forall_append; [exact Hf|].
  destruct (Hc c) as [Hci Hcc]; [left|].
  exists c, paste, d. simpl. repeat split; auto.
  apply (time_diff_later _ _ _ Hd).
Qed.

End TimeDiff.

(** C9. The time-difference helper, in the executor and in the sanity-flag
    agent, returns a value only when the second timestamp parses strictly
    later than the first.  A consecutive pair of events whose timestamps are
    equal or decreasing is left out of the gaps of the anomaly detection and
    of the timing patterns, exactly as a pair with an unparsable timestamp
    is.  The copy-to-paste correlation records a copy event only with a paste
    event whose gap is strictly above 0 and strictly below 30 seconds. *)
Theorem time_diff_only_when_later (rt : Runtime) :
  (forall t1 t2 d,
      Executor._time_diff rt t1 t2 = Some d \/ SanityFlag._time_diff rt t1 t2 = Some d ->
      Spec.later rt t1 t2)
  /\ (forall a b rest,
         let t1 := Py.get a "timestamp" in
         let t2 := Py.get b "timestamp" in
         (Spec.instant rt t1 = None \/ Spec.instant rt t2 = None
          \/ exists d1 d2, Spec.instant rt t1 = Some d1 /\ Spec.instant rt t2 = Some d2
                           /\ dt_us d2 <= dt_us d1) ->
         Executor._time_diff rt t1 t2 = None
         /\ SanityFlag._time_diff rt t1 t2 = None
         /\ Executor.gaps_from rt a (b :: rest) = Executor.gaps_from rt b rest
         /\ SanityFlag.gaps_from rt a (b :: rest) = SanityFlag.gaps_from rt b rest)
  /\ (forall interactions found,
         Executor._extract_patterns rt interactions = Ok found ->
         Forall (Spec.paired rt interactions) (Executor.copyPastePatterns found)).
Proof.
  split; [|split].
  - intros t1 t2 d [H|H]; [|rewrite flag_time_diff_same in H];
      apply (time_diff_later rt _ _ _ H).
  - intros a b rest t1 t2 H. apply not_later_cases in H.
    split; [apply not_later_no_diff, H|].
    split; [rewrite flag_time_diff_same; apply not_later_no_diff, H|].
    split; [apply executor_gap_discarded, H|apply flag_gap_discarded, H].
  - intros interactions found. unfold Executor._extract_patterns.
    destruct (Executor.timing_of rt interactions) as [timing|e]; cbn [bind]; [|discriminate].
    destruct (for_each _ _ _) as [categories|e]; cbn [bind]; [|discriminate].
    intros H; injection H as <-. simpl.
    apply pair_copy_sound; [|constructor].
    intros c Hc. apply elem_of_filter_bool in Hc. exact Hc.
Qed.

Lemma time_diff_only_when_later_witness :
  exists found p,
    Executor._extract_patterns Demo.runtime Demo.copy_then_paste = Ok found
    /\ Executor.copyPastePatterns found = [p]
    /\ Spec.paired Demo.runtime Demo.copy_then_paste p.
Proof.
  destruct (Executor._extract_patterns Demo.runtime Demo.copy_then_paste) as [found|e] eqn:E;
    [|vm_compute in E; discriminate].
  pose proof (proj2 (proj2 (time_diff_only_when_later Demo.runtime)) _ _ E) as H.
  assert (Hlen : exists p, Executor.copyPastePatterns found = [p]).
  { vm_compute in E. injection E as <-. eexists. reflexivity. }
  destruct Hlen as [p Hp]. exists found, p.
  split; [reflexivity|]. split; [exact Hp|].
  rewrite Hp in H. inversion H; assumption.
Defined.

Lemma timeline_is_sorted_witness :
  exists timeline a b s u,
    Watcher._build_timeline Demo.runtime
      [Demo.event_at "prompt_sent" "10:00:05"; Demo.event_at "code_modified" "10:00:01"]
      [Demo.event_at "file_created" "10:00:03"] [] = Ok timeline
    /\ timeline !! 0%nat = Some a /\ timeline !! 1%nat = Some b
    /\ Spec.entry_timestamp a = Some s /\ Spec.entry_timestamp b = Some u
    /\ Str.leb s u = true.
Proof.
  assert (Hn : count_ok (Watcher._build_timeline Demo.runtime
      [Demo.event_at "prompt_sent" "10:00:05"; Demo.event_at "code_modified" "10:00:01"]
      [Demo.event_at "file_created" "10:00:03"] []) = Some 3%nat) by (vm_compute; reflexivity).
  destruct (Watcher._build_timeline Demo.runtime
              [Demo.event_at "prompt_sent" "10:00:05"; Demo.event_at "code_modified" "10:00:01"]
              [Demo.event_at "file_created" "10:00:03"] []) as [timeline|e] eqn:E;
    [|discriminate Hn].
  destruct timeline as [|a [|b timeline]]; try discriminate Hn.
  destruct (timeline_is_sorted Demo.runtime _ _ _ _ E 0%nat a b eq_refl eq_refl)
    as (s & u & Hs & Hu & Hle).
  exists (a :: b :: timeline), a, b, s, u; repeat split; assumption.
Defined.

(** ** Anomalies *)

Section Anomalies.
Context (rt : Runtime).

(** When the sort returns, the anomalies are those of the mean gap. *)
Lemma anomalies_when_sorted (events sorted_events : list dict) :
  2 <= len events ->
  Py.sorted (Py.keyed_by_timestamp rt 0 events) = Ok sorted_events ->
  SanityFlag._detect_anomalies rt events
  = Ok (SanityFlag.classify_gaps (SanityFlag.consecutive_gaps rt sorted_events)).
Proof.
  intros Hlen Hs. unfold SanityFlag._detect_anomalies.
  replace (len events <? 2) with false by (symmetry; apply Z.ltb_ge; lia).
  rewrite Hs. reflexivity.
Qed.

Lemma anomalies_of_short_list (events : list dict) :
  len events < 2 -> SanityFlag._detect_anomalies rt events = Ok [].
Proof.
  intros H. unfold SanityFlag._detect_anomalies.
  replace (len events <? 2) with true by (symmetry; apply Z.ltb_lt; lia).
  reflexivity.
Qed.

(** At most one anomaly, by the mean gap. *)
Lemma classify_gaps_cases (gaps : list float) :
  let mean := Float64.div (Float64.sum gaps) (Float64.of_Z (len gaps)) in
  (gaps = [] /\ SanityFlag.classify_gaps gaps = [])
  \/ (gaps <> [] /\ Float64.ltb mean (Float64.of_Z 5) = true
      /\ SanityFlag.classify_gaps gaps = [SanityFlag.rapid_fire_events])
  \/ (gaps <> [] /\ Float64.ltb mean (Float64.of_Z 5) = false
      /\ Float64.ltb (Float64.of_Z 3600) mean = true
      /\ SanityFlag.classify_gaps gaps = [SanityFlag.long_inactivity])
  \/ (gaps <> [] /\ Float64.ltb mean (Float64.of_Z 5) = false
      /\ Float64.ltb (Float64.of_Z 3600) mean = false
      /\ SanityFlag.classify_gaps gaps = []).
Proof.
  cbv zeta. destruct gaps as [|g gaps]; [left; auto|right].
  unfold SanityFlag.classify_gaps.
  destruct (Float64.ltb _ (Float64.of_Z 5)) eqn:E5.
  - left. repeat split; auto; discriminate.
  - right. destruct (Float64.ltb (Float64.of_Z 3600) _) eqn:E3600.
    + left. repeat split; auto; discriminate.
    + right. repeat split; auto; discriminate.
Qed.

(** Timestamps that are all strings sort, and the detector returns. *)
Lemma anomalies_total_on_string_timestamps (events : list dict) :
  Forall Spec.stamped events ->
  exists anomalies, SanityFlag._detect_anomalies rt events = Ok anomalies.
Proof.
  intros H. unfold SanityFlag._detect_anomalies.
  destruct (len events <? 2); [eauto|].
  unfold Py.sorted.
  destruct (sort_keyed_str_total (Py.keyed_by_timestamp rt 0 events)) as [r ->];
    [|cbn [bind]; eauto].
  unfold Spec.str_keyed, Py.keyed_by_timestamp.
  apply Forall_forall. intros p Hp.
  apply elem_of_lookup_imap in Hp as (i & e & -> & He).
  rewrite Forall_forall in H. destruct (H e) as [s Hs].
  { apply list_elem_of_lookup. eauto. }
  exists s. simpl. unfold Py.get_or. rewrite Hs. reflexivity.
Qed.

End Anomalies.

(** C5 at the input that breaks it.  Two events, one with a timestamp
    string and one without a timestamp: no gap between them is computable,
    and the detector raises [TypeError] from the sort where the claim has it
    return no anomalies. *)
Theorem anomalies_raise_without_a_gap (rt : Runtime) (stamp : string) :
  let events : list dict := [ {[ "timestamp" := VStr stamp ]}; ∅ ] in
  SanityFlag.consecutive_gaps rt events = []
  /\ SanityFlag.consecutive_gaps rt (reverse events) = []
  /\ SanityFlag._detect_anomalies rt events = Err TypeError.
Proof.
  cbv zeta. split; [|split].
  - unfold SanityFlag.consecutive_gaps, SanityFlag.gaps_from, SanityFlag._time_diff.
    change (Py.get {[ "timestamp" := VStr stamp ]} "timestamp") with (VStr stamp).
    change (Py.get (∅ : dict) "timestamp") with VNone.
    simpl. destruct (rt_parse rt stamp); reflexivity.
  - unfold reverse; simpl rev_append.
    unfold SanityFlag.consecutive_gaps, SanityFlag.gaps_from, SanityFlag._time_diff.
    change (Py.get {[ "timestamp" := VStr stamp ]} "timestamp") with (VStr stamp).
    change (Py.get (∅ : dict) "timestamp") with VNone.
    simpl. destruct (rt_parse rt stamp); reflexivity.
  - reflexivity.
Qed.

(** C8 at an input that breaks it.  A prompt with a timestamp string and a
    modification without a timestamp: the anomaly detector and the red-flag
    detector both raise [TypeError], from [sorted] and from [min]. *)
Theorem detectors_raise_on_missing_timestamp (rt : Runtime) (stamp : string) :
  let events := [ Demo.event_at "prompt_sent" stamp; Demo.event "code_modified" ] in
  SanityFlag._detect_anomalies rt events = Err TypeError
  /\ SanityFlag._detect_red_flags rt events [] = Err TypeError.
Proof. cbv zeta. split; reflexivity. Qed.

(** * Further properties of the agents *)

(** ** Alerts and metrics of the watcher *)

Lemma eq_str_high_severity (v : dict) :
  Py.eq_str (Py.get v "severity") "high" = true <-> Spec.has_severity "high" v.
Proof.
  unfold Py.get, Spec.has_severity.
  destruct (v !! "severity") as [[]|]; simpl; try (split; [discriminate|congruence]).
  split; [intros H; apply String.eqb_eq in H; congruence|].
  intros H; injection H as ->; reflexivity.
Qed.

Lemma filter_high_nonempty (l : list dict) :
  List.filter (fun v => Py.eq_str (Py.get v "severity") "high") l <> []
  <-> Exists (Spec.has_severity "high") l.
Proof.
  induction l as [|v l IH]; simpl.
  - split; [congruence|intros H; inversion H].
  - destruct (Py.eq_str (Py.get v "severity") "high") eqn:E.
    + split; [intros _|discriminate]. constructor. apply eq_str_high_severity, E.
    + rewrite IH. split; [intros H; constructor 2; exact H|].
      intros H. inversion H as [? ? Hv|? ? Hl]; subst; [|exact Hl].
      apply eq_str_high_severity in Hv. congruence.
Qed.

Lemma weight_sum_le_30 (vs : list dict) : Spec.weight_sum vs <= 30 * len vs.
Proof.
  unfold len. induction vs as [|v vs IH]; simpl Spec.weight_sum; simpl length; [lia|].
  destruct (severityWeight_cases v) as [H|[H|H]]; lia.
Qed.

Lemma watcher_risk_score_eq (violations interactions : list dict) :
  Watcher._calculate_risk_score violations interactions = Spec.watch_risk_score violations.
Proof.
  unfold Watcher._calculate_risk_score, Spec.watch_risk_score.
  destruct violations as [|v vs]; [reflexivity|].
  rewrite watcher_fold_add_severity. reflexivity.
Qed.

(** The alerts that [watch_session] derives from its own risk score.  The
    risk alert is there exactly when the weights of the violations sum to
    more than 70, which takes at least three violations; the violation alert
    exactly when some violation has severity "high"; the risk alert comes
    first, and there is nothing else. *)
Theorem alerts_follow_score_and_severity (violations interactions : list dict) :
  let alerts :=
    Watcher._generate_alerts violations
      (Watcher._calculate_risk_score violations interactions) in
  (Exists (Spec.has_type "risk_alert") alerts <-> 70 < Spec.weight_sum violations)
  /\ (Exists (Spec.has_type "violation_alert") alerts
      <-> Exists (Spec.has_severity "high") violations)
  /\ (Exists (Spec.has_type "risk_alert") alerts -> 3 <= len violations)
  /\ exists risk high,
      alerts = (risk ++ high)%list
      /\ (risk = [] \/ exists m, risk = [Watcher.alert "critical" m "risk_alert"])
      /\ (high = [] \/ exists m, high = [Watcher.alert "high" m "violation_alert"]).
Proof.
  cbv zeta.
  rewrite watcher_risk_score_eq. unfold Spec.watch_risk_score, Watcher._generate_alerts.
  pose proof (weight_sum_le_30 violations) as H30.
  pose proof (filter_high_nonempty violations) as Hhigh.
  assert (Hrisk : (70 <? 100 `min` Spec.weight_sum violations) = true
                  <-> 70 < Spec.weight_sum violations).
  { rewrite Z.ltb_lt. lia. }
  destruct (70 <? 100 `min` Spec.weight_sum violations) eqn:E70;
    destruct (List.filter _ violations) as [|h hs] eqn:Ef; unfold append; simpl app.
  - assert (Hno : ~ Exists (Spec.has_severity "high") violations)
      by (rewrite <- Hhigh; congruence).
    assert (H70 : 70 < Spec.weight_sum violations) by (apply Hrisk; reflexivity).
    split; [split; [intros _; exact H70|intros _; left; reflexivity]|].
    split; [split; [intros H; inversion H as [? ? Ht|? ? Ht]; subst;
                    [vm_compute in Ht; discriminate Ht|inversion Ht]|intros H; contradiction]|].
    split; [intros _; lia|].
    eexists [_], []. split; [reflexivity|]. split; [right; eauto|left; reflexivity].
  - assert (Hyes : Exists (Spec.has_severity "high") violations)
      by (apply Hhigh; congruence).
    assert (H70 : 70 < Spec.weight_sum violations) by (apply Hrisk; reflexivity).
    split; [split; [intros _; exact H70|intros _; left; reflexivity]|].
    split; [split; [intros _; exact Hyes|intros _; right; left; reflexivity]|].
    split; [intros _; lia|].
    eexists [_], [_]. split; [reflexivity|]. split; right; eauto.
  - assert (Hno : ~ Exists (Spec.has_severity "high") violations)
      by (rewrite <- Hhigh; congruence).
    assert (H70 : ~ 70 < Spec.weight_sum violations)
      by (intros H; apply Hrisk in H; discriminate).
    split; [split; [intros H; inversion H|intros H; contradiction]|].
    split; [split; [intros H; inversion H|intros H; contradiction]|].
    split; [intros H; inversion H|].
    exists [], []. split; [reflexivity|]. split; left; reflexivity.
  - assert (Hyes : Exists (Spec.has_severity "high") violations)
      by (apply Hhigh; congruence).
    assert (H70 : ~ 70 < Spec.weight_sum violations)
      by (intros H; apply Hrisk in H; discriminate).
    split; [split; [intros H; inversion H as [? ? Ht|? ? Ht]; subst;
                    [vm_compute in Ht; discriminate Ht|inversion Ht]|intros H; contradiction]|].
    split; [split; [intros _; exact Hyes|intros _; left; reflexivity]|].
    split; [intros H; inversion H as [? ? Ht|? ? Ht]; subst;
            [vm_compute in Ht; discriminate Ht|inversion Ht]|].
    eexists [], [_]. split; [reflexivity|]. split; [left; reflexivity|right; eauto].
Qed.

Lemma is_type_exclusive (a b : string) (e : dict) :
  a <> b -> Py.is_type a e = true -> Py.is_type b e = false.
Proof.
  unfold Py.is_type, Py.eq_str. destruct (Py.get e "event_type"); try discriminate.
  intros Hab Ha. apply String.eqb_eq in Ha. subst s.
  apply String.eqb_neq. exact Hab.
Qed.

Lemma count_le_len {A} (p : A -> bool) (l : list A) : Spec.count p l <= len l.
Proof.
  unfold len. induction l as [|x l IH]; simpl Spec.count; simpl length; [lia|].
  destruct (p x); lia.
Qed.

Lemma count_three_types (a b c : string) (l : list dict) :
  a <> b -> a <> c -> b <> c ->
  Spec.count (Py.is_type a) l + Spec.count (Py.is_type b) l + Spec.count (Py.is_type c) l
  <= len l.
Proof.
  intros Hab Hac Hbc. unfold len.
  induction l as [|e l IH]; simpl Spec.count; simpl length; [lia|].
  destruct (Py.is_type a e) eqn:Ea.
  - rewrite (is_type_exclusive a b e Hab Ea), (is_type_exclusive a c e Hac Ea). lia.
  - destruct (Py.is_type b e) eqn:Eb.
    + rewrite (is_type_exclusive b c e Hbc Eb). lia.
    + destruct (Py.is_type c e); lia.
Qed.

(** The metrics of [watch_session]: the three totals are the lengths of the
    three lists; the counters of created, modified and deleted files never
    add up to more than the total of file operations (an operation of
    another type counts in the total only), and the executed commands are
    at most the terminal events. *)
Theorem metrics_are_consistent (interactions file_operations terminal_events : list dict) :
  exists creates modifies deletes commands,
    Watcher._calculate_metrics interactions file_operations terminal_events
    = list_to_map
        [ ("totalInteractions", VInt (len interactions));
          ("totalFileOperations", VInt (len file_operations));
          ("totalTerminalEvents", VInt (len terminal_events));
          ("fileCreates", VInt creates);
          ("fileModifies", VInt modifies);
          ("fileDeletes", VInt deletes);
          ("commandsExecuted", VInt commands) ]
    /\ 0 <= creates /\ 0 <= modifies /\ 0 <= deletes
    /\ creates + modifies + deletes <= len file_operations
    /\ 0 <= commands <= len terminal_events.
Proof.
  eexists _, _, _, _. split; [reflexivity|].
  rewrite !len_filter_count.
  pose proof (count_nonneg (Py.is_type "file_created") file_operations).
  pose proof (count_nonneg (Py.is_type "file_modified") file_operations).
  pose proof (count_nonneg (Py.is_type "file_deleted") file_operations).
  pose proof (count_nonneg (Py.is_type "command_executed") terminal_events).
  pose proof (count_le_len (Py.is_type "command_executed") terminal_events).
  pose proof (count_three_types "file_created" "file_modified" "file_deleted"
                file_operations) as Hsum.
  repeat split; try assumption.
  apply Hsum; discriminate.
Qed.

(** ** Red flags *)

Lemma eq_int_perfect (s : dict) :
  Py.eq_int (Py.get_or s "score" (VInt 0)) 100 = true <-> Spec.perfect s.
Proof.
  unfold Py.get_or, Spec.perfect.
  destruct (s !! "score") as [[|[]|z| | |]|]; simpl;
    try (split; [discriminate|congruence]).
  split; [intros H; apply Z.eqb_eq in H; congruence|].
  intros H; injection H as ->; reflexivity.
Qed.

Lemma filter_perfect_nonempty (l : list dict) :
  List.filter (fun s => Py.eq_int (Py.get_or s "score" (VInt 0)) 100) l <> []
  <-> Exists Spec.perfect l.
Proof.
  induction l as [|s l IH]; simpl.
  - split; [congruence|intros H; inversion H].
  - destruct (Py.eq_int (Py.get_or s "score" (VInt 0)) 100) eqn:E.
    + split; [intros _|discriminate]. constructor. apply eq_int_perfect, E.
    + rewrite IH. split; [intros H; constructor 2; exact H|].
      intros H. inversion H as [? ? Hv|? ? Hl]; subst; [|exact Hl].
      apply eq_int_perfect in Hv. congruence.
Qed.

Section RedFlags.
Context (rt : Runtime).

(** The three parts of the result, one per check. *)
Lemma red_flags_parts (events submissions flags : list dict) :
  SanityFlag._detect_red_flags rt events submissions = Ok flags ->
  let mods := Spec.count (Py.is_type "code_modified") events in
  exists f1 f2 f3,
    flags = (f1 ++ f2 ++ f3)%list
    /\ (f1 = [Spec.perfect_solution_flag] /\ Exists Spec.perfect submissions /\ mods < 3
        \/ f1 = [] /\ ~ (Exists Spec.perfect submissions /\ mods < 3))
    /\ (f2 = [Spec.rapid_completion_flag] /\ 10 < mods \/ f2 = [])
    /\ (f3 = [Spec.only_copies_flag] /\ 0 < Spec.count Py.is_copy events /\ mods = 0
        \/ f3 = [] /\ ~ (0 < Spec.count Py.is_copy events /\ mods = 0)).
Proof.
  cbv zeta. unfold SanityFlag._detect_red_flags.
  rewrite !len_filter_count.
  set (mods := Spec.count (Py.is_type "code_modified") events).
  pose proof (filter_perfect_nonempty submissions) as Hperf.
  set (first :=
         match submissions with
         | [] => []
         | _ :: _ =>
             match List.filter (fun s => Py.eq_int (Py.get_or s "score" (VInt 0)) 100)
                               submissions with
             | [] => []
             | _ :: _ =>
                 if mods <? 3
                 then append [] (SanityFlag.flag "perfect_solution_no_modifications"
                                   "Perfect solution with minimal code modifications" "high")
                 else []
             end
         end).
  assert (H1 : first = [Spec.perfect_solution_flag]
               /\ Exists Spec.perfect submissions /\ mods < 3
               \/ first = [] /\ ~ (Exists Spec.perfect submissions /\ mods < 3)).
  { subst first. destruct submissions as [|s0 ss].
    - right. split; [reflexivity|]. intros [H _]. inversion H.
    - destruct (List.filter _ (s0 :: ss)) as [|p ps] eqn:Ef.
      + right. split; [reflexivity|]. intros [H _]. apply Hperf in H. congruence.
      + destruct (mods <? 3) eqn:E3.
        * left. split; [reflexivity|]. split; [apply Hperf; congruence|].
          apply Z.ltb_lt, E3.
        * right. split; [reflexivity|]. intros [_ H]. apply Z.ltb_ge in E3. lia. }
  clearbody first.
  assert (H3 : forall acc : list dict,
             exists f3,
               match List.filter Py.is_copy events with
               | [] => Ok acc
               | _ :: _ =>
                   if mods =? 0
                   then Ok (append acc
                              (SanityFlag.flag "no_modifications_only_copies"
                                 "No code modifications, only copy-paste operations" "high"))
                   else Ok acc
               end = Ok (acc ++ f3)%list
               /\ (f3 = [Spec.only_copies_flag]
                   /\ 0 < Spec.count Py.is_copy events /\ mods = 0
                   \/ f3 = [] /\ ~ (0 < Spec.count Py.is_copy events /\ mods = 0))).
  { intros acc. rewrite <- (len_filter_count Py.is_copy events).
    destruct (List.filter Py.is_copy events) as [|c cs].
    - exists []. rewrite app_nil_r. split; [reflexivity|]. right.
      split; [reflexivity|]. unfold len; simpl. lia.
    - destruct (mods =? 0) eqn:E0.
      + exists [Spec.only_copies_flag]. split; [reflexivity|]. left.
        split; [reflexivity|]. split; [unfold len; simpl length; lia|].
        apply Z.eqb_eq, E0.
      + exists []. rewrite app_nil_r. split; [reflexivity|]. right.
        split; [reflexivity|]. apply Z.eqb_neq in E0. lia. }
  intros H.
  assert (H2 : exists f2,
             (f2 = [Spec.rapid_completion_flag] /\ 10 < mods \/ f2 = [])
             /\ exists f3, flags = (first ++ f2 ++ f3)%list
                           /\ (f3 = [Spec.only_copies_flag]
                               /\ 0 < Spec.count Py.is_copy events /\ mods = 0
                               \/ f3 = []
                                  /\ ~ (0 < Spec.count Py.is_copy events /\ mods = 0))).
  { revert H.
    destruct (Py.keyed_by_timestamp rt 0 events) as [|k ks];
      [|destruct (Py.keyed_by_timestamp rt (length events) events) as [|k' ks']];
      cbn [bind].
    1,2: intros H; destruct (H3 first) as (f3 & E3 & Hf3); rewrite E3 in H;
      injection H as <-; exists []; split; [right; reflexivity|];
      exists f3; split; [reflexivity|exact Hf3].
    destruct (Py.min_by k ks) as [first_event|e]; cbn [bind]; [|discriminate].
    destruct (Py.max_by k' ks') as [last_event|e]; cbn [bind]; [|discriminate].
    destruct (SanityFlag._time_diff rt _ _) as [d|]; cbn [bind].
    - destruct (Py.gap_truthy (Some d) && Float64.ltb d (Float64.of_Z 300));
        [destruct (10 <? mods) eqn:E10|]; cbn [bind].
      + intros H. destruct (H3 (append first Spec.rapid_completion_flag)) as (f3 & E3 & Hf3).
        unfold Spec.rapid_completion_flag in E3. rewrite E3 in H.
        injection H as <-. exists [Spec.rapid_completion_flag].
        split; [left; split; [reflexivity|apply Z.ltb_lt, E10]|].
        exists f3. split; [|exact Hf3].
        unfold Spec.rapid_completion_flag, append. rewrite <- app_assoc. reflexivity.
      + intros H; destruct (H3 first) as (f3 & E3 & Hf3); rewrite E3 in H;
          injection H as <-; exists []; split; [right; reflexivity|];
          exists f3; split; [reflexivity|exact Hf3].
      + intros H; destruct (H3 first) as (f3 & E3 & Hf3); rewrite E3 in H;
          injection H as <-; exists []; split; [right; reflexivity|];
          exists f3; split; [reflexivity|exact Hf3].
    - intros H; destruct (H3 first) as (f3 & E3 & Hf3); rewrite E3 in H;
        injection H as <-; exists []; split; [right; reflexivity|];
        exists f3; split; [reflexivity|exact Hf3]. }
  destruct H2 as (f2 & Hf2 & f3 & Hflags & Hf3).
  exists first, f2, f3. auto.
Qed.

End RedFlags.

Lemma red_flag_types :
  Spec.has_type "perfect_solution_no_modifications" Spec.perfect_solution_flag
  /\ Spec.has_type "rapid_completion" Spec.rapid_completion_flag
  /\ Spec.has_type "no_modifications_only_copies" Spec.only_copies_flag.
Proof. repeat split; vm_compute; reflexivity. Qed.

(** Whenever the red-flag detector returns: the perfect-solution flag is
    there exactly when some submission has score 100 and there are fewer than
    3 modifications; the only-copies flag exactly when there is a copy event
    and no modification; a rapid-completion flag needs more than 10
    modifications and so never comes with either of the other two; there is
    no other flag, and never more than two. *)
Theorem red_flags_characterised (rt : Runtime) (events submissions flags : list dict) :
  SanityFlag._detect_red_flags rt events submissions = Ok flags ->
  let mods := Spec.count (Py.is_type "code_modified") events in
  (Exists (Spec.has_type "perfect_solution_no_modifications") flags
   <-> Exists Spec.perfect submissions /\ mods < 3)
  /\ (Exists (Spec.has_type "no_modifications_only_copies") flags
      <-> 0 < Spec.count Py.is_copy events /\ mods = 0)
  /\ (Exists (Spec.has_type "rapid_completion") flags ->
      10 < mods
      /\ ~ Exists (Spec.has_type "perfect_solution_no_modifications") flags
      /\ ~ Exists (Spec.has_type "no_modifications_only_copies") flags)
  /\ Forall (fun f => f = Spec.perfect_solution_flag \/ f = Spec.rapid_completion_flag
                      \/ f = Spec.only_copies_flag) flags
  /\ (length flags <= 2)%nat.
Proof.
  intros H. cbv zeta.
  destruct (red_flags_parts rt _ _ _ H) as (f1 & f2 & f3 & -> & H1 & H2 & H3).
  destruct red_flag_types as (Tp & Tr & Tn).
  assert (Np : forall ty, ty <> "perfect_solution_no_modifications" ->
                          ~ Spec.has_type ty Spec.perfect_solution_flag).
  { intros ty Hne Ht. apply Hne. exact (has_type_functional _ _ _ Ht Tp). }
  assert (Nr : forall ty, ty <> "rapid_completion" ->
                          ~ Spec.has_type ty Spec.rapid_completion_flag).
  { intros ty Hne Ht. apply Hne. exact (has_type_functional _ _ _ Ht Tr). }
  assert (Nn : forall ty, ty <> "no_modifications_only_copies" ->
                          ~ Spec.has_type ty Spec.only_copies_flag).
  { intros ty Hne Ht. apply Hne. exact (has_type_functional _ _ _ Ht Tn). }
  assert (Hex : forall ty,
             Exists (Spec.has_type ty) (f1 ++ f2 ++ f3)
             <-> (f1 = [Spec.perfect_solution_flag]
                  /\ ty = "perfect_solution_no_modifications")
                 \/ (f2 = [Spec.rapid_completion_flag] /\ ty = "rapid_completion")
                 \/ (f3 = [Spec.only_copies_flag] /\ ty = "no_modifications_only_copies")).
  { intros ty. rewrite !Exists_app. split.
    - intros [Hx|[Hx|Hx]].
      + left. destruct H1 as [(-> & _)|(-> & _)]; [|inversion Hx].
        split; [reflexivity|]. inversion Hx as [? ? Ht|? ? Ht]; subst; [|inversion Ht].
        exact (has_type_functional _ _ _ Ht Tp).
      + right; left. destruct H2 as [(-> & _)| ->]; [|inversion Hx].
        split; [reflexivity|]. inversion Hx as [? ? Ht|? ? Ht]; subst; [|inversion Ht].
        exact (has_type_functional _ _ _ Ht Tr).
      + right; right. destruct H3 as [(-> & _)|(-> & _)]; [|inversion Hx].
        split; [reflexivity|]. inversion Hx as [? ? Ht|? ? Ht]; subst; [|inversion Ht].
        exact (has_type_functional _ _ _ Ht Tn).
    - intros [(-> & ->)|[(-> & ->)|(-> & ->)]];
        [left|right; left|right; right]; constructor; assumption. }
  split; [|split; [|split; [|split]]].
  - rewrite Hex. split.
    + intros [(E & _)|[(_ & E)|(_ & E)]]; try discriminate E.
      destruct H1 as [(_ & Hp)|(E' & _)]; [exact Hp|]. rewrite E' in E. discriminate.
    + intros Hc. left. split; [|reflexivity].
      destruct H1 as [(E & _)|(_ & Hn)]; [exact E|contradiction].
  - rewrite Hex. split.
    + intros [(_ & E)|[(_ & E)|(E & _)]]; try discriminate E.
      destruct H3 as [(_ & Hp)|(E' & _)]; [exact Hp|]. rewrite E' in E. discriminate.
    + intros Hc. right; right. split; [|reflexivity].
      destruct H3 as [(E & _)|(_ & Hn)]; [exact E|contradiction].
  - rewrite !Hex. intros [(_ & E)|[(E & _)|(_ & E)]]; try discriminate E.
    destruct H2 as [(_ & H10)|E']; [|rewrite E' in E; discriminate].
    split; [exact H10|]. split.
    + intros [(E1 & _)|[(_ & E1)|(_ & E1)]]; try discriminate E1.
      destruct H1 as [(_ & _ & Hlt)|(E' & _)]; [lia|]. rewrite E' in E1. discriminate.
    + intros [(_ & E1)|[(_ & E1)|(E1 & _)]]; try discriminate E1.
      destruct H3 as [(_ & _ & H0)|(E' & _)]; [lia|]. rewrite E' in E1. discriminate.
  - rewrite !Forall_app.
    destruct H1 as [(-> & _)|(-> & _)], H2 as [(-> & _)| ->], H3 as [(-> & _)|(-> & _)];
      repeat split;
      repeat first [apply List.Forall_nil | apply List.Forall_cons; [solve [auto]|]].
  - rewrite !length_app.
    destruct H1 as [(-> & _ & Hlt)|(-> & _)], H2 as [(-> & H10)| ->],
             H3 as [(-> & _ & H0)|(-> & _)]; simpl; lia.
Qed.

Lemma red_flags_characterised_witness :
  exists flags,
    SanityFlag._detect_red_flags Demo.runtime
      [Demo.event "code_copied"] [ {[ "score" := VInt 100 ]} ] = Ok flags
    /\ (length flags <= 2)%nat.
Proof.
  assert (H : is_ok (SanityFlag._detect_red_flags Demo.runtime
                       [Demo.event "code_copied"] [ {[ "score" := VInt 100 ]} ]) = true)
    by (vm_compute; reflexivity).
  apply is_ok_inv in H as [flags E]. exists flags. split; [exact E|].
  apply (red_flags_characterised Demo.runtime _ _ _ E).
Defined.

Section RedFlagsTotal.
Context (rt : Runtime).

Lemma min_max_total_on_strings (lt' : pyval -> pyval -> result bool)
      (rest : list (pyval * dict)) (first : pyval * dict) :
  (forall s t, exists b, lt' (VStr s) (VStr t) = Ok b) ->
  Spec.str_keyed (first :: rest) ->
  exists best,
    for_each (fun best x => let* b := lt' (fst x) (fst best) in
                            Ok (if b then x else best)) rest first = Ok best.
Proof.
  intros Hlt H. inversion H as [|? ? Hf Hrest]; subst. clear H.
  revert first Hf. induction Hrest as [|x rest [t Ht] _ IH]; intros first [s Hs]; simpl.
  - eauto.
  - rewrite Hs, Ht. destruct (Hlt t s) as [b ->]. cbn [bind].
    apply IH. destruct b; eauto.
Qed.

Lemma keyed_strings (first : nat) (events : list dict) :
  Forall Spec.stamped events -> Spec.str_keyed (Py.keyed_by_timestamp rt first events).
Proof.
  intros H. unfold Spec.str_keyed, Py.keyed_by_timestamp.
  apply Forall_forall. intros p Hp.
  apply elem_of_lookup_imap in Hp as (i & e & -> & He).
  rewrite Forall_forall in H. destruct (H e) as [s Hs].
  { apply list_elem_of_lookup. eauto. }
  exists s. simpl. unfold Py.get_or. rewrite Hs. reflexivity.
Qed.

End RedFlagsTotal.

(** When every event has a timestamp string, the red-flag detector returns:
    [min] and [max] compare strings only. *)
Theorem red_flags_total_on_string_timestamps (rt : Runtime) (events submissions : list dict) :
  Forall Spec.stamped events ->
  exists flags, SanityFlag._detect_red_flags rt events submissions = Ok flags.
Proof.
  intros H. unfold SanityFlag._detect_red_flags.
  pose proof (keyed_strings rt 0 events H) as K0.
  pose proof (keyed_strings rt (length events) events H) as K1.
  destruct (Py.keyed_by_timestamp rt 0 events) as [|k ks];
    [|destruct (Py.keyed_by_timestamp rt (length events) events) as [|k' ks']];
    cbn [bind].
  1,2: destruct (List.filter Py.is_copy events);
    [|destruct (len (List.filter (Py.is_type "code_modified") events) =? 0)]; eauto.
  unfold Py.min_by, Py.max_by.
  destruct (min_max_total_on_strings (fun a b => Py.lt a b) ks k) as [b1 ->];
    [intros s t; simpl; eauto|exact K0|]. cbn [bind].
  destruct (min_max_total_on_strings (fun a b => Py.lt b a) ks' k') as [b2 E2];
    [intros s t; simpl; eauto|exact K1|].
  simpl in E2. rewrite E2. cbn [bind].
  destruct (SanityFlag._time_diff rt _ _) as [d|]; cbn [bind].
  - destruct (Py.gap_truthy (Some d) && Float64.ltb d (Float64.of_Z 300));
      [destruct (10 <? len (List.filter (Py.is_type "code_modified") events))|];
      cbn [bind];
      (destruct (List.filter Py.is_copy events);
       [|destruct (len (List.filter (Py.is_type "code_modified") events) =? 0)]; eauto).
  - destruct (List.filter Py.is_copy events);
      [|destruct (len (List.filter (Py.is_type "code_modified") events) =? 0)]; eauto.
Qed.

Lemma red_flags_total_on_string_timestamps_witness :
  exists flags,
    SanityFlag._detect_red_flags Demo.runtime Demo.copy_then_paste [] = Ok flags.
Proof.
  apply (red_flags_total_on_string_timestamps Demo.runtime Demo.copy_then_paste []).
  repeat (apply List.Forall_cons; [eexists; vm_compute; reflexivity|]).
  apply List.Forall_nil.
Defined.

(** ** When the detectors return *)

Lemma for_each_is_ok {A S} (step : S -> A -> result S) (ok : A -> bool)
      (l : list A) (acc : S) :
  (forall s x, is_ok (step s x) = ok x) ->
  is_ok (for_each step l acc) = forallb ok l.
Proof.
  intros H. revert acc. induction l as [|x l IH]; intros acc; simpl; [reflexivity|].
  specialize (H acc x). destruct (step acc x) as [acc'|e]; simpl in *; rewrite <- H; simpl.
  - apply IH.
  - reflexivity.
Qed.

Lemma forallb_filter_implies {A} (p ok : A -> bool) (l : list A) :
  forallb ok (List.filter p l) = forallb (fun x => implb (p x) (ok x)) l.
Proof.
  induction l as [|x l IH]; simpl; [reflexivity|].
  destruct (p x); simpl; rewrite IH; reflexivity.
Qed.

Lemma lower_is_ok (v : pyval) : is_ok (Py.lower v) = Spec.is_text v.
Proof. destruct v; reflexivity. Qed.

Section Returns.
Context (rt : Runtime).

Lemma flag_check_prompt_is_ok st e :
  is_ok (SanityFlag.check_prompt rt st e)
  = Spec.is_text (Py.get_or e "prompt_text" (VStr EmptyString)).
Proof.
  destruct st as [vs k]. unfold SanityFlag.check_prompt.
  rewrite <- lower_is_ok.
  destruct (Py.lower _) as [text|err]; cbn [bind is_ok]; [|reflexivity].
  destruct (existsb _ SanityFlag.solution_patterns); reflexivity.
Qed.

Lemma text_prompt_is_text (e : dict) :
  Py.truthy (Py.get e "prompt_text") = true ->
  Spec.is_text (Py.get_or e "prompt_text" (VStr EmptyString))
  = Spec.text_or_falsy (Py.get e "prompt_text").
Proof.
  unfold Py.get, Py.get_or. destruct (e !! "prompt_text") as [v|]; simpl; [|discriminate].
  intros H. destruct v; simpl in *; rewrite ?H; reflexivity.
Qed.

End Returns.

Lemma flag_detect_returns (rt : Runtime) (events : list dict) :
  is_ok (SanityFlag._detect_violations rt events) = true
  <-> Forall (fun e => Py.is_type "prompt_sent" e = true ->
                       Spec.text_or_falsy (Py.get e "prompt_text") = true) events.
Proof.
  unfold SanityFlag._detect_violations.
  pose proof (for_each_is_ok (SanityFlag.check_prompt rt)
                (fun e => Spec.is_text (Py.get_or e "prompt_text" (VStr EmptyString)))
                (List.filter (fun e => Py.is_type "prompt_sent" e
                                       && Py.truthy (Py.get e "prompt_text")) events)
                ([], O) (flag_check_prompt_is_ok rt)) as Hok.
  rewrite forallb_filter_implies in Hok.
  assert (Hiff : is_ok (for_each (SanityFlag.check_prompt rt)
                          (List.filter (fun e => Py.is_type "prompt_sent" e
                                                 && Py.truthy (Py.get e "prompt_text"))
                                       events) ([], O)) = true
                 <-> Forall (fun e => Py.is_type "prompt_sent" e = true ->
                                      Spec.text_or_falsy (Py.get e "prompt_text") = true)
                            events).
  { rewrite Hok, forallb_forall, Forall_forall. split.
    - intros H e He Hp. specialize (H e (proj1 (list_elem_of_In _ _) He)).
      rewrite Hp in H. simpl in H.
      destruct (Py.truthy (Py.get e "prompt_text")) eqn:Et; simpl in H.
      + rewrite <- (text_prompt_is_text e Et). exact H.
      + destruct (Py.get e "prompt_text"); simpl in *; try rewrite Et; reflexivity.
    - intros H e He. apply list_elem_of_In in He.
      destruct (Py.is_type "prompt_sent" e) eqn:Hp; [|reflexivity]. simpl.
      destruct (Py.truthy (Py.get e "prompt_text")) eqn:Et; [|reflexivity]. simpl.
      rewrite (text_prompt_is_text e Et). apply (H e He Hp). }
  rewrite <- Hiff.
  destruct (for_each _ _ ([], O)) as [[vs k]|err]; cbn [bind is_ok]; [|reflexivity].
  destruct (5 <? _); reflexivity.
Qed.

(** The flag-mode violation detector returns exactly when the text of
    every [prompt_sent] event is a string or counts as false (null, absent,
    empty, 0): a text that is, say, a non-zero number makes [.lower()]
    raise. *)
Theorem flag_violations_return_iff (rt : Runtime) (events : list dict) :
  is_ok (SanityFlag._detect_violations rt events) = true
  <-> Forall (fun e => Py.is_type "prompt_sent" e = true ->
                       Spec.text_or_falsy (Py.get e "prompt_text") = true) events.
Proof. exact (flag_detect_returns rt events). Qed.

Section WatchReturns.
Context (rt : Runtime).

Lemma watch_check_copy_is_ok vs e :
  is_ok (Watcher.check_copy rt vs e)
  = Spec.text_or_falsy (Py.get_or e "code_snippet" (VStr EmptyString)).
Proof.
  unfold Watcher.check_copy, Py.or_else.
  destruct (Py.get_or e "code_snippet" (VStr EmptyString)) as [|b|z|s| |d] eqn:E; simpl.
  - reflexivity.
  - destruct b; reflexivity.
  - destruct (z =? 0); reflexivity.
  - destruct (String.eqb s EmptyString); simpl; [reflexivity|].
    destruct (50 <? len (Str.split_lines s)); reflexivity.
  - reflexivity.
  - destruct (Nat.eqb (size d) 0); reflexivity.
Qed.

Lemma watch_check_prompt_is_ok vs e :
  is_ok (Watcher.check_prompt rt vs e)
  = Spec.is_text (Py.get_or e "prompt_text" (VStr EmptyString)).
Proof.
  unfold Watcher.check_prompt. rewrite <- lower_is_ok.
  destruct (Py.lower _) as [text|err]; cbn [bind is_ok]; [|reflexivity].
  destruct (existsb _ Watcher.red_flag_patterns); reflexivity.
Qed.

Lemma watch_check_file_op_is_ok vs e :
  is_ok (Watcher.check_file_op rt vs e) = Spec.has_file_path rt e.
Proof.
  unfold Watcher.check_file_op, Spec.has_file_path, Watcher.file_path_of.
  destruct (Py.metadata_of rt e) as [|b|z|s| |m]; try reflexivity.
  unfold Py.attr_get, Py.or_else. cbn [bind].
  destruct (Py.truthy (Py.get_or m "filePath" (VStr EmptyString))); cbn [bind].
  - destruct (Py.get_or m "filePath" (VStr EmptyString)); try reflexivity.
    cbn [Py.lower bind Spec.is_text].
    destruct (existsb _ Watcher.suspicious_files); reflexivity.
  - destruct (Py.get_or m "fileName" (VStr EmptyString)); try reflexivity.
    cbn [Py.lower bind Spec.is_text].
    destruct (existsb _ Watcher.suspicious_files); reflexivity.
Qed.

Lemma prompts_with_text_ok (events : list dict) :
  forallb (fun e => Spec.is_text (Py.get_or e "prompt_text" (VStr EmptyString)))
          (List.filter (fun e => Py.is_type "prompt_sent" e
                                 && Py.truthy (Py.get e "prompt_text")) events) = true
  <-> Forall (fun e => Py.is_type "prompt_sent" e = true ->
                       Spec.text_or_falsy (Py.get e "prompt_text") = true) events.
Proof.
  rewrite forallb_filter_implies, forallb_forall, Forall_forall. split.
  - intros H e He Hp. specialize (H e (proj1 (list_elem_of_In _ _) He)).
    rewrite Hp in H. simpl in H.
    destruct (Py.truthy (Py.get e "prompt_text")) eqn:Et; simpl in H.
    + rewrite <- (text_prompt_is_text e Et). exact H.
    + destruct (Py.get e "prompt_text"); simpl in *; try rewrite Et; reflexivity.
  - intros H e He. apply list_elem_of_In in He.
    destruct (Py.is_type "prompt_sent" e) eqn:Hp; [|reflexivity]. simpl.
    destruct (Py.truthy (Py.get e "prompt_text")) eqn:Et; [|reflexivity]. simpl.
    rewrite (text_prompt_is_text e Et). apply (H e He Hp).
Qed.

Lemma forallb_Forall_implies {A} (p ok : A -> bool) (l : list A) :
  forallb (fun x => implb (p x) (ok x)) l = true
  <-> Forall (fun x => p x = true -> ok x = true) l.
Proof.
  rewrite forallb_forall, Forall_forall. split.
  - intros H x Hx Hp. specialize (H x (proj1 (list_elem_of_In _ _) Hx)).
    rewrite Hp in H. exact H.
  - intros H x Hx. apply list_elem_of_In in Hx. specialize (H x Hx).
    destruct (p x); simpl; auto.
Qed.

Lemma forallb_Forall_true {A} (ok : A -> bool) (l : list A) :
  forallb ok l = true <-> Forall (fun x => ok x = true) l.
Proof.
  rewrite forallb_forall, Forall_forall. split; intros H x Hx; apply H.
  - apply list_elem_of_In, Hx.
  - apply list_elem_of_In, Hx.
Qed.

End WatchReturns.

(** The watcher's violation detector returns exactly when (i) the snippet
    of every copy event is a string or counts as false, (ii) the text of
    every [prompt_sent] interaction is a string or counts as false, and
    (iii) the metadata of every file operation is an object (or a string
    that decodes to one, or a string that does not decode) whose path is a
    string.  The terminal events are not read. *)
Theorem watch_violations_return_iff (rt : Runtime)
        (interactions file_operations terminal_events : list dict) :
  is_ok (Watcher._detect_violations rt interactions file_operations terminal_events) = true
  <-> Forall (fun e => Py.is_copy e = true ->
                Spec.text_or_falsy (Py.get_or e "code_snippet" (VStr EmptyString)) = true)
             interactions
      /\ Forall (fun e => Py.is_type "prompt_sent" e = true ->
                   Spec.text_or_falsy (Py.get e "prompt_text") = true) interactions
      /\ Forall (fun e => Spec.has_file_path rt e = true) file_operations.
Proof.
  unfold Watcher._detect_violations.
  rewrite <- forallb_Forall_implies, <- prompts_with_text_ok, <- forallb_Forall_true.
  rewrite <- forallb_filter_implies.
  rewrite <- (for_each_is_ok (Watcher.check_copy rt) _ _ [] (watch_check_copy_is_ok rt)).
  destruct (for_each (Watcher.check_copy rt) _ []) as [v1|err]; cbn [bind is_ok];
    [|intuition discriminate].
  rewrite <- (for_each_is_ok (Watcher.check_prompt rt) _ _ v1 (watch_check_prompt_is_ok rt)).
  destruct (for_each (Watcher.check_prompt rt) _ v1) as [v2|err]; cbn [bind is_ok];
    [|intuition discriminate].
  rewrite <- (for_each_is_ok (Watcher.check_file_op rt) _ _ v2 (watch_check_file_op_is_ok rt)).
  intuition.
Qed.

(** ** When the timeline builder returns, and what it keeps *)

Section TimelineReturns.
Context (rt : Runtime).

Lemma is_type_get_or (ty : string) (e : dict) :
  ty <> EmptyString ->
  Py.eq_str (Py.get_or e "event_type" (VStr EmptyString)) ty = Py.is_type ty e.
Proof.
  intros Hty. unfold Py.is_type, Py.get, Py.get_or.
  destruct (e !! "event_type") as [v|]; simpl; [reflexivity|].
  destruct ty; [congruence|reflexivity].
Qed.

Lemma describe_event_is_ok (e : dict) :
  is_ok (Watcher._get_event_description rt e) = Spec.describable e.
Proof.
  unfold Watcher._get_event_description, Spec.describable, Py.is_copy.
  rewrite !is_type_get_or by discriminate.
  destruct (Py.is_type "prompt_sent" e) eqn:Ep.
  - destruct (Py.get_or e "prompt_text" (VStr EmptyString)) as [|b|z|s| |d];
      try reflexivity; simpl.
    + destruct (50 <? _); reflexivity.
    + destruct (50 <? Z.of_nat (size d)) eqn:E; cbn [bind is_ok].
      * symmetry. apply Z.leb_gt. apply Z.ltb_lt in E. lia.
      * symmetry. apply Z.leb_le. apply Z.ltb_ge in E. lia.
  - destruct (Py.is_type "response_received" e) eqn:Er.
    + assert (Py.is_type "code_copied_from_ai" e = false) as ->.
      { apply (is_type_exclusive "response_received"); [discriminate|exact Er]. }
      assert (Py.is_type "code_copied" e = false) as ->.
      { apply (is_type_exclusive "response_received"); [discriminate|exact Er]. }
      reflexivity.
    + destruct (Py.is_type "code_copied_from_ai" e || Py.is_type "code_copied" e).
      * destruct (Py.get_or e "code_snippet" (VStr EmptyString)); reflexivity.
      * destruct (Py.is_type "code_modified" e); reflexivity.
Qed.
End TimelineReturns.

Section TimelineBuild.
Context (rt : Runtime).

Lemma describe_file_is_ok (e : dict) :
  is_ok (Watcher._get_file_event_description rt e) = Spec.has_metadata rt e.
Proof.
  unfold Watcher._get_file_event_description, Spec.has_metadata, Watcher.file_path_of.
  destruct (Py.metadata_of rt e) as [|b|z|s| |m]; try reflexivity.
  unfold Py.attr_get. cbn [bind].
  destruct (Py.truthy (Py.get_or m "filePath" (VStr EmptyString))); cbn [bind];
    repeat match goal with |- context [if ?c then _ else _] => destruct c end;
    reflexivity.
Qed.

Lemma describe_terminal_is_ok (e : dict) :
  is_ok (Watcher._get_terminal_event_description rt e)
  = implb (Py.is_type "terminal_spawned" e || Py.is_type "command_executed" e)
          (Spec.has_metadata rt e).
Proof.
  unfold Watcher._get_terminal_event_description, Spec.has_metadata.
  rewrite !is_type_get_or by discriminate.
  destruct (Py.is_type "terminal_spawned" e); simpl.
  - destruct (Py.metadata_of rt e); reflexivity.
  - destruct (Py.is_type "command_executed" e); simpl; [|reflexivity].
    destruct (Py.metadata_of rt e); reflexivity.
Qed.

Lemma add_entry_is_ok describe (ok : dict -> bool) :
  (forall e, is_ok (describe e) = ok e) ->
  forall tl e, is_ok (Watcher.add_entry rt describe tl e) = ok e.
Proof.
  intros H tl e. unfold Watcher.add_entry. rewrite <- H.
  destruct (describe e); reflexivity.
Qed.

Lemma entry_head_of_entry (e : dict) (d : pyval) :
  Spec.entry_head (Watcher.timeline_entry rt e d) = Some (Spec.entry_of_event rt e).
Proof. reflexivity. Qed.

Lemma add_entries_heads describe (events timeline r : list dict) :
  for_each (Watcher.add_entry rt describe) events timeline = Ok r ->
  map Spec.entry_head r
  = (map Spec.entry_head timeline ++ map (fun e => Some (Spec.entry_of_event rt e)) events)%list.
Proof.
  revert timeline. induction events as [|e events IH]; intros timeline; simpl.
  - intros H; injection H as <-. rewrite app_nil_r. reflexivity.
  - unfold Watcher.add_entry at 1.
    destruct (describe e) as [d|err]; cbn [bind]; [|discriminate].
    intros H. rewrite (IH _ H). unfold append.
    rewrite map_app, <- app_assoc. simpl. rewrite entry_head_of_entry. reflexivity.
Qed.

Lemma sorted_timeline_total (tl : list dict) :
  Forall Spec.stamped tl ->
  exists r, Py.sorted (map (fun x => (Watcher.timeline_key x, x)) tl) = Ok r.
Proof.
  intros H. unfold Py.sorted.
  destruct (sort_keyed_str_total (map (fun x => (Watcher.timeline_key x, x)) tl)) as [r ->];
    [|cbn [bind]; eauto].
  unfold Spec.str_keyed. apply Forall_fmap. eapply Forall_impl; [exact H|].
  intros x [s Hs]. exists s. simpl. unfold Watcher.timeline_key, Py.get_or.
  rewrite Hs. reflexivity.
Qed.

End TimelineBuild.

(** The timeline has one entry per event, none dropped and none invented:
    the types and timestamp texts of its entries are, up to order, those of
    the interactions, the file operations and the terminal events. *)
Theorem timeline_keeps_every_event (rt : Runtime)
        (interactions file_operations terminal_events timeline : list dict) :
  Watcher._build_timeline rt interactions file_operations terminal_events = Ok timeline ->
  map Spec.entry_head timeline
    ≡ₚ map (fun e => Some (Spec.entry_of_event rt e))
           (interactions ++ file_operations ++ terminal_events)%list
  /\ len timeline = len interactions + len file_operations + len terminal_events.
Proof.
  unfold Watcher._build_timeline.
  destruct (for_each _ interactions []) as [t1|e] eqn:E1; cbn [bind]; [|discriminate].
  destruct (for_each _ file_operations t1) as [t2|e] eqn:E2; cbn [bind]; [|discriminate].
  destruct (for_each _ terminal_events t2) as [t3|e] eqn:E3; cbn [bind]; [|discriminate].
  unfold Py.sorted.
  destruct (Py.sort_keyed _) as [r|e] eqn:Er; cbn [bind]; [|discriminate].
  intros H; injection H as <-.
  destruct (sort_keyed_spec _ _ Er) as [Hp _].
  assert (Hperm : map Spec.entry_head (map snd r)
                  ≡ₚ map (fun e => Some (Spec.entry_of_event rt e))
                         (interactions ++ file_operations ++ terminal_events)%list).
  { rewrite Hp.
    assert (Hs : map snd (map (fun x => (Watcher.timeline_key x, x)) t3) = t3).
    { clear. induction t3 as [|x l IH]; simpl; [reflexivity|]. rewrite IH. reflexivity. }
    rewrite Hs.
    rewrite (add_entries_heads rt _ _ _ _ E3), (add_entries_heads rt _ _ _ _ E2),
      (add_entries_heads rt _ _ _ _ E1).
    simpl. rewrite !map_app, app_assoc. reflexivity. }
  split; [exact Hperm|].
  apply Permutation_length in Hperm. rewrite !length_map, !length_app in Hperm.
  unfold len. rewrite length_map. lia.
Qed.

Lemma timeline_keeps_every_event_witness :
  exists timeline,
    Watcher._build_timeline Demo.runtime
      [Demo.event_at "prompt_sent" "2024-01-01T10:00:05"]
      [] [Demo.event_at "command_executed" "2024-01-01T10:00:01"] = Ok timeline
    /\ len timeline = 2.
Proof.
  assert (H : is_ok (Watcher._build_timeline Demo.runtime
      [Demo.event_at "prompt_sent" "2024-01-01T10:00:05"]
      [] [Demo.event_at "command_executed" "2024-01-01T10:00:01"]) = true)
    by (vm_compute; reflexivity).
  destruct (is_ok_inv _ H) as [timeline Ht].
  exists timeline. split; [exact Ht|].
  exact (proj2 (timeline_keeps_every_event Demo.runtime _ _ _ _ Ht)).
Defined.

(** ** The patterns of the executor *)

Section ExtractPatterns.
Context (rt : Runtime).

Lemma categorize_is_ok c e :
  is_ok (Executor.categorize c e)
  = Spec.is_text (Py.get_or e "prompt_text" (VStr EmptyString)).
Proof.
  unfold Executor.categorize. rewrite <- lower_is_ok.
  destruct (Py.lower _) as [text|err]; cbn [bind is_ok]; [|reflexivity].
  repeat match goal with |- context [if ?c then _ else _] => destruct c end; reflexivity.
Qed.

Lemma categorize_adds_one c e c' :
  Executor.categorize c e = Ok c' ->
  Spec.category_total c' = Spec.category_total c + 1
  /\ Executor.solution_request c <= Executor.solution_request c'
  /\ Executor.explanation_request c <= Executor.explanation_request c'
  /\ Executor.code_review c <= Executor.code_review c'
  /\ Executor.other c <= Executor.other c'.
Proof.
  unfold Executor.categorize.
  destruct (Py.lower _) as [text|err]; cbn [bind]; [|discriminate].
  repeat match goal with |- context [if ?c then _ else _] => destruct c end;
    intros H; injection H as <-; unfold Spec.category_total; simpl; lia.
Qed.

Lemma categorize_all prompts c c' :
  for_each Executor.categorize prompts c = Ok c' ->
  Spec.category_total c' = Spec.category_total c + len prompts
  /\ Executor.solution_request c <= Executor.solution_request c'
  /\ Executor.explanation_request c <= Executor.explanation_request c'
  /\ Executor.code_review c <= Executor.code_review c'
  /\ Executor.other c <= Executor.other c'.
Proof.
  revert c. induction prompts as [|e prompts IH]; intros c; simpl.
  - intros H; injection H as <-. unfold len; simpl. lia.
  - destruct (Executor.categorize c e) as [c1|err] eqn:E; cbn [bind]; [|discriminate].
    intros H. apply IH in H. apply categorize_adds_one in E.
    unfold len in *. simpl length. lia.
Qed.

Lemma pair_copy_length paste_events copies found :
  (length (fold_left (Executor.pair_copy rt paste_events) copies found)
   <= length found + length copies)%nat.
Proof.
  revert found. induction copies as [|c copies IH]; intros found; simpl; [lia|].
  etransitivity; [apply IH|].
  unfold Executor.pair_copy.
  destruct (List.find _ paste_events) as [p|]; [|lia].
  destruct (Py.truthy (VDict p)); [|lia].
  unfold append. rewrite length_app. simpl. lia.
Qed.

Lemma insert_float_length x l : length (Py.insert_float x l) = S (length l).
Proof.
  induction l as [|y l IH]; simpl; [reflexivity|].
  destruct (Float64.ltb x y); simpl; [reflexivity|]. rewrite IH. reflexivity.
Qed.

Lemma sorted_floats_length l : length (Py.sorted_floats l) = length l.
Proof.
  unfold Py.sorted_floats.
  enough (H : forall acc, length (fold_left (fun acc x => Py.insert_float x acc) l acc)
                          = (length acc + length l)%nat) by apply (H []).
  induction l as [|x l IH]; intros acc; simpl; [lia|].
  rewrite IH, insert_float_length. lia.
Qed.

Lemma timing_of_returns (interactions : list dict) :
  exists timing,
    Executor.timing_of rt interactions = Ok timing
    /\ (is_Some timing <-> Executor.consecutive_gaps rt interactions <> [])
    /\ forall t, timing = Some t ->
                 Executor.totalEvents t = len interactions /\ 2 <= len interactions.
Proof.
  unfold Executor.timing_of.
  destruct (2 <=? len interactions) eqn:E2.
  - destruct (Executor.consecutive_gaps rt interactions) as [|g gaps] eqn:Eg.
    + exists None. split; [reflexivity|]. split; [|discriminate].
      split; [intros [? ?]; discriminate|congruence].
    + destruct (Py.sorted_floats (g :: gaps) !! Z.to_nat (len (g :: gaps) / 2))
        as [median|] eqn:Em.
      * eexists. split; [reflexivity|]. split; [split; [discriminate|eauto]|].
        intros t Ht. injection Ht as <-. simpl. apply Z.leb_le in E2. lia.
      * exfalso. apply lookup_ge_None in Em. rewrite sorted_floats_length in Em.
        unfold len in Em.
        assert (Hlt : Z.of_nat (length (g :: gaps)) / 2 < Z.of_nat (length (g :: gaps))).
        { apply Z.div_lt; simpl length; lia. }
        assert (Hpos : 0 <= Z.of_nat (length (g :: gaps)) / 2).
        { apply Z.div_pos; lia. }
        revert Em Hlt Hpos. generalize (Z.of_nat (length (g :: gaps)) / 2).
        intros q. lia.
  - exists None. split; [reflexivity|]. split; [|discriminate].
    split; [intros [? ?]; discriminate|].
    intros H. exfalso. apply H. apply Z.leb_gt in E2.
    destruct interactions as [|a [|b l]]; try reflexivity.
    unfold len in E2. simpl in E2. lia.
Qed.

End ExtractPatterns.

(** Pattern extraction returns exactly when the text of every
    [prompt_sent] interaction is a string (or absent): a null text, which
    the violation detectors skip, makes [.lower()] raise here. *)
Theorem extract_patterns_returns_iff (rt : Runtime) (interactions : list dict) :
  is_ok (Executor._extract_patterns rt interactions) = true
  <-> Forall (fun e => Py.is_type "prompt_sent" e = true ->
                       Spec.is_text (Py.get_or e "prompt_text" (VStr EmptyString)) = true)
             interactions.
Proof.
  unfold Executor._extract_patterns.
  destruct (timing_of_returns rt interactions) as (timing & -> & _). cbn [bind].
  rewrite <- forallb_Forall_implies, <- forallb_filter_implies.
  rewrite <- (for_each_is_ok Executor.categorize _ _
                {| Executor.solution_request := 0; Executor.explanation_request := 0;
                   Executor.code_review := 0; Executor.other := 0 |} categorize_is_ok).
  destruct (for_each Executor.categorize _ _); reflexivity.
Qed.

(** ** One violation per offending event *)

Lemma for_each_appends {A B} (step : list B -> A -> result (list B))
      (q : A -> bool) (v : A -> B) (l : list A) (acc r : list B) :
  (forall s x s', step s x = Ok s' -> s' = (s ++ (if q x then [v x] else []))%list) ->
  for_each step l acc = Ok r ->
  r = (acc ++ map v (List.filter q l))%list.
Proof.
  intros Hstep. revert acc. induction l as [|x l IH]; intros acc; simpl.
  - intros H; injection H as <-. rewrite app_nil_r. reflexivity.
  - destruct (step acc x) as [s'|e] eqn:E; cbn [bind]; [|discriminate].
    intros H. apply IH in H. apply Hstep in E. subst s' r.
    destruct (q x); simpl; rewrite <- app_assoc; reflexivity.
Qed.

Lemma filter_filter_andb {A} (p q : A -> bool) (l : list A) :
  List.filter q (List.filter p l) = List.filter (fun x => p x && q x) l.
Proof.
  induction l as [|x l IH]; simpl; [reflexivity|].
  destruct (p x); simpl; [destruct (q x)|]; rewrite IH; reflexivity.
Qed.

Section WatchStructure.
Context (rt : Runtime).

Lemma watch_violations_structure (interactions file_operations terminal_events vs : list dict) :
  Watcher._detect_violations rt interactions file_operations terminal_events = Ok vs ->
  exists copy_v prompt_v file_v : dict -> dict,
    vs = (map copy_v (List.filter Spec.large_copy interactions)
          ++ map prompt_v
                 (List.filter (Spec.asks_for_solution Watcher.red_flag_patterns) interactions)
          ++ map file_v (List.filter (Spec.suspicious_operation rt) file_operations))%list
    /\ (forall e n, Spec.snippet_lines e = Ok n ->
          Spec.has_type "large_code_copy" (copy_v e)
          /\ Spec.has_severity (if 100 <? n then "high" else "medium") (copy_v e)
          /\ Spec.entry_timestamp (copy_v e) = Some (Py.timestamp_text rt e))
    /\ (forall e,
          Spec.has_type "solution_request" (prompt_v e)
          /\ Spec.has_severity "high" (prompt_v e)
          /\ Spec.entry_timestamp (prompt_v e) = Some (Py.timestamp_text rt e))
    /\ (forall e, Spec.has_file_path rt e = true ->
          Spec.has_type "suspicious_file_operation" (file_v e)
          /\ Spec.has_severity "medium" (file_v e)
          /\ Spec.entry_timestamp (file_v e) = Some (Py.timestamp_text rt e)).
Proof.
  unfold Watcher._detect_violations.
  destruct (for_each _ (List.filter Py.is_copy interactions) []) as [v1|e] eqn:E1;
    cbn [bind]; [|discriminate].
  destruct (for_each _ _ v1) as [v2|e] eqn:E2; cbn [bind]; [|discriminate].
  intros E3.
  apply (for_each_appends _
           (fun e => match Spec.snippet_lines e with Ok n => 50 <? n | Err _ => false end)
           (Spec.copy_violation rt)) in E1.
  2:{ intros s x s'. unfold Watcher.check_copy, Spec.copy_violation, Spec.snippet_lines.
      destruct (Py.split_line_count _) as [n|err]; cbn [bind]; [|discriminate].
      destruct (50 <? n); intros H; injection H as <-;
        [reflexivity|rewrite app_nil_r; reflexivity]. }
  apply (for_each_appends _
           (fun e => match Py.lower (Py.get_or e "prompt_text" (VStr EmptyString)) with
                     | Ok text => existsb (fun pattern => Re.search pattern text)
                                          Watcher.red_flag_patterns
                     | Err _ => false
                     end)
           (Spec.prompt_violation rt)) in E2.
  2:{ intros s x s'. unfold Watcher.check_prompt, Spec.prompt_violation.
      destruct (Py.lower _) as [text|err]; cbn [bind]; [|discriminate].
      destruct (existsb _ Watcher.red_flag_patterns); intros H; injection H as <-;
        [reflexivity|rewrite app_nil_r; reflexivity]. }
  apply (for_each_appends _ (Spec.suspicious_operation rt) (Spec.file_violation rt)) in E3.
  2:{ intros s x s'.
      unfold Watcher.check_file_op, Spec.file_violation, Spec.suspicious_operation.
      destruct (Watcher.file_path_of _) as [path|err]; cbn [bind]; [|discriminate].
      destruct (Py.lower path) as [lowered|err]; cbn [bind]; [|discriminate].
      destruct (existsb _ Watcher.suspicious_files); intros H; injection H as <-;
        [reflexivity|rewrite app_nil_r; reflexivity]. }
  rewrite filter_filter_andb in E1, E2.
  exists (Spec.copy_violation rt), (Spec.prompt_violation rt), (Spec.file_violation rt).
  split.
  { subst vs v2 v1. rewrite <- app_assoc. reflexivity. }
  split; [|split].
  - intros e n Hn. unfold Spec.copy_violation. rewrite Hn. repeat split.
  - intros e. repeat split.
  - intros e. unfold Spec.has_file_path, Spec.file_violation, Watcher.file_path_of.
    destruct (Py.metadata_of rt e) as [|b|z|s| |m]; try discriminate.
    intros _. unfold Py.attr_get. cbn [bind].
    destruct (Py.truthy _); repeat split.
Qed.

End WatchStructure.

(** The watcher reports exactly one violation per offending event and
    nothing else, in this order: one per copy event with a snippet of more
    than 50 lines ("high" above 100 lines, else "medium"), then one per
    prompt with a text that matches a solution pattern ("high"), then one
    per file operation on a suspicious path ("medium"); each with the
    timestamp text of its event. *)
Theorem watch_violations_in_order (rt : Runtime)
        (interactions file_operations terminal_events vs : list dict) :
  Watcher._detect_violations rt interactions file_operations terminal_events = Ok vs ->
  exists copy_v prompt_v file_v : dict -> dict,
    vs = (map copy_v (List.filter Spec.large_copy interactions)
          ++ map prompt_v
                 (List.filter (Spec.asks_for_solution Watcher.red_flag_patterns) interactions)
          ++ map file_v (List.filter (Spec.suspicious_operation rt) file_operations))%list
    /\ (forall e n, Spec.snippet_lines e = Ok n ->
          Spec.has_type "large_code_copy" (copy_v e)
          /\ Spec.has_severity (if 100 <? n then "high" else "medium") (copy_v e)
          /\ Spec.entry_timestamp (copy_v e) = Some (Py.timestamp_text rt e))
    /\ (forall e,
          Spec.has_type "solution_request" (prompt_v e)
          /\ Spec.has_severity "high" (prompt_v e)
          /\ Spec.entry_timestamp (prompt_v e) = Some (Py.timestamp_text rt e))
    /\ (forall e, Spec.has_file_path rt e = true ->
          Spec.has_type "suspicious_file_operation" (file_v e)
          /\ Spec.has_severity "medium" (file_v e)
          /\ Spec.entry_timestamp (file_v e) = Some (Py.timestamp_text rt e)).
Proof. apply watch_violations_structure. Qed.

Lemma watch_violations_in_order_witness :
  exists vs,
    Watcher._detect_violations Demo.runtime [Demo.big_copy] [] [] = Ok vs
    /\ exists copy_v : dict -> dict,
         vs = map copy_v (List.filter Spec.large_copy [Demo.big_copy]).
Proof.
  assert (H : is_ok (Watcher._detect_violations Demo.runtime [Demo.big_copy] [] [])
              = true) by (vm_compute; reflexivity).
  destruct (is_ok_inv _ H) as [vs Hvs].
  exists vs. split; [exact Hvs|].
  destruct (watch_violations_in_order Demo.runtime _ _ _ _ Hvs)
    as (copy_v & prompt_v & file_v & Heq & _).
  exists copy_v. rewrite Heq. change (List.filter _ []) with (@nil dict).
  assert (Hp : List.filter (Spec.asks_for_solution Watcher.red_flag_patterns)
                 [Demo.big_copy] = []) by (vm_compute; reflexivity).
  rewrite Hp. simpl. rewrite app_nil_r. reflexivity.
Defined.

(** A copy of more than 100 lines always shows in the report: whenever
    the detector returns, its violations include a "high"
    [large_code_copy], and the alerts derived from them include the
    violation alert. *)
Theorem large_copy_raises_alert (rt : Runtime)
        (interactions file_operations terminal_events vs : list dict)
        (e : dict) (snippet : string) :
  Watcher._detect_violations rt interactions file_operations terminal_events = Ok vs ->
  e ∈ interactions -> Py.is_copy e = true ->
  e !! "code_snippet" = Some (VStr snippet) ->
  100 < len (Str.split_lines snippet) ->
  Exists (fun v => Spec.has_type "large_code_copy" v /\ Spec.has_severity "high" v) vs
  /\ Exists (Spec.has_type "violation_alert")
            (Watcher._generate_alerts vs (Watcher._calculate_risk_score vs interactions)).
Proof.
  intros Hvs He Hc Hs Hn.
  destruct (watch_violations_structure rt _ _ _ _ Hvs)
    as (copy_v & prompt_v & file_v & Heq & Hcopy & _).
  assert (Hl : Spec.snippet_lines e = Ok (len (Str.split_lines snippet))).
  { unfold Spec.snippet_lines, Py.get_or, Py.or_else. rewrite Hs. simpl.
    destruct (String.eqb snippet EmptyString) eqn:E; simpl; [|reflexivity].
    apply String.eqb_eq in E. subst snippet. vm_compute in Hn. discriminate Hn. }
  assert (Hlarge : Spec.large_copy e = true).
  { unfold Spec.large_copy. rewrite Hc, Hl. simpl. apply Z.ltb_lt. lia. }
  destruct (Hcopy e _ Hl) as (Hty & Hsev & _).
  replace (100 <? len (Str.split_lines snippet)) with true in Hsev
    by (symmetry; apply Z.ltb_lt; exact Hn).
  assert (Hin : copy_v e ∈ vs).
  { rewrite Heq. apply elem_of_app. left. apply list_elem_of_fmap. exists e.
    split; [reflexivity|]. apply list_elem_of_In, filter_In. split; [|exact Hlarge].
    apply list_elem_of_In, He. }
  assert (Hhigh : Exists (Spec.has_severity "high") vs).
  { apply Exists_exists. exists (copy_v e). auto. }
  split.
  - apply Exists_exists. exists (copy_v e). auto.
  - unfold Watcher._generate_alerts.
    apply filter_high_nonempty in Hhigh.
    destruct (List.filter _ vs) as [|h hs]; [congruence|].
    apply Exists_exists.
    exists (Watcher.alert "high"
              (pretty (len (h :: hs)) +:+ " high-severity violations detected")
              "violation_alert").
    split; [|reflexivity].
    unfold append. apply elem_of_app. right. apply list_elem_of_singleton. reflexivity.
Qed.

Lemma large_copy_raises_alert_witness :
  exists vs,
    Watcher._detect_violations Demo.runtime [Demo.big_copy] [] [] = Ok vs
    /\ Exists (Spec.has_type "violation_alert")
              (Watcher._generate_alerts vs
                 (Watcher._calculate_risk_score vs [Demo.big_copy])).
Proof.
  assert (H : is_ok (Watcher._detect_violations Demo.runtime [Demo.big_copy] [] [])
              = true) by (vm_compute; reflexivity).
  destruct (is_ok_inv _ H) as [vs Hvs].
  exists vs. split; [exact Hvs|].
  refine (proj2 (large_copy_raises_alert Demo.runtime _ _ _ vs Demo.big_copy
                   (Demo.lines 120) Hvs _ _ _ _)).
  - apply list_elem_of_singleton. reflexivity.
  - vm_compute; reflexivity.
  - vm_compute; reflexivity.
  - vm_compute; reflexivity.
Defined.

(** ** Anomalies, scores and the plagiarism analysis *)

(** The anomaly detector reports at most one anomaly, [rapid_fire_events]
    or [long_inactivity], never both; and none when there are fewer than two
    events or when no event is later than the one before it in the sorted
    list. *)
Theorem anomalies_at_most_one (rt : Runtime) (events anomalies : list dict) :
  SanityFlag._detect_anomalies rt events = Ok anomalies ->
  (anomalies = [] \/ anomalies = [SanityFlag.rapid_fire_events]
   \/ anomalies = [SanityFlag.long_inactivity])
  /\ (len events < 2 -> anomalies = [])
  /\ (forall sorted_events,
        Py.sorted (Py.keyed_by_timestamp rt 0 events) = Ok sorted_events ->
        SanityFlag.consecutive_gaps rt sorted_events = [] -> anomalies = []).
Proof.
  unfold SanityFlag._detect_anomalies.
  destruct (len events <? 2) eqn:E2.
  - intros H; injection H as <-. auto.
  - destruct (Py.sorted _) as [sorted_events|e]; cbn [bind]; [|discriminate].
    intros H; injection H as <-.
    split; [|split].
    + destruct (classify_gaps_cases (SanityFlag.consecutive_gaps rt sorted_events))
        as [[_ ->]|[(_ & _ & ->)|[(_ & _ & _ & ->)|(_ & _ & _ & ->)]]]; auto.
    + apply Z.ltb_ge in E2. lia.
    + intros s Hs Hg. injection Hs as <-. rewrite Hg. reflexivity.
Qed.

Lemma anomalies_at_most_one_witness :
  exists anomalies,
    SanityFlag._detect_anomalies Demo.runtime
      [Demo.event_at "prompt_sent" "2024-01-01T10:00:00";
       Demo.event_at "code_modified" "2024-01-01T10:00:02"] = Ok anomalies
    /\ (anomalies = [] \/ anomalies = [SanityFlag.rapid_fire_events]
        \/ anomalies = [SanityFlag.long_inactivity]).
Proof.
  assert (H : is_ok (SanityFlag._detect_anomalies Demo.runtime
      [Demo.event_at "prompt_sent" "2024-01-01T10:00:00";
       Demo.event_at "code_modified" "2024-01-01T10:00:02"]) = true)
    by (vm_compute; reflexivity).
  destruct (is_ok_inv _ H) as [anomalies Ha].
  exists anomalies. split; [exact Ha|].
  exact (proj1 (anomalies_at_most_one Demo.runtime _ _ Ha)).
Defined.

(** The flag-mode score of a list of violations is never below the
    watch-mode score of the same list, exceeds the weight sum by at most 35,
    stays within 0..100, and equals the watch-mode score when the events
    hold no copy and at most 20 prompts. *)
Theorem flag_score_dominates_watch_score (violations events : list dict) (score : Z) :
  SanityFlag._calculate_risk_score violations events = Ok score ->
  Watcher._calculate_risk_score violations events <= score
  /\ 0 <= score <= 100
  /\ score <= Spec.weight_sum violations + 35
  /\ (Spec.count Py.is_copy events = 0 ->
      Spec.count (Py.is_type "prompt_sent") events <= 20 ->
      score = Watcher._calculate_risk_score violations events).
Proof.
  rewrite watcher_risk_score_eq. unfold Spec.watch_risk_score.
  unfold SanityFlag._calculate_risk_score.
  rewrite flag_fold_add_severity, <- !len_filter_count.
  pose proof (weight_sum_nonneg violations) as Hw.
  destruct (List.filter (Py.is_type "code_modified") events) as [|m ms];
    [|destruct (List.filter Py.is_copy events) as [|c cs] eqn:Ec].
  - cbn [bind]. destruct (20 <? _) eqn:E20; intros H; injection H as <-.
    + apply Z.ltb_lt in E20. repeat split; try lia.
    + apply Z.ltb_ge in E20. repeat split; try lia.
  - cbn [bind]. destruct (20 <? _) eqn:E20; intros H; injection H as <-.
    + apply Z.ltb_lt in E20. repeat split; try lia.
    + apply Z.ltb_ge in E20. repeat split; try lia.
  - destruct (Float64.truediv _ _) as [ratio|e]; cbn [bind]; [|discriminate].
    assert (Hc : 0 < len (c :: cs)) by (unfold len; simpl length; lia).
    destruct (Float64.ltb (Float64.of_Z 2) ratio);
      destruct (20 <? _) eqn:E20; intros H; injection H as <-;
      repeat split; try lia.
Qed.

Lemma flag_score_dominates_watch_score_witness :
  exists score,
    SanityFlag._calculate_risk_score [] [Demo.big_copy; Demo.event "code_modified"] = Ok score
    /\ 0 <= score <= 100.
Proof.
  assert (H : is_ok (SanityFlag._calculate_risk_score []
                       [Demo.big_copy; Demo.event "code_modified"]) = true)
    by (vm_compute; reflexivity).
  destruct (is_ok_inv _ H) as [score Hs].
  exists score. split; [exact Hs|].
  exact (proj1 (proj2 (flag_score_dominates_watch_score _ _ _ Hs))).
Defined.

Section PlagiarismShape.

Lemma check_identical_shape (submissions : list dict) (a : SanityFlag.Analysis) :
  SanityFlag.check_identical submissions SanityFlag.initial_analysis = Ok a ->
  Spec.analysis_shape 0 a.
Proof.
  unfold SanityFlag.check_identical.
  destruct (1 <? len submissions); [|intros H; injection H as <-; left; auto].
  destruct (Py.set_size _) as [n|e]; cbn [bind]; [|discriminate].
  destruct (n <? _); intros H; injection H as <-; [|left; auto].
  right; left. repeat split.
Qed.

Lemma check_copy_shape (responses : list dict) (a a' : SanityFlag.Analysis) c k :
  SanityFlag.check_copy responses a c = Ok a' ->
  Spec.analysis_shape k a ->
  Spec.analysis_shape k a' \/ Spec.analysis_shape (S k) a'.
Proof.
  unfold SanityFlag.check_copy.
  destruct (any_r _ responses) as [found|e]; cbn [bind]; [|discriminate].
  destruct found; intros H; injection H as <-; [|auto].
  intros [[-> ->]|[(Hs & Hc & Hp)|(Hs & Hc & Hk & Hp)]]; right.
  - right; right. repeat split. lia.
  - right; left. simpl. rewrite Hc, Hp. repeat split.
    unfold append. simpl. f_equal. symmetry. apply repeat_cons.
  - right; right. simpl. rewrite Hc, Hp. repeat split; [lia|].
    unfold append. symmetry. apply repeat_cons.
Qed.

Lemma copy_loop_shape (responses copies : list dict) (a0 a : SanityFlag.Analysis) k0 :
  for_each (SanityFlag.check_copy responses) copies a0 = Ok a ->
  Spec.analysis_shape k0 a0 ->
  exists k, (k0 <= k <= k0 + length copies)%nat /\ Spec.analysis_shape k a.
Proof.
  revert a0 k0. induction copies as [|c copies IH]; intros a0 k0; simpl.
  - intros H; injection H as <-. intros Hs. exists k0. split; [lia|exact Hs].
  - destruct (SanityFlag.check_copy responses a0 c) as [a1|e] eqn:E; cbn [bind];
      [|discriminate].
    intros H Hs. destruct (check_copy_shape _ _ _ _ _ E Hs) as [H1|H1];
      destruct (IH _ _ H H1) as (k & Hk & Hshape); exists k; split; auto; lia.
Qed.

End PlagiarismShape.

(** The result of the plagiarism analysis has one of three shapes: not
    suspicious, no pattern, confidence 0; or suspicious with confidence 80,
    the pattern "identical_submissions" and then one
    "code_matches_ai_response" per matching copy event; or suspicious with
    confidence 70 and one "code_matches_ai_response" per matching copy
    event, at least one.  So the analysis is suspicious exactly when it
    names a pattern, and exactly when its confidence is not 0. *)
Theorem plagiarism_analysis_shape (submissions events : list dict)
        (a : SanityFlag.Analysis) :
  SanityFlag._analyze_plagiarism submissions events = Ok a ->
  (exists k, Z.of_nat k <= Spec.count Py.is_copy events /\ Spec.analysis_shape k a)
  /\ (SanityFlag.suspicious a = true <-> SanityFlag.patterns a <> [])
  /\ (SanityFlag.suspicious a = true <-> 0 < SanityFlag.confidence a).
Proof.
  unfold SanityFlag._analyze_plagiarism.
  destruct (SanityFlag.check_identical submissions _) as [a1|e] eqn:E1; cbn [bind];
    [|discriminate].
  apply check_identical_shape in E1.
  unfold SanityFlag.check_responses.
  intros H.
  assert (Hk : exists k, Z.of_nat k <= Spec.count Py.is_copy events
                         /\ Spec.analysis_shape k a).
  { rewrite <- len_filter_count. unfold len.
    destruct (List.filter Py.is_copy events) as [|c cs] eqn:Ec.
    - injection H as <-. exists O. split; [simpl; lia|exact E1].
    - destruct (List.filter (Py.is_type "response_received") events) as [|r rs].
      + injection H as <-. exists O. split; [lia|exact E1].
      + destruct (copy_loop_shape _ _ _ _ _ H E1) as (k & Hk & Hs).
        exists k. split; [lia|exact Hs]. }
  split; [exact Hk|].
  destruct Hk as (k & _ & [[-> ->]|[(Hs & Hc & Hp)|(Hs & Hc & Hk & Hp)]]).
  - simpl. split; split; try discriminate; try congruence; lia.
  - rewrite Hs, Hc, Hp. split; split; try discriminate; auto; lia.
  - rewrite Hs, Hc, Hp. destruct k; [lia|]. simpl.
    split; split; try discriminate; auto; lia.
Qed.

Lemma plagiarism_analysis_shape_witness :
  exists a,
    SanityFlag._analyze_plagiarism Demo.twin_submissions Demo.copied_answer = Ok a
    /\ (SanityFlag.suspicious a = true <-> 0 < SanityFlag.confidence a).
Proof.
  assert (H : exists a, SanityFlag._analyze_plagiarism Demo.twin_submissions
                          Demo.copied_answer = Ok a).
  { apply is_ok_inv. vm_compute. reflexivity. }
  destruct H as [a Ha]. exists a. split; [exact Ha|].
  exact (proj2 (proj2 (plagiarism_analysis_shape _ _ _ Ha))).
Defined.

(** ** The sort is stable *)

Section Stable.

Lemma str_ltb_trans (a b c : string) :
  Str.ltb a b = true -> Str.ltb b c = true -> Str.ltb a c = true.
Proof.
  revert b c. induction a as [|x a IH]; intros [|y b] [|z c]; simpl; try congruence.
  destruct (Str.code x <? Str.code y)%N eqn:Exy.
  - intros _. destruct (Str.code y <? Str.code z)%N eqn:Eyz.
    + intros _. apply N.ltb_lt in Exy, Eyz.
      replace (Str.code x <? Str.code z)%N with true by (symmetry; apply N.ltb_lt; lia).
      reflexivity.
    + destruct (Str.code z <? Str.code y)%N eqn:Ezy; [discriminate|].
      intros _. apply N.ltb_lt in Exy. apply N.ltb_ge in Eyz, Ezy.
      replace (Str.code x <? Str.code z)%N with true by (symmetry; apply N.ltb_lt; lia).
      reflexivity.
  - destruct (Str.code y <? Str.code x)%N eqn:Eyx; [discriminate|].
    intros Hab. apply N.ltb_ge in Exy, Eyx.
    destruct (Str.code y <? Str.code z)%N eqn:Eyz.
    + intros _. apply N.ltb_lt in Eyz.
      replace (Str.code x <? Str.code z)%N with true by (symmetry; apply N.ltb_lt; lia).
      reflexivity.
    + destruct (Str.code z <? Str.code y)%N eqn:Ezy; [discriminate|].
      intros Hbc. apply N.ltb_ge in Eyz, Ezy.
      replace (Str.code x <? Str.code z)%N with false by (symmetry; apply N.ltb_ge; lia).
      replace (Str.code z <? Str.code x)%N with false by (symmetry; apply N.ltb_ge; lia).
      apply (IH b c Hab Hbc).
Qed.

Lemma str_ltb_total (a b : string) :
  Str.ltb a b = false -> Str.ltb b a = false -> a = b.
Proof.
  revert b. induction a as [|x a IH]; intros [|y b]; simpl; try congruence.
  destruct (Str.code x <? Str.code y)%N eqn:Exy; [discriminate|].
  destruct (Str.code y <? Str.code x)%N eqn:Eyx; [discriminate|].
  intros Hab Hba. apply N.ltb_ge in Exy, Eyx.
  assert (Hc : Str.code x = Str.code y) by lia.
  unfold Str.code in Hc.
  assert (Hxy : x = y).
  { rewrite <- (ascii_N_embedding x), <- (ascii_N_embedding y), Hc. reflexivity. }
  subst y. f_equal. apply IH; assumption.
Qed.

(** [a < b <= c] gives [a < c]. *)
Lemma str_ltb_leb_trans (a b c : string) :
  Str.ltb a b = true -> Str.ltb c b = false -> Str.ltb a c = true.
Proof.
  intros Hab Hcb. destruct (Str.ltb b c) eqn:Hbc.
  - apply (str_ltb_trans a b c Hab Hbc).
  - rewrite (str_ltb_total _ _ Hcb Hbc). exact Hab.
Qed.

Context {A : Type}.

Lemma above_head (x : string) (l : list (pyval * A)) :
  Sorted Spec.key_le l -> Spec.str_keyed l ->
  (forall y l', l = y :: l' -> exists t, fst y = VStr t /\ Str.ltb x t = true) ->
  List.filter (Spec.with_key x) l = [].
Proof.
  intros Hs. induction Hs as [|y l Hs IH Hhd]; intros Hk Hx; [reflexivity|].
  inversion Hk as [|? ? [u Hu] Hk']; subst.
  destruct (Hx y l eq_refl) as (t & Ht & Hlt). rewrite Hu in Ht. injection Ht as <-.
  simpl. unfold Spec.with_key at 1. rewrite Hu. simpl.
  replace (String.eqb u x) with false.
  2:{ symmetry. apply String.eqb_neq. intros ->.
      pose proof (str_ltb_asym _ _ Hlt). congruence. }
  apply IH; [exact Hk'|].
  intros z l' ->. inversion Hk' as [|? ? [v Hv] _]; subst.
  exists v. split; [exact Hv|].
  inversion Hhd as [|? ? Hyz]; subst. unfold Spec.key_le in Hyz.
  rewrite Hu, Hv in Hyz. simpl in Hyz. injection Hyz as Hyz.
  apply (str_ltb_leb_trans x u v Hlt Hyz).
Qed.

Lemma insert_sorted_stable (x : pyval * A) (l r : list (pyval * A)) (k : string) :
  Sorted Spec.key_le l -> Spec.str_keyed (x :: l) ->
  Py.insert_sorted x l = Ok r ->
  List.filter (Spec.with_key k) r = List.filter (Spec.with_key k) (l ++ [x]).
Proof.
  intros Hs Hk. revert r. induction Hs as [|y l Hs IH Hhd]; intros r; simpl.
  - intros H; injection H as <-. reflexivity.
  - inversion Hk as [|? ? [sx Hx] Hk']; subst.
    inversion Hk' as [|? ? [sy Hy] Hk'']; subst.
    rewrite Hx, Hy. simpl.
    destruct (Str.ltb sx sy) eqn:Exy; cbn [bind].
    + intros H; injection H as <-.
      rewrite List.filter_app. simpl.
      destruct (Spec.with_key k x) eqn:Ekx; [|rewrite app_nil_r; reflexivity].
      unfold Spec.with_key in Ekx. rewrite Hx in Ekx. simpl in Ekx.
      apply String.eqb_eq in Ekx. subst k.
      assert (Hnone : List.filter (Spec.with_key sx) (y :: l) = []).
      { apply above_head; [constructor; assumption|exact Hk'|].
        intros z l' Hz. injection Hz as <- <-. exists sy. auto. }
      simpl in Hnone. destruct (Spec.with_key sx y); [discriminate Hnone|].
    rewrite Hnone. reflexivity.
    + destruct (Py.insert_sorted x l) as [r'|e] eqn:Er; cbn [bind]; [|discriminate].
      intros H; injection H as <-.
      simpl. rewrite (IH (List.Forall_cons _ _ _ (ex_intro _ sx Hx) Hk'') r' eq_refl).
      reflexivity.
Qed.

Lemma sort_from_stable (l acc r : list (pyval * A)) (k : string) :
  for_each (fun acc x => Py.insert_sorted x acc) l acc = Ok r ->
  Sorted Spec.key_le acc -> Spec.str_keyed acc -> Spec.str_keyed l ->
  List.filter (Spec.with_key k) r = List.filter (Spec.with_key k) (acc ++ l).
Proof.
  revert acc. induction l as [|x l IH]; intros acc; simpl.
  - intros H _ _ _. injection H as <-. rewrite app_nil_r. reflexivity.
  - destruct (Py.insert_sorted x acc) as [acc'|e] eqn:E; cbn [bind]; [|discriminate].
    intros H Hs Hacc Hl. inversion Hl as [|? ? Hx Hl']; subst.
    destruct (insert_sorted_spec _ _ _ E) as (Hp & Hs' & _).
    rewrite (IH acc' H (Hs' Hs)); [| |exact Hl'].
    + rewrite !List.filter_app.
      rewrite (insert_sorted_stable x acc acc' k Hs (List.Forall_cons _ _ _ Hx Hacc) E).
      rewrite List.filter_app, <- app_assoc.
    change (x :: l) with ([x] ++ l)%list. rewrite (List.filter_app _ [x] l). reflexivity.
    + unfold Spec.str_keyed. rewrite Hp. constructor; assumption.
Qed.

Lemma sort_keyed_stable (l r : list (pyval * A)) (k : string) :
  Py.sort_keyed l = Ok r -> Spec.str_keyed l ->
  List.filter (Spec.with_key k) r = List.filter (Spec.with_key k) l.
Proof.
  intros H Hl. apply (sort_from_stable l [] r k H); [constructor|constructor|exact Hl].
Qed.

End Stable.

Lemma filter_map_agree {A B} (f : A -> B) (p : A -> bool) (q : B -> bool) (l : list A) :
  Forall (fun x => q (f x) = p x) l ->
  List.filter q (map f l) = map f (List.filter p l).
Proof.
  induction 1 as [|x l Hx _ IH]; simpl; [reflexivity|].
  rewrite Hx. destruct (p x); simpl; rewrite IH; reflexivity.
Qed.

Lemma entry_head_key (x : dict) (s : string) :
  is_Some (Spec.entry_head x) ->
  Spec.with_key s (Watcher.timeline_key x, x) = Spec.at_time s (Spec.entry_head x).
Proof.
  unfold Spec.entry_head, Spec.with_key, Watcher.timeline_key, Py.get_or, Spec.at_time.
  intros [h Hh]. simpl.
  destruct (x !! "type") as [ty|]; [|discriminate].
  destruct (x !! "timestamp") as [[]|]; try discriminate. reflexivity.
Qed.

Lemma entry_head_str_keyed (tl : list dict) :
  Forall (fun x => is_Some (Spec.entry_head x)) tl ->
  Spec.str_keyed (map (fun x => (Watcher.timeline_key x, x)) tl).
Proof.
  intros H. unfold Spec.str_keyed. apply Forall_fmap. eapply Forall_impl; [exact H|].
  intros x [h Hh]. simpl. unfold Spec.entry_head in Hh.
  unfold Watcher.timeline_key, Py.get_or.
  destruct (x !! "type") as [ty|]; [|discriminate].
  destruct (x !! "timestamp") as [[]|]; try discriminate. eauto.
Qed.

Lemma add_entries_made (rt : Runtime) describe (events timeline r : list dict) :
  for_each (Watcher.add_entry rt describe) events timeline = Ok r ->
  exists entries,
    r = (timeline ++ entries)%list /\ Forall2 (Spec.entry_for rt describe) events entries.
Proof.
  revert timeline. induction events as [|e events IH]; intros timeline; simpl.
  - intros H; injection H as <-. exists []. rewrite app_nil_r. split; [reflexivity|constructor].
  - unfold Watcher.add_entry at 1.
    destruct (describe e) as [d|err] eqn:Ed; cbn [bind]; [|discriminate].
    intros H. destruct (IH _ H) as (entries & -> & Hall).
    exists (Watcher.timeline_entry rt e d :: entries). unfold append.
    rewrite <- app_assoc. split; [reflexivity|].
    constructor; [exists d; auto|exact Hall].
Qed.

Lemma entry_at_keyed (tl : list dict) (s : string) :
  Forall (fun p : pyval * dict => Spec.entry_at s (snd p) = Spec.with_key s p)
         (map (fun x => (Watcher.timeline_key x, x)) tl).
Proof. apply Forall_fmap, Forall_forall. intros x _. reflexivity. Qed.

(** The sort of the timeline is stable: the timeline holds the entries
    made for the interactions, the file operations and the terminal
    events, and the entries that share a timestamp text stand in the order
    in which they were added, the interactions first, then the file
    operations, then the terminal events, each list in its own order. *)
Theorem timeline_is_stable (rt : Runtime)
        (interactions file_operations terminal_events timeline : list dict) :
  Watcher._build_timeline rt interactions file_operations terminal_events = Ok timeline ->
  exists of_interactions of_file_operations of_terminal_events,
    Forall2 (Spec.entry_for rt (Watcher._get_event_description rt))
            interactions of_interactions
    /\ Forall2 (Spec.entry_for rt (Watcher._get_file_event_description rt))
               file_operations of_file_operations
    /\ Forall2 (Spec.entry_for rt (Watcher._get_terminal_event_description rt))
               terminal_events of_terminal_events
    /\ timeline ≡ₚ (of_interactions ++ of_file_operations ++ of_terminal_events)%list
    /\ forall s : string,
        List.filter (Spec.entry_at s) timeline
        = List.filter (Spec.entry_at s)
            (of_interactions ++ of_file_operations ++ of_terminal_events)%list.
Proof.
  unfold Watcher._build_timeline.
  destruct (for_each _ interactions []) as [t1|e] eqn:E1; cbn [bind]; [|discriminate].
  destruct (for_each _ file_operations t1) as [t2|e] eqn:E2; cbn [bind]; [|discriminate].
  destruct (for_each _ terminal_events t2) as [t3|e] eqn:E3; cbn [bind]; [|discriminate].
  unfold Py.sorted.
  destruct (Py.sort_keyed _) as [r|e] eqn:Er; cbn [bind]; [|discriminate].
  intros H; injection H as <-.
  assert (Hst : Forall Spec.stamped t3).
  { apply (add_entries_stamped rt _ _ _ _ E3), (add_entries_stamped rt _ _ _ _ E2),
      (add_entries_stamped rt _ _ _ _ E1). constructor. }
  destruct (add_entries_made rt _ _ _ _ E1) as (ei & -> & Hi).
  destruct (add_entries_made rt _ _ _ _ E2) as (ef & -> & Hf).
  destruct (add_entries_made rt _ _ _ _ E3) as (et & -> & Ht).
  simpl app in *. rewrite <- app_assoc in *.
  exists ei, ef, et. split; [exact Hi|]. split; [exact Hf|]. split; [exact Ht|].
  destruct (sort_keyed_spec _ _ Er) as [Hp _].
  set (tl := (ei ++ ef ++ et)%list) in *.
  assert (Hsnd : map snd (map (fun x => (Watcher.timeline_key x, x)) tl) = tl).
  { rewrite map_map. simpl. apply map_id. }
  split.
  - change (snd <$> r ≡ₚ tl). rewrite Hp.
    change (map snd (map (fun x => (Watcher.timeline_key x, x)) tl) ≡ₚ tl).
    rewrite Hsnd. reflexivity.
  - intros s.
    assert (Hr : Forall (fun p : pyval * dict => Spec.entry_at s (snd p) = Spec.with_key s p) r).
    { rewrite Hp. apply entry_at_keyed. }
    rewrite (filter_map_agree snd (Spec.with_key s) (Spec.entry_at s) r Hr).
    rewrite (sort_keyed_stable _ _ s Er).
    + rewrite <- (filter_map_agree snd (Spec.with_key s) (Spec.entry_at s) _
                    (entry_at_keyed tl s)).
      rewrite Hsnd. reflexivity.
    + unfold Spec.str_keyed. apply Forall_fmap. eapply Forall_impl; [exact Hst|].
      intros x [u Hu]. exists u. simpl. unfold Watcher.timeline_key, Py.get_or.
      rewrite Hu. reflexivity.
Qed.

Lemma timeline_is_stable_witness :
  exists timeline,
    Watcher._build_timeline Demo.runtime
      [Demo.event_at "prompt_sent" "2024-01-01T10:00:05"]
      [] [Demo.event_at "command_executed" "2024-01-01T10:00:05"] = Ok timeline
    /\ exists a b,
        List.filter (Spec.entry_at "2024-01-01T10:00:05") timeline = [a; b]
        /\ Spec.entry_for Demo.runtime (Watcher._get_event_description Demo.runtime)
             (Demo.event_at "prompt_sent" "2024-01-01T10:00:05") a
        /\ Spec.entry_for Demo.runtime (Watcher._get_terminal_event_description Demo.runtime)
             (Demo.event_at "command_executed" "2024-01-01T10:00:05") b.
Proof.
  assert (H : is_ok (Watcher._build_timeline Demo.runtime
      [Demo.event_at "prompt_sent" "2024-01-01T10:00:05"]
      [] [Demo.event_at "command_executed" "2024-01-01T10:00:05"]) = true)
    by (vm_compute; reflexivity).
  destruct (is_ok_inv _ H) as [timeline Ht].
  exists timeline. split; [exact Ht|].
  destruct (timeline_is_stable Demo.runtime _ _ _ _ Ht) as (ei & ef & et & Hi & Hf & He & _ & Hs).
  inversion Hi as [|? a ? ? Ha Hi']; subst. inversion Hi'; subst.
  inversion Hf; subst.
  inversion He as [|? b ? ? Hb He']; subst. inversion He'; subst.
  exists a, b. split; [|split; [exact Ha|exact Hb]].
  rewrite (Hs "2024-01-01T10:00:05").
  destruct Ha as (da & _ & ->). destruct Hb as (db & _ & ->). reflexivity.
Defined.

(** ** The code-quality metrics of the executor *)

Section CodeQuality.

Lemma split_on_cons (sep : ascii) (s : string) :
  exists w ws, Str.split_on sep s = w :: ws.
Proof.
  induction s as [|c s (w & ws & IH)]; simpl; [eauto|].
  destruct (Ascii.eqb c sep); [eauto|]. rewrite IH. eauto.
Qed.

Lemma split_lines_count (s : string) : len (Str.split_lines s) = 1 + Spec.newlines s.
Proof.
  unfold Str.split_lines, len. induction s as [|c s IH]; simpl Str.split_on; [reflexivity|].
  simpl Spec.newlines.
  destruct (Ascii.eqb c Str.newline).
  - simpl length. lia.
  - destruct (split_on_cons Str.newline s) as (w & ws & E). rewrite E in *.
    simpl length in *. lia.
Qed.

Lemma newlines_nonneg (s : string) : 0 <= Spec.newlines s.
Proof. induction s as [|c s IH]; simpl; [lia|]. destruct (Ascii.eqb c Str.newline); lia. Qed.

Lemma split_on_short (sep : ascii) (s : string) :
  Forall (fun w => (String.length w <= String.length s)%nat) (Str.split_on sep s).
Proof.
  induction s as [|c s IH]; simpl.
  - constructor; [simpl; lia|constructor].
  - destruct (Ascii.eqb c sep).
    + constructor; [simpl; lia|].
      eapply Forall_impl; [exact IH|]. simpl. intros; lia.
    + destruct (Str.split_on sep s) as [|w ws].
      * constructor; [simpl; lia|constructor].
      * inversion IH; subst. constructor; [simpl; lia|].
        eapply Forall_impl; [eassumption|]. simpl. intros; lia.
Qed.

Lemma lstrip_short (s : string) : (String.length (Str.lstrip s) <= String.length s)%nat.
Proof.
  induction s as [|c s IH]; simpl; [lia|]. destruct (Str.is_space c); simpl; lia.
Qed.

Lemma indent_bounds (line : string) :
  0 <= Executor.indent_of line <= Z.of_nat (String.length line).
Proof. unfold Executor.indent_of. pose proof (lstrip_short line). lia. Qed.

Lemma max_indent_spec (lines : list string) (start : Z) :
  let m := fold_left (fun max_indent line => Z.max max_indent (Executor.indent_of line))
                     lines start in
  start <= m
  /\ Forall (fun line => Executor.indent_of line <= m) lines
  /\ (m = start \/ exists line, line ∈ lines /\ m = Executor.indent_of line).
Proof.
  cbv zeta. revert start. induction lines as [|l lines IH]; intros start; simpl.
  - split; [lia|]. split; [constructor|left; reflexivity].
  - destruct (IH (Z.max start (Executor.indent_of l))) as (H1 & H2 & H3).
    split; [lia|]. split; [constructor; [lia|exact H2]|].
    destruct H3 as [H3|(line & Hl & H3)].
    + destruct (Z.max_spec start (Executor.indent_of l)) as [[_ Hm]|[_ Hm]].
      * right. exists l. split; [left|lia].
      * left. lia.
    + right. exists line. split; [right; exact Hl|exact H3].
Qed.

Lemma filter_le_filter {A} (p q : A -> bool) (l : list A) :
  (forall x, p x = true -> q x = true) ->
  len (List.filter p l) <= len (List.filter q l).
Proof.
  intros H. unfold len. induction l as [|x l IH]; simpl; [lia|].
  destruct (p x) eqn:Ep.
  - rewrite (H x Ep). simpl length. lia.
  - destruct (q x); simpl length; lia.
Qed.

Lemma filter_le_len {A} (p : A -> bool) (l : list A) : len (List.filter p l) <= len l.
Proof. rewrite len_filter_count. apply count_le_len. Qed.

Lemma comment_is_non_empty (l : string) :
  Executor.is_comment l = true -> Executor.is_non_empty l = true.
Proof.
  unfold Executor.is_comment, Executor.is_non_empty.
  destruct (Str.strip l); [discriminate|reflexivity].
Qed.

End CodeQuality.

(** The code-quality metrics.  Code that counts as false gives no
    metrics, and code that is not a string raises.  For a non-empty text:
    [totalLines] is one more than the number of line breaks (a trailing
    line break counts one more, empty, line); comment lines are among the
    non-empty lines, and these among all lines; [commentRatio] is the
    integer 0 exactly when no line is non-empty; [maxIndentation] is the
    greatest leading whitespace of a line, the whole length of a line of
    whitespace included: no line has more, some line has exactly that
    much, and it is at most the length of the text; and the complexity is
    "low" below 8, "high" from 16 on. *)
Theorem code_quality_invariants (code : pyval) :
  (Executor._assess_code_quality code = Ok None <-> Py.truthy code = false)
  /\ (Py.truthy code = true -> Spec.is_text code = false ->
      Executor._assess_code_quality code = Err AttributeError)
  /\ forall q, Executor._assess_code_quality code = Ok (Some q) ->
       exists text,
         code = VStr text /\ text <> EmptyString
         /\ Executor.totalLines q = 1 + Spec.newlines text
         /\ 0 <= Executor.comments q <= Executor.nonEmptyLines q
         /\ Executor.nonEmptyLines q <= Executor.totalLines q
         /\ (Executor.commentRatio q = Executor.NInt 0 <-> Executor.nonEmptyLines q = 0)
         /\ 0 <= Executor.maxIndentation q <= Z.of_nat (String.length text)
         /\ Forall (fun line => Executor.indent_of line <= Executor.maxIndentation q)
                   (Str.split_lines text)
         /\ (exists line, line ∈ Str.split_lines text
                           /\ Executor.indent_of line = Executor.maxIndentation q)
         /\ (Executor.complexity q = "low" <-> Executor.maxIndentation q < 8)
         /\ (Executor.complexity q = "high" <-> 16 <= Executor.maxIndentation q).
Proof.
  unfold Executor._assess_code_quality.
  destruct (Py.truthy code) eqn:Et; simpl negb; cbv iota.
  2:{ split; [split; auto|]. split; [discriminate|discriminate]. }
  destruct code as [|b|z|text| |d]; try discriminate Et;
    try (split; [split; discriminate|]; split; [reflexivity|discriminate]).
  set (lines := Str.split_lines text).
  set (m := fold_left _ lines 0).
  pose proof (max_indent_spec lines 0) as (Hm0 & Hall & Hmax). fold m in Hm0, Hall, Hmax.
  pose proof (filter_le_filter _ _ lines comment_is_non_empty) as Hcn.
  pose proof (filter_le_len Executor.is_non_empty lines) as Hnl.
  assert (Hc0 : 0 <= len (List.filter Executor.is_comment lines)) by (unfold len; lia).
  assert (Hm : m <= Z.of_nat (String.length text)).
  { destruct Hmax as [->|(line & Hl & ->)]; [lia|].
    pose proof (split_on_short Str.newline text) as Hs.
    rewrite Forall_forall in Hs. specialize (Hs line Hl).
    pose proof (indent_bounds line). lia. }
  assert (Hne : text <> EmptyString).
  { intros ->. discriminate Et. }
  assert (Hatt : exists line, line ∈ lines /\ Executor.indent_of line = m).
  { destruct Hmax as [Hz|(line & Hl & ->)]; [|eauto].
    subst lines. unfold Str.split_lines in *.
    destruct (split_on_cons Str.newline text) as (w & ws & E). rewrite E in *.
    exists w. split; [left|].
    inversion Hall as [|? ? Hw _]; subst. pose proof (indent_bounds w). lia. }
  split.
  { split; [|discriminate].
    destruct (0 <? _); [destruct (Float64.truediv _ _)|]; discriminate. }
  split; [discriminate|].
  intros q.
  destruct (0 <? len (List.filter Executor.is_non_empty lines)) eqn:E0.
  - destruct (Float64.truediv _ _) as [ratio|e]; cbn [bind]; [|discriminate].
    intros H; injection H as <-. exists text. simpl.
    apply Z.ltb_lt in E0.
    split; [reflexivity|]. split; [exact Hne|].
    split; [apply split_lines_count|].
    split; [lia|]. split; [exact Hnl|].
    split; [split; [discriminate|lia]|].
    split; [lia|]. split; [exact Hall|]. split; [exact Hatt|].
    destruct (m <? 8) eqn:E8; [|destruct (m <? 16) eqn:E16];
      try apply Z.ltb_lt in E8; try apply Z.ltb_ge in E8;
      try apply Z.ltb_lt in E16; try apply Z.ltb_ge in E16;
      (split; split; intros; try discriminate; try reflexivity; lia).
  - cbn [bind]. intros H; injection H as <-. exists text. simpl.
    apply Z.ltb_ge in E0.
    split; [reflexivity|]. split; [exact Hne|].
    split; [apply split_lines_count|].
    split; [lia|]. split; [exact Hnl|].
    split; [split; [intros _; unfold len in *; lia|reflexivity]|].
    split; [lia|]. split; [exact Hall|]. split; [exact Hatt|].
    destruct (m <? 8) eqn:E8; [|destruct (m <? 16) eqn:E16];
      try apply Z.ltb_lt in E8; try apply Z.ltb_ge in E8;
      try apply Z.ltb_lt in E16; try apply Z.ltb_ge in E16;
      (split; split; intros; try discriminate; try reflexivity; lia).
Qed.

Lemma code_quality_invariants_witness :
  exists q,
    Executor._assess_code_quality (VStr (Demo.lines 3)) = Ok (Some q)
    /\ Executor.totalLines q = 1 + Spec.newlines (Demo.lines 3)
    /\ Executor.comments q <= Executor.nonEmptyLines q <= Executor.totalLines q.
Proof.
  assert (H : exists q, Executor._assess_code_quality (VStr (Demo.lines 3)) = Ok (Some q)).
  { eexists. vm_compute. reflexivity. }
  destruct H as [q Hq]. exists q. split; [exact Hq|].
  destruct (proj2 (proj2 (code_quality_invariants (VStr (Demo.lines 3)))) q Hq)
    as (text & Ht & _ & Htotal & Hc & Hn & _).
  injection Ht as <-. split; [exact Htotal|]. lia.
Defined.

(** ** The timing statistics of the executor *)

Section Timing.
Context (rt : Runtime).

Lemma gaps_from_observed (previous : dict) (rest : list dict) (g : float) :
  g ∈ Executor.gaps_from rt previous rest ->
  exists k a b,
    (previous :: rest) !! k = Some a /\ (previous :: rest) !! S k = Some b
    /\ Executor._time_diff rt (Py.get a "timestamp") (Py.get b "timestamp") = Some g.
Proof.
  revert previous. induction rest as [|e rest IH]; intros previous; simpl.
  - intros H. inversion H.
  - destruct (Executor._time_diff rt (Py.get previous "timestamp") (Py.get e "timestamp"))
      as [d|] eqn:Ed.
    + destruct (Py.gap_truthy (Some d)).
      * intros H. apply elem_of_cons in H as [->|H].
        -- exists O, previous, e. auto.
        -- destruct (IH e H) as (k & a & b & Ha & Hb & Hd). exists (S k), a, b. auto.
      * intros H. destruct (IH e H) as (k & a & b & Ha & Hb & Hd). exists (S k), a, b. auto.
    + intros H. destruct (IH e H) as (k & a & b & Ha & Hb & Hd). exists (S k), a, b. auto.
Qed.

Lemma insert_float_perm (x : float) (l : list float) : Py.insert_float x l ≡ₚ x :: l.
Proof.
  induction l as [|y l IH]; simpl; [reflexivity|].
  destruct (Float64.ltb x y); [reflexivity|]. rewrite IH. apply Permutation_swap.
Qed.

Lemma sorted_floats_perm (l : list float) : Py.sorted_floats l ≡ₚ l.
Proof.
  unfold Py.sorted_floats.
  enough (H : forall acc, fold_left (fun acc x => Py.insert_float x acc) l acc ≡ₚ acc ++ l).
  { apply (H []). }
  induction l as [|x l IH]; intros acc; simpl.
  - rewrite app_nil_r. reflexivity.
  - rewrite IH, insert_float_perm. rewrite <- Permutation_middle. reflexivity.
Qed.

Lemma timing_median_observed (interactions : list dict) (t : Executor.TimingPatterns) :
  Executor.timing_of rt interactions = Ok (Some t) ->
  Executor.medianGap t ∈ Executor.consecutive_gaps rt interactions
  /\ Executor.averageGap t
     = Float64.div (Float64.sum (Executor.consecutive_gaps rt interactions))
                   (Float64.of_Z (len (Executor.consecutive_gaps rt interactions))).
Proof.
  unfold Executor.timing_of.
  destruct (2 <=? len interactions); [|discriminate].
  destruct (Executor.consecutive_gaps rt interactions) as [|g gaps] eqn:Eg; [discriminate|].
  destruct (Py.sorted_floats (g :: gaps) !! _) as [median|] eqn:Em; [|discriminate].
  intros H; injection H as <-. simpl. split; [|reflexivity].
  apply list_elem_of_lookup_2 in Em. rewrite sorted_floats_perm in Em. exact Em.
Qed.

End Timing.

(** The timing statistics are about gaps that were observed: the median
    gap is the time difference between some interaction and the next one
    in the list, and it is positive (the second of the two is the later
    one); the average is the float sum of the gaps divided by their number. *)
Theorem median_gap_is_observed (rt : Runtime) (interactions : list dict)
        (found : Executor.Patterns) (t : Executor.TimingPatterns) :
  Executor._extract_patterns rt interactions = Ok found ->
  Executor.timingPatterns found = Some t ->
  (exists k a b,
      interactions !! k = Some a /\ interactions !! S k = Some b
      /\ Executor._time_diff rt (Py.get a "timestamp") (Py.get b "timestamp")
         = Some (Executor.medianGap t)
      /\ Spec.later rt (Py.get a "timestamp") (Py.get b "timestamp"))
  /\ Float64.ltb (Float64.of_Z 0) (Executor.medianGap t) = true
  /\ Executor.averageGap t
     = Float64.div (Float64.sum (Executor.consecutive_gaps rt interactions))
                   (Float64.of_Z (len (Executor.consecutive_gaps rt interactions))).
Proof.
  unfold Executor._extract_patterns.
  destruct (Executor.timing_of rt interactions) as [timing|e] eqn:Et; cbn [bind];
    [|discriminate].
  destruct (for_each Executor.categorize _ _) as [c|e]; cbn [bind]; [|discriminate].
  intros H; injection H as <-. simpl. intros ->.
  destruct (timing_median_observed rt _ _ Et) as [Hin Havg].
  assert (Hobs : exists k a b,
             interactions !! k = Some a /\ interactions !! S k = Some b
             /\ Executor._time_diff rt (Py.get a "timestamp") (Py.get b "timestamp")
                = Some (Executor.medianGap t)).
  { unfold Executor.consecutive_gaps in Hin.
    destruct interactions as [|e0 rest]; [inversion Hin|].
    apply gaps_from_observed, Hin. }
  destruct Hobs as (k & a & b & Ha & Hb & Hd).
  destruct (time_diff_later rt _ _ _ Hd) as [Hlater Hpos].
  split; [exists k, a, b; auto|]. split; [exact Hpos|exact Havg].
Qed.

Lemma median_gap_is_observed_witness :
  exists found t,
    Executor._extract_patterns Demo.runtime
      Demo.copy_then_paste = Ok found
    /\ Executor.timingPatterns found = Some t
    /\ Float64.ltb (Float64.of_Z 0) (Executor.medianGap t) = true.
Proof.
  assert (H : exists found t,
             Executor._extract_patterns Demo.runtime Demo.copy_then_paste = Ok found
             /\ Executor.timingPatterns found = Some t).
  { eexists. eexists. vm_compute. split; reflexivity. }
  destruct H as (found & t & Hf & Ht). exists found, t.
  split; [exact Hf|]. split; [exact Ht|].
  exact (proj1 (proj2 (median_gap_is_observed Demo.runtime _ _ _ Hf Ht))).
Defined.

(** ** When a sort returns *)

Section SortReturns.
Context {A : Type}.

Lemma lt_is_ok (a b : pyval) :
  (exists r, Py.lt a b = Ok r)
  <-> exists k, Spec.kind_of a = Some k /\ Spec.kind_of b = Some k.
Proof.
  destruct a as [|x|x|s|d|m], b as [|y|y|t|e|n]; simpl;
    try (split; [intros [r H]; discriminate H|intros (k & H1 & H2); congruence]);
    try (split; [intros _; eexists; split; reflexivity|intros _; eexists; reflexivity]).
  destruct (Bool.eqb (dt_aware d) (dt_aware e)) eqn:E.
  - apply Bool.eqb_prop in E. rewrite E.
    split; [intros _; eexists; split; reflexivity|intros _; eexists; reflexivity].
  - split; [intros [r H]; discriminate H|].
    intros (k & H1 & H2). rewrite <- H2 in H1. injection H1 as H1.
    rewrite H1 in E. destruct (dt_aware e); discriminate E.
Qed.

Lemma insert_sorted_of_kind (k : Spec.key_kind) (x : pyval * A) (l : list (pyval * A)) :
  Spec.kind_of (fst x) = Some k -> Spec.keys_of_kind k l ->
  exists r, Py.insert_sorted x l = Ok r.
Proof.
  intros Hx Hl. apply insert_sorted_total.
  eapply Forall_impl; [exact Hl|]. intros y Hy.
  apply lt_is_ok. eauto.
Qed.

Lemma sort_from_of_kind (k : Spec.key_kind) (l acc : list (pyval * A)) :
  Spec.keys_of_kind k l -> Spec.keys_of_kind k acc ->
  exists r, for_each (fun acc x => Py.insert_sorted x acc) l acc = Ok r.
Proof.
  intros Hl. revert acc. induction Hl as [|x l Hx _ IH]; intros acc Hacc; simpl; [eauto|].
  destruct (insert_sorted_of_kind k x acc Hx Hacc) as [acc' E].
  rewrite E; cbn [bind]. apply IH.
  destruct (insert_sorted_spec _ _ _ E) as (Hp & _).
  unfold Spec.keys_of_kind. rewrite Hp. constructor; assumption.
Qed.

(** What the elements sorted so far look like. *)
Lemma insert_sorted_kinds (x : pyval * A) (l r : list (pyval * A)) :
  Py.insert_sorted x l = Ok r ->
  l = [] \/ (exists y, l = [y]) \/ (exists k, Spec.keys_of_kind k l) ->
  (exists y, r = [y]) \/ (exists k, Spec.keys_of_kind k r).
Proof.
  intros E Hl. destruct (insert_sorted_spec _ _ _ E) as (Hp & _).
  destruct l as [|y l]; [simpl in E; injection E as <-; eauto|].
  right. simpl in E.
  destruct (Py.lt (fst x) (fst y)) as [b|e] eqn:Exy; [|discriminate].
  destruct (proj1 (lt_is_ok _ _) (ex_intro _ b Exy)) as (k & Hx & Hy).
  exists k. unfold Spec.keys_of_kind. rewrite Hp.
  constructor; [exact Hx|].
  destruct Hl as [Hl|[[z Hl]|[k' Hl]]]; [discriminate| |].
  - injection Hl as <- ->. constructor; [exact Hy|constructor].
  - inversion Hl as [|? ? Hy' Hl']; subst.
    assert (k' = k) by congruence. subst k'. exact Hl.
Qed.

Lemma sort_from_kinds (l acc r : list (pyval * A)) :
  for_each (fun acc x => Py.insert_sorted x acc) l acc = Ok r ->
  acc = [] \/ (exists y, acc = [y]) \/ (exists k, Spec.keys_of_kind k acc) ->
  r = [] \/ (exists y, r = [y]) \/ (exists k, Spec.keys_of_kind k r).
Proof.
  revert acc. induction l as [|x l IH]; intros acc; simpl.
  - intros H; injection H as <-. auto.
  - destruct (Py.insert_sorted x acc) as [acc'|e] eqn:E; cbn [bind]; [|discriminate].
    intros H Hacc. apply (IH acc' H). right. apply (insert_sorted_kinds _ _ _ E Hacc).
Qed.

(** On these values, a sort returns exactly when there is at most one
  element or all keys are of one kind. *)
Lemma sort_keyed_returns_iff (l : list (pyval * A)) :
  (exists r, Py.sort_keyed l = Ok r)
  <-> (length l <= 1)%nat \/ exists k, Spec.keys_of_kind k l.
Proof.
  split.
  - intros [r E]. unfold Py.sort_keyed in E.
    destruct (sort_from_spec _ _ _ E) as [Hp _]; [constructor|]. simpl in Hp.
    destruct (sort_from_kinds _ _ _ E) as [->|[[y ->]|[k Hk]]]; [auto| | |].
    + apply Permutation_length in Hp. left. simpl in Hp. lia.
    + apply Permutation_length in Hp. left. simpl in Hp. lia.
    + right. exists k. unfold Spec.keys_of_kind. rewrite <- Hp. exact Hk.
  - intros [Hlen|[k Hk]].
    + destruct l as [|x [|y l]]; [eexists; reflexivity|eexists; reflexivity|].
      simpl in Hlen. lia.
    + apply (sort_from_of_kind k); [exact Hk|constructor].
Qed.

End SortReturns.

Lemma anomalies_returns (rt : Runtime) (events : list dict) :
  (exists anomalies, SanityFlag._detect_anomalies rt events = Ok anomalies)
  <-> len events < 2
      \/ exists k, Spec.keys_of_kind k (Py.keyed_by_timestamp rt 0 events).
Proof.
  unfold SanityFlag._detect_anomalies.
  destruct (len events <? 2) eqn:E2.
  - apply Z.ltb_lt in E2. split; [auto|eauto].
  - apply Z.ltb_ge in E2.
    assert (Hlen : ~ (length (Py.keyed_by_timestamp rt 0 events) <= 1)%nat).
    { unfold Py.keyed_by_timestamp. rewrite length_imap. unfold len in E2. lia. }
    pose proof (sort_keyed_returns_iff (Py.keyed_by_timestamp rt 0 events)) as Hs.
    unfold Py.sorted. split.
    + intros [anomalies H]. right.
      destruct (Py.sort_keyed _) as [r|e]; [|discriminate].
      destruct (proj1 Hs (ex_intro _ r eq_refl)) as [Hl|Hk]; [contradiction|exact Hk].
    + intros [Hl|Hk]; [lia|].
      destruct (proj2 Hs (or_intror Hk)) as [r ->]. cbn [bind]. eauto.
Qed.

Section BestReturns.

Lemma best_returns_iff (lt' : pyval -> pyval -> result bool)
      (rest : list (pyval * dict)) (first : pyval * dict) :
  (forall a b, (exists r, lt' a b = Ok r)
               <-> exists k, Spec.kind_of a = Some k /\ Spec.kind_of b = Some k) ->
  (exists best,
      for_each (fun best x => let* b := lt' (fst x) (fst best) in
                              Ok (if b then x else best)) rest first = Ok best)
  <-> rest = [] \/ exists k, Spec.keys_of_kind k (first :: rest).
Proof.
  intros Hlt. revert first. induction rest as [|x rest IH]; intros first; simpl.
  - split; [auto|eauto].
  - split.
    + intros [best H]. right.
      destruct (lt' (fst x) (fst first)) as [b|e] eqn:E; cbn [bind] in H; [|discriminate].
      destruct (proj1 (Hlt _ _) (ex_intro _ b E)) as (k & Hx & Hf).
      exists k. constructor; [exact Hf|]. constructor; [exact Hx|].
      destruct (proj1 (IH _) (ex_intro _ best H)) as [->|[k' Hk']]; [constructor|].
      inversion Hk' as [|? ? Hb Hrest]; subst.
      assert (k' = k) by (destruct b; simpl in Hb; congruence). subst k'. exact Hrest.
    + intros [H|[k Hk]]; [discriminate|].
      inversion Hk as [|? ? Hf Hk']; subst. inversion Hk' as [|? ? Hx Hrest]; subst.
      destruct (proj2 (Hlt (fst x) (fst first))) as [b E]; [eauto|].
      rewrite E. cbn [bind]. apply IH. right. exists k.
      constructor; [destruct b; assumption|exact Hrest].
Qed.

Lemma lt_flipped_is_ok (a b : pyval) :
  (exists r, Py.lt b a = Ok r)
  <-> exists k, Spec.kind_of a = Some k /\ Spec.kind_of b = Some k.
Proof.
  rewrite lt_is_ok. split; intros (k & H1 & H2); eauto.
Qed.

End BestReturns.

Lemma red_flags_returns (rt : Runtime) (events submissions : list dict) :
  (exists flags, SanityFlag._detect_red_flags rt events submissions = Ok flags)
  <-> len events < 2
      \/ ((exists k, Spec.keys_of_kind k (Py.keyed_by_timestamp rt 0 events))
          /\ (exists k, Spec.keys_of_kind k
                          (Py.keyed_by_timestamp rt (length events) events))).
Proof.
  unfold SanityFlag._detect_red_flags.
  set (rf := match submissions with [] => [] | _ :: _ => _ end).
  set (tail := fun red_flags : list dict =>
                 match List.filter Py.is_copy events with
                 | [] => Ok red_flags
                 | _ :: _ => _
                 end).
  assert (Htail : forall r, exists flags, tail r = Ok flags).
  { intros r. unfold tail. destruct (List.filter Py.is_copy events);
      [|destruct (len _ =? 0)]; eauto. }
  assert (Hlen0 : length (Py.keyed_by_timestamp rt 0 events) = length events)
    by (unfold Py.keyed_by_timestamp; apply length_imap).
  assert (Hlen1 : length (Py.keyed_by_timestamp rt (length events) events) = length events)
    by (unfold Py.keyed_by_timestamp; apply length_imap).
  destruct (Py.keyed_by_timestamp rt 0 events) as [|k ks] eqn:K0.
  { cbn [bind]. split; [intros _; left; unfold len; simpl in Hlen0; lia|intros _; apply Htail]. }
  destruct (Py.keyed_by_timestamp rt (length events) events) as [|k' ks'] eqn:K1.
  { simpl in Hlen0, Hlen1. lia. }
  unfold Py.min_by, Py.max_by.
  pose proof (best_returns_iff (fun a b => Py.lt a b) ks k lt_is_ok) as Hmin.
  pose proof (best_returns_iff (fun a b => Py.lt b a) ks' k' lt_flipped_is_ok) as Hmax.
  simpl in Hmin, Hmax. simpl in Hlen0, Hlen1.
  split.
  - intros [flags H].
    destruct (for_each _ ks k) as [b1|e] eqn:E1; cbn [bind] in H; [|discriminate].
    destruct (for_each _ ks' k') as [b2|e] eqn:E2; cbn [bind] in H; [|discriminate].
    destruct (proj1 Hmin (ex_intro _ b1 eq_refl)) as [->|Hk].
    { left. unfold len. simpl in Hlen0. lia. }
    destruct (proj1 Hmax (ex_intro _ b2 eq_refl)) as [->|Hk'].
    { left. unfold len. simpl in Hlen1. lia. }
    right. auto.
  - intros Hcase.
    assert (H1 : exists b1, for_each (fun best x => let* b := Py.lt (fst x) (fst best) in
                                                 Ok (if b then x else best)) ks k = Ok b1).
    { apply Hmin. destruct Hcase as [Hl|[Hk _]]; [|right; exact Hk].
      left. destruct ks; [reflexivity|]. unfold len in Hl. simpl in Hlen0. lia. }
    assert (H2 : exists b2, for_each (fun best x => let* b := Py.lt (fst best) (fst x) in
                                                 Ok (if b then x else best)) ks' k' = Ok b2).
    { apply Hmax. destruct Hcase as [Hl|[_ Hk]]; [|right; exact Hk].
      left. destruct ks'; [reflexivity|]. unfold len in Hl. simpl in Hlen1. lia. }
    destruct H1 as [b1 ->], H2 as [b2 ->]. cbn [bind].
    destruct (SanityFlag._time_diff rt _ _) as [d|]; cbn [bind]; [|apply Htail].
    destruct (Py.gap_truthy (Some d) && Float64.ltb d (Float64.of_Z 300));
      [destruct (10 <? len (List.filter (Py.is_type "code_modified") events))|];
      cbn [bind]; apply Htail.
Qed.

(** ** The report of [watch_session] *)

Section WatchSession.
Context (rt : Runtime).

Lemma watch_detect_is_ok (interactions file_operations terminal_events : list dict) :
  is_ok (Watcher._detect_violations rt interactions file_operations terminal_events)
  = forallb (fun e => implb (Py.is_copy e)
                        (Spec.text_or_falsy (Py.get_or e "code_snippet" (VStr EmptyString))))
            interactions
    && forallb (fun e => implb (Spec.is_text_prompt e)
                           (Spec.is_text (Py.get_or e "prompt_text" (VStr EmptyString))))
               interactions
    && forallb (Spec.has_file_path rt) file_operations.
Proof.
  unfold Watcher._detect_violations.
  rewrite <- !forallb_filter_implies.
  rewrite <- (for_each_is_ok (Watcher.check_copy rt) _ _ [] (watch_check_copy_is_ok rt)).
  destruct (for_each (Watcher.check_copy rt) _ []) as [v1|err]; cbn [bind is_ok];
    [|reflexivity].
  change (List.filter Spec.is_text_prompt interactions)
    with (List.filter (fun i => Py.is_type "prompt_sent" i
                                && Py.truthy (Py.get i "prompt_text")) interactions).
  rewrite <- (for_each_is_ok (Watcher.check_prompt rt) _ _ v1 (watch_check_prompt_is_ok rt)).
  destruct (for_each (Watcher.check_prompt rt) _ v1) as [v2|err]; cbn [bind is_ok];
    [|reflexivity].
  rewrite <- (for_each_is_ok (Watcher.check_file_op rt) _ _ v2 (watch_check_file_op_is_ok rt)).
  reflexivity.
Qed.

Lemma timeline_is_ok (interactions file_operations terminal_events : list dict) :
  is_ok (Watcher._build_timeline rt interactions file_operations terminal_events)
  = forallb Spec.describable interactions
    && forallb (Spec.has_metadata rt) file_operations
    && forallb (fun e => implb (Py.is_type "terminal_spawned" e
                                || Py.is_type "command_executed" e)
                           (Spec.has_metadata rt e)) terminal_events.
Proof.
  unfold Watcher._build_timeline.
  rewrite <- (for_each_is_ok (Watcher.add_entry rt (Watcher._get_event_description rt)) _ _ []
                (add_entry_is_ok rt _ _ (describe_event_is_ok rt))).
  destruct (for_each _ interactions []) as [t1|err] eqn:E1; cbn [bind is_ok]; [|reflexivity].
  rewrite <- (for_each_is_ok (Watcher.add_entry rt (Watcher._get_file_event_description rt))
                _ _ t1 (add_entry_is_ok rt _ _ (describe_file_is_ok rt))).
  destruct (for_each _ file_operations t1) as [t2|err] eqn:E2; cbn [bind is_ok];
    [|reflexivity].
  rewrite <- (for_each_is_ok (Watcher.add_entry rt (Watcher._get_terminal_event_description rt))
                _ _ t2 (add_entry_is_ok rt _ _ (describe_terminal_is_ok rt))).
  destruct (for_each _ terminal_events t2) as [t3|err] eqn:E3; cbn [bind is_ok];
    [|reflexivity].
  destruct (sorted_timeline_total t3) as [r ->]; [|reflexivity].
  eapply add_entries_stamped; [exact E3|].
  eapply add_entries_stamped; [exact E2|].
  eapply add_entries_stamped; [exact E1|constructor].
Qed.

(** What the detector and the timeline together ask of an interaction. *)
Lemma interaction_conditions (e : dict) :
  implb (Py.is_copy e)
        (Spec.text_or_falsy (Py.get_or e "code_snippet" (VStr EmptyString)))
  && implb (Spec.is_text_prompt e)
           (Spec.is_text (Py.get_or e "prompt_text" (VStr EmptyString)))
  && Spec.describable e
  = implb (Py.is_type "prompt_sent" e) (Spec.prompt_text_ok e)
    && implb (Py.is_copy e) (Spec.is_text (Py.get_or e "code_snippet" (VStr EmptyString))).
Proof.
  unfold Spec.describable, Spec.is_text_prompt, Spec.prompt_text_ok, Py.get, Py.get_or.
  destruct (Py.is_type "prompt_sent" e) eqn:Ep.
  - assert (Hc : Py.is_copy e = false).
    { unfold Py.is_copy.
      rewrite (is_type_exclusive "prompt_sent" "code_copied_from_ai" e), 
        (is_type_exclusive "prompt_sent" "code_copied" e); auto; discriminate. }
    rewrite Hc. simpl.
    destruct (e !! "prompt_text") as [[|b|z|s| |d]|]; simpl; try reflexivity.
    + destruct b; reflexivity.
    + destruct (z =? 0); reflexivity.
    + destruct (String.eqb s EmptyString); reflexivity.
    + destruct (size d) as [|n]; reflexivity.
  - simpl. destruct (Py.is_copy e); simpl; [|reflexivity].
    destruct (default (VStr EmptyString) (e !! "code_snippet")) as [|b|z|s| |d];
      simpl; try reflexivity; rewrite ?andb_false_r; reflexivity.
Qed.

Lemma forallb_andb {A} (p q : A -> bool) (l : list A) :
  forallb (fun x => p x && q x) l = forallb p l && forallb q l.
Proof.
  induction l as [|x l IH]; simpl; [reflexivity|]. rewrite IH.
  destruct (p x), (q x), (forallb p l); reflexivity.
Qed.

Lemma file_path_has_metadata (e : dict) :
  Spec.has_file_path rt e = true -> Spec.has_metadata rt e = true.
Proof.
  unfold Spec.has_file_path, Spec.has_metadata.
  destruct (Py.metadata_of rt e); auto.
Qed.

Lemma forallb_pointwise {A} (p q : A -> bool) (l : list A) :
  (forall x, p x = q x) -> forallb p l = forallb q l.
Proof. intros H. induction l as [|x l IH]; simpl; [reflexivity|]. rewrite H, IH. reflexivity. Qed.

Lemma watch_body_is_ok (interactions file_operations terminal_events : list dict) :
  is_ok (Watcher._detect_violations rt interactions file_operations terminal_events)
  && is_ok (Watcher._build_timeline rt interactions file_operations terminal_events)
  = forallb (fun e => implb (Py.is_type "prompt_sent" e) (Spec.prompt_text_ok e)) interactions
    && forallb (fun e => implb (Py.is_copy e)
                           (Spec.is_text (Py.get_or e "code_snippet" (VStr EmptyString))))
               interactions
    && forallb (Spec.has_file_path rt) file_operations
    && forallb (fun e => implb (Py.is_type "terminal_spawned" e
                                || Py.is_type "command_executed" e)
                           (Spec.has_metadata rt e)) terminal_events.
Proof.
  rewrite watch_detect_is_ok, timeline_is_ok.
  rewrite <- (forallb_andb (fun e => implb (Py.is_type "prompt_sent" e) (Spec.prompt_text_ok e))).
  rewrite <- (forallb_pointwise _ _ interactions interaction_conditions).
  rewrite !forallb_andb.
  assert (Hf : forallb (Spec.has_metadata rt) file_operations
               = forallb (Spec.has_file_path rt) file_operations
                 && forallb (Spec.has_metadata rt) file_operations
               \/ forallb (Spec.has_file_path rt) file_operations = false).
  { destruct (forallb (Spec.has_file_path rt) file_operations) eqn:E; auto. }
  assert (Hm : forallb (Spec.has_file_path rt) file_operations = true ->
               forallb (Spec.has_metadata rt) file_operations = true).
  { rewrite !forallb_forall. intros H e He. apply file_path_has_metadata, H, He. }
  clear Hf.
  destruct (forallb (Spec.has_file_path rt) file_operations) eqn:Ef.
  - rewrite (Hm eq_refl).
    repeat match goal with |- context [forallb ?p ?l] =>
      let b := fresh "b" in generalize (forallb p l); intros b end.
    repeat match goal with b : bool |- _ => destruct b end; reflexivity.
  - repeat match goal with |- context [forallb ?p ?l] =>
      let b := fresh "b" in generalize (forallb p l); intros b end.
    repeat match goal with b : bool |- _ => destruct b end; reflexivity.
Qed.

End WatchSession.

(** ** Floats: no overflow on counts *)

Section FloatBounds.

Lemma digits2_size (p : positive) : digits2_pos p = Pos.size p.
Proof. induction p as [p IH|p IH|]; simpl; rewrite ?IH; reflexivity. Qed.

Lemma Zdigits2_log2 (m : Z) : 0 < m -> Zdigits2 m = Z.log2 m + 1.
Proof.
  destruct m as [|p|p]; try lia. intros _. simpl. rewrite digits2_size.
  destruct p; simpl; lia.
Qed.

Lemma Zdigits2_nonneg (m : Z) : 0 <= m -> 0 <= Zdigits2 m.
Proof. destruct m; simpl; lia. Qed.

(** [m <= 2^k] bounds the digits by [k + 1]. *)
Lemma Zdigits2_le (m k : Z) : 0 <= m -> 0 <= k -> m <= 2 ^ k -> Zdigits2 m <= k + 1.
Proof.
  intros Hm Hk H. destruct (Z.eq_dec m 0) as [->|Hne]; [simpl; lia|].
  rewrite Zdigits2_log2 by lia.
  assert (Z.log2 m <= Z.log2 (2 ^ k)) by (apply Z.log2_le_mono; lia).
  rewrite Z.log2_pow2 in H0 by lia. lia.
Qed.

(** A positive [m] has [2^(digits - 1) <= m]. *)
Lemma Zdigits2_ge (m : Z) : 0 < m -> 2 ^ (Zdigits2 m - 1) <= m.
Proof.
  intros Hm. rewrite Zdigits2_log2 by lia.
  replace (Z.log2 m + 1 - 1) with (Z.log2 m) by lia.
  apply Z.log2_spec. lia.
Qed.

Lemma shr_1_m (r : shr_record) : 0 <= shr_m r -> shr_m (shr_1 r) = Z.div2 (shr_m r).
Proof.
  destruct r as [m b s]. simpl. destruct m as [|p|p]; [reflexivity| |lia].
  intros _. destruct p; reflexivity.
Qed.

Lemma iter_shr_m (p : positive) (r : shr_record) :
  0 <= shr_m r -> shr_m (SpecFloat.iter_pos shr_1 p r) = Z.shiftr (shr_m r) (Zpos p).
Proof.
  revert r. induction p as [p IH|p IH|]; intros r Hr; simpl SpecFloat.iter_pos.
  - assert (H1 : 0 <= shr_m (shr_1 r)) by (rewrite shr_1_m by lia; apply Z.div2_nonneg; lia).
    assert (H2 : 0 <= shr_m (SpecFloat.iter_pos shr_1 p (shr_1 r)))
      by (rewrite IH by lia; apply Z.shiftr_nonneg; lia).
    rewrite IH, IH, shr_1_m by lia.
    rewrite Z.div2_spec, !Z.shiftr_shiftr by lia. f_equal. lia.
  - assert (H2 : 0 <= shr_m (SpecFloat.iter_pos shr_1 p r))
      by (rewrite IH by lia; apply Z.shiftr_nonneg; lia).
    rewrite IH, IH by lia. rewrite Z.shiftr_shiftr by lia. f_equal. lia.
  - rewrite shr_1_m by lia. apply Z.div2_spec.
Qed.

Lemma shr_record_of_loc_m (m : Z) (l : location) : shr_m (shr_record_of_loc m l) = m.
Proof. destruct l as [|[]]; reflexivity. Qed.

(** What [shr_fexp] does to a mantissa that is not negative. *)
Lemma shr_fexp_spec (m e : Z) (l : location) :
  0 <= m ->
  let n := fexp Float64.prec Float64.emax (Zdigits2 m + e) - e in
  let '(r, e') := shr_fexp Float64.prec Float64.emax m e l in
  (n <= 0 /\ shr_m r = m /\ e' = e)
  \/ (0 < n /\ shr_m r = Z.shiftr m n /\ e' = e + n).
Proof.
  intros Hm. cbv zeta. unfold shr_fexp, shr.
  destruct (fexp Float64.prec Float64.emax (Zdigits2 m + e) - e) as [|p|p] eqn:En.
  - left. rewrite shr_record_of_loc_m. lia.
  - right. rewrite iter_shr_m by (rewrite shr_record_of_loc_m; lia).
    rewrite shr_record_of_loc_m. lia.
  - left. rewrite shr_record_of_loc_m. lia.
Qed.

Lemma fexp_eq (x : Z) : fexp Float64.prec Float64.emax x = Z.max (x - 53) (-1074).
Proof. reflexivity. Qed.

(** A mantissa and an exponent that stand for at most [2^N]. *)
Lemma shr_fexp_bound (m e N : Z) (l : location) :
  0 <= m <= 2 ^ (N - e) -> e <= N -> -1074 <= N ->
  let '(r, e') := shr_fexp Float64.prec Float64.emax m e l in
  0 <= shr_m r <= 2 ^ (N - e') /\ e' <= N
  /\ e' <= Z.max e (Z.max (N - 52) (-1074))
  /\ (shr_m r <= m).
Proof.
  intros Hm He HN.
  pose proof (shr_fexp_spec m e l (proj1 Hm)) as H. cbv zeta in H.
  destruct (shr_fexp Float64.prec Float64.emax m e l) as [r e'].
  pose proof (Zdigits2_le m (N - e) (proj1 Hm) ltac:(lia) (proj2 Hm)) as Hd.
  rewrite fexp_eq in H.
  destruct H as [(Hn & -> & ->)|(Hn & -> & ->)].
  - repeat split; lia.
  - assert (He' : e + (Z.max (Zdigits2 m + e - 53) (-1074) - e) <= N) by lia.
    set (n := Z.max (Zdigits2 m + e - 53) (-1074) - e) in *.
    assert (Hs : 0 <= Z.shiftr m n) by (apply Z.shiftr_nonneg; lia).
    assert (Hle : Z.shiftr m n <= m).
    { rewrite Z.shiftr_div_pow2 by lia.
      apply Z.div_le_upper_bound; [apply Z.pow_pos_nonneg; lia|].
      assert (0 < 2 ^ n) by (apply Z.pow_pos_nonneg; lia). nia. }
    assert (Hup : Z.shiftr m n <= 2 ^ (N - (e + n))).
    { rewrite Z.shiftr_div_pow2 by lia.
      replace (N - (e + n)) with (N - e - n) by lia.
      apply Z.div_le_upper_bound; [apply Z.pow_pos_nonneg; lia|].
      rewrite <- Z.pow_add_r by lia. replace (n + (N - e - n)) with (N - e) by lia. lia. }
    split; [lia|]. split; [lia|]. split; [unfold n; lia|exact Hle].
Qed.

End FloatBounds.

Section FloatRounding.

Lemma round_nearest_even_bounds (m : Z) (l : location) :
  m <= round_nearest_even m l <= m + 1.
Proof.
  destruct l as [|[]]; simpl; try lia. destruct (Z.even m); lia.
Qed.

Lemma pow2_succ_ge (k : Z) : 0 <= k -> 2 ^ k + 1 <= 2 ^ (k + 1).
Proof.
  intros Hk. rewrite Z.pow_add_r by lia. change (2 ^ 1) with 2.
  assert (0 < 2 ^ k) by (apply Z.pow_pos_nonneg; lia). lia.
Qed.

(** Rounding a value of at most [2^N] gives zero or a finite float of at
  most [2^(N+1)]: neither an infinity nor a NaN. *)
Lemma round_aux_bounded (sx : bool) (mx ex N : Z) (lx : location) :
  0 <= mx <= 2 ^ (N - ex) -> ex <= N -> ex <= 971 -> -1074 <= N <= 1022 ->
  match binary_round_aux Float64.prec Float64.emax sx mx ex lx with
  | S754_zero s => s = sx
  | S754_finite s m e => s = sx /\ Zpos m <= 2 ^ (N + 1 - e) /\ e <= N + 1 /\ e <= 971
  | _ => False
  end.
Proof.
  intros Hm He He' HN. unfold binary_round_aux.
  pose proof (shr_fexp_bound mx ex N lx Hm He ltac:(lia)) as H1.
  destruct (shr_fexp Float64.prec Float64.emax mx ex lx) as [r1 e1].
  destruct H1 as (Hm1 & He1 & He1' & _).
  pose proof (round_nearest_even_bounds (shr_m r1) (loc_of_shr_record r1)) as Hr.
  set (mr := round_nearest_even (shr_m r1) (loc_of_shr_record r1)) in *.
  assert (Hmr : 0 <= mr <= 2 ^ (N + 1 - e1)).
  { pose proof (pow2_succ_ge (N - e1) ltac:(lia)).
    replace (N + 1 - e1) with (N - e1 + 1) by lia. lia. }
  pose proof (shr_fexp_bound mr e1 (N + 1) loc_Exact Hmr ltac:(lia) ltac:(lia)) as H2.
  destruct (shr_fexp Float64.prec Float64.emax mr e1 loc_Exact) as [r2 e2].
  destruct H2 as (Hm2 & He2 & He2' & _).
  destruct (shr_m r2) as [|m|m] eqn:E2; [reflexivity| |lia].
  replace (e2 <=? Float64.emax - Float64.prec) with true.
  - repeat split; lia.
  - symmetry. apply Z.leb_le. change (Float64.emax - Float64.prec) with 971. lia.
Qed.

Lemma shiftl_mono (a b e : Z) : 0 <= a <= b -> Z.shiftl a e <= Z.shiftl b e.
Proof.
  intros H. destruct (Z_le_gt_dec 0 e) as [He|He].
  - rewrite !Z.shiftl_mul_pow2 by lia.
    assert (0 < 2 ^ e) by (apply Z.pow_pos_nonneg; lia). nia.
  - rewrite !Z.shiftl_div_pow2 by lia.
    apply Z.div_le_mono; [apply Z.pow_pos_nonneg; lia|lia].
Qed.

(** Shifting to the canonical exponent keeps a value of at least 50 at
  least 50. *)
Lemma shr_fexp_ge_50 (m e : Z) (l : location) :
  0 <= m -> 50 <= Z.shiftl m e ->
  let '(r, e') := shr_fexp Float64.prec Float64.emax m e l in
  50 <= Z.shiftl (shr_m r) e'.
Proof.
  intros Hm H50.
  pose proof (shr_fexp_spec m e l Hm) as H. cbv zeta in H.
  destruct (shr_fexp Float64.prec Float64.emax m e l) as [r e'].
  rewrite fexp_eq in H.
  destruct H as [(Hn & -> & ->)|(Hn & -> & ->)]; [exact H50|].
  set (n := Z.max (Zdigits2 m + e - 53) (-1074) - e) in *.
  destruct (Z_le_gt_dec (e + n) 0) as [Hle|Hgt].
  - replace (Z.shiftl (Z.shiftr m n) (e + n)) with (Z.shiftl m e); [exact H50|].
    rewrite <- (Z.opp_involutive (e + n)), Z.shiftl_opp_r.
    rewrite Z.shiftr_shiftr by lia.
    replace (n + - (e + n)) with (- e) by lia.
    rewrite Z.shiftr_opp_r. reflexivity.
  - assert (Hd : e + n = Zdigits2 m + e - 53) by (unfold n; lia).
    assert (Hpos : 0 < m).
    { destruct (Z.eq_dec m 0) as [->|]; [|lia]. simpl in Hd. lia. }
    pose proof (Zdigits2_ge m Hpos) as Hge.
    rewrite Z.shiftl_mul_pow2 by lia.
    assert (H52 : 2 ^ 52 <= Z.shiftr m n).
    { rewrite Z.shiftr_div_pow2 by lia.
      apply Z.div_le_lower_bound; [apply Z.pow_pos_nonneg; lia|].
      rewrite <- Z.pow_add_r by lia.
      replace (n + 52) with (Zdigits2 m - 1) by lia. exact Hge. }
    assert (H2 : 2 <= 2 ^ (e + n)).
    { change 2 with (2 ^ 1) at 1. apply Z.pow_le_mono_r; lia. }
    assert (2 ^ 52 = 4503599627370496) by reflexivity.
    nia.
Qed.

(** Rounding keeps a value of at least 50 at least 50. *)
Lemma round_aux_ge_50 (sx : bool) (mx ex : Z) (lx : location) :
  0 <= mx -> 50 <= Z.shiftl mx ex ->
  match binary_round_aux Float64.prec Float64.emax sx mx ex lx with
  | S754_finite s m e => 50 <= Z.shiftl (Zpos m) e
  | S754_zero _ => False
  | _ => True
  end.
Proof.
  intros Hm H50. unfold binary_round_aux.
  pose proof (shr_fexp_ge_50 mx ex lx Hm H50) as H1.
  pose proof (shr_fexp_spec mx ex lx Hm) as S1. cbv zeta in S1.
  destruct (shr_fexp Float64.prec Float64.emax mx ex lx) as [r1 e1].
  assert (Hm1 : 0 <= shr_m r1).
  { destruct S1 as [(_ & -> & _)|(_ & -> & _)]; [lia|apply Z.shiftr_nonneg; lia]. }
  pose proof (round_nearest_even_bounds (shr_m r1) (loc_of_shr_record r1)) as Hr.
  set (mr := round_nearest_even (shr_m r1) (loc_of_shr_record r1)) in *.
  assert (Hmr : 50 <= Z.shiftl mr e1).
  { etransitivity; [exact H1|]. apply shiftl_mono. lia. }
  pose proof (shr_fexp_ge_50 mr e1 loc_Exact ltac:(lia) Hmr) as H2.
  destruct (shr_fexp Float64.prec Float64.emax mr e1 loc_Exact) as [r2 e2].
  destruct (shr_m r2) as [|m|m] eqn:E2.
  - rewrite Z.shiftl_0_l in H2. lia.
  - destruct (e2 <=? Float64.emax - Float64.prec); [exact H2|exact I].
  - exact I.
Qed.

End FloatRounding.

Section FloatDivision.

Lemma round_aux_at_most (mx ex N : Z) (lx : location) :
  0 <= mx <= 2 ^ (N - ex) -> ex <= N -> ex <= 971 -> -1074 <= N <= 1022 ->
  Spec.float_at_most (N + 1)
    (binary_round_aux Float64.prec Float64.emax false mx ex lx).
Proof.
  intros Hm He He' HN.
  pose proof (round_aux_bounded false mx ex N lx Hm He He' HN) as H.
  unfold Spec.float_at_most.
  destruct (binary_round_aux _ _ _ _ _ _); auto.
Qed.

Lemma div_core_bound (a b : positive) (N : Z) :
  Zpos a <= 2 ^ N -> 0 <= N ->
  let '(q, e, l) := SFdiv_core_binary Float64.prec Float64.emax (Zpos a) 0 (Zpos b) 0 in
  0 <= q <= 2 ^ (N - e) /\ e <= 0.
Proof.
  intros Ha HN. unfold SFdiv_core_binary.
  set (e := Z.min _ (0 - 0)).
  assert (He : e <= 0) by (unfold e; lia).
  set (m' := match 0 - 0 - e with Z0 => Zpos a | Zpos _ => _ | Zneg _ => 0 end).
  assert (Hm' : 0 <= m' <= 2 ^ (N - e)).
  { unfold m'. destruct (0 - 0 - e) as [|s|s] eqn:Es.
    - replace e with 0 by lia. rewrite Z.sub_0_r. lia.
    - rewrite Z.shiftl_mul_pow2 by lia.
      replace (N - e) with (N + Zpos s) by lia. rewrite Z.pow_add_r by lia.
      assert (0 < 2 ^ Zpos s) by (apply Z.pow_pos_nonneg; lia). nia.
    - lia. }
  pose proof (Z.div_eucl_eq m' (Zpos b) ltac:(lia)) as Heq.
  pose proof (Z.mod_pos_bound m' (Zpos b) ltac:(lia)) as Hmod.
  unfold Z.modulo in Hmod.
  destruct (Z.div_eucl m' (Zpos b)) as [q r]. split; [|exact He].
  assert (0 <= q) by nia. split; [lia|]. nia.
Qed.

(** The true division of a count by a positive count returns. *)
Lemma truediv_returns (a b N : Z) :
  0 <= a <= 2 ^ N -> 0 <= N <= 1022 -> 0 < b ->
  exists q, Float64.truediv a b = Ok q /\ Spec.float_at_most (N + 1) q.
Proof.
  intros Ha HN Hb. unfold Float64.truediv.
  replace (b =? 0) with false by (symmetry; apply Z.eqb_neq; lia).
  destruct b as [|pb|pb]; try lia.
  destruct a as [|pa|pa]; try lia.
  - eexists. split; reflexivity.
  - unfold Float64.div, Float64.exact, SFdiv.
    pose proof (div_core_bound pa pb N (proj2 Ha) (proj1 HN)) as Hc.
    destruct (SFdiv_core_binary _ _ _ _ _ _) as [[q e] l].
    destruct Hc as [Hq He]. change (xorb false false) with false.
    pose proof (round_aux_at_most q e N l Hq ltac:(lia) ltac:(lia) ltac:(lia)) as Hr.
    destruct (binary_round_aux _ _ _ _ _ _) eqn:E; try contradiction; eauto.
Qed.

End FloatDivision.

Section FloatScore.

Lemma fifty : Float64.of_Z 50 = S754_finite false 7036874417766400 (-47).
Proof. reflexivity. Qed.

Lemma iter_xO (d m : positive) : Zpos (Pos.iter xO m d) = Zpos m * 2 ^ Zpos d.
Proof.
  induction d as [|d IH] using Pos.peano_ind.
  - simpl. lia.
  - rewrite Pos.iter_succ, Pos2Z.inj_xO, IH, Pos2Z.inj_succ, Z.pow_succ_r by lia. lia.
Qed.

Lemma shl_align_spec (mx : positive) (ex ex' : Z) :
  let '(m', e') := shl_align mx ex ex' in
  e' = Z.min ex ex' /\ Zpos m' = Zpos mx * 2 ^ (ex - e').
Proof.
  unfold shl_align. destruct (ex' - ex) as [|d|d] eqn:E.
  - replace (Z.min ex ex') with ex by lia. rewrite Z.sub_diag. simpl. lia.
  - replace (Z.min ex ex') with ex by lia. rewrite Z.sub_diag. simpl. lia.
  - replace (Z.min ex ex') with ex' by lia. split; [reflexivity|].
    rewrite iter_xO. f_equal. f_equal. lia.
Qed.

(** The float of [ratio * 50]. *)
Lemma mul_fifty_at_most (r : float) (N : Z) :
  Spec.float_at_most N r -> -1074 <= N <= 1010 ->
  Spec.float_at_most (N + 7) (Float64.mul r (Float64.of_Z 50)).
Proof.
  intros Hr HN. rewrite fifty. unfold Float64.mul.
  destruct r as [s| | |s m e]; simpl in Hr; try contradiction.
  - subst s. reflexivity.
  - destruct Hr as (-> & Hm & He & He'). cbn [SFmul xorb].
    replace (N + 7) with (N + 6 + 1) by lia.
    apply (round_aux_at_most _ _ (N + 6)); try lia.
    rewrite Pos2Z.inj_mul. split; [lia|].
    replace (N + 6 - (e + -47)) with ((N - e) + 53) by lia.
    rewrite Z.pow_add_r by lia.
    assert (7036874417766400 <= 2 ^ 53) by (vm_compute; discriminate).
    assert (0 < 2 ^ (N - e)) by (apply Z.pow_pos_nonneg; lia). nia.
Qed.

Lemma shiftl_scaled (m k e : Z) :
  0 <= k -> e <= 0 -> Z.shiftl (m * 2 ^ k) (e - k) = Z.shiftl m e.
Proof.
  intros Hk He. rewrite !Z.shiftl_div_pow2 by lia.
  replace (- (e - k)) with (- e + k) by lia. rewrite Z.pow_add_r by lia.
  apply Z.div_mul_cancel_r; apply Z.pow_nonzero; lia.
Qed.

(** The float of [x + 50], truncated, is at least 50. *)
Lemma add_fifty_to_int (x : float) (N : Z) :
  Spec.float_at_most N x -> 6 <= N <= 1020 ->
  exists score,
    Float64.to_int (Float64.add x (Float64.of_Z 50)) = Ok score /\ 50 <= score.
Proof.
  intros Hx HN. rewrite fifty. unfold Float64.add.
  destruct x as [s| | |s m e]; simpl in Hx; try contradiction.
  - subst s. eexists. split; [reflexivity|]. vm_compute. discriminate.
  - destruct Hx as (-> & Hm & He & He'). cbn [SFadd cond_Zopp].
    pose proof (shl_align_spec m e (Z.min e (-47))) as H1.
    pose proof (shl_align_spec 7036874417766400 (-47) (Z.min e (-47))) as H2.
    destruct (shl_align m e (Z.min e (-47))) as [m1 e1].
    destruct (shl_align 7036874417766400 (-47) (Z.min e (-47))) as [m2 e2].
    destruct H1 as [He1 H1], H2 as [He2 H2]. cbn [fst].
    set (ez := Z.min e (-47)) in *.
    assert (Hez : ez <= -47) by (unfold ez; lia).
    replace e1 with ez in H1 by lia. replace e2 with ez in H2 by lia.
    change (Zpos m1 + Zpos m2) with (Zpos (m1 + m2)).
    unfold binary_normalize, binary_round.
    pose proof (shl_align_spec (m1 + m2) ez
                  (fexp Float64.prec Float64.emax (Zpos (digits2_pos (m1 + m2)) + ez))) as H3.
    destruct (shl_align (m1 + m2) ez _) as [mz ez'].
    destruct H3 as [Hez' H3].
    assert (Hle : ez' <= ez) by lia.
    assert (Hfifty : Zpos m2 = 50 * 2 ^ (- ez)).
    { rewrite H2. change 7036874417766400 with (50 * 2 ^ 47).
      rewrite <- Z.mul_assoc, <- Z.pow_add_r by lia. f_equal. f_equal. lia. }
    assert (Hp1 : 0 < 2 ^ (e - ez)) by (apply Z.pow_pos_nonneg; lia).
    assert (Hp2 : 0 < 2 ^ (ez - ez')) by (apply Z.pow_pos_nonneg; lia).
    assert (Hp3 : 0 < 2 ^ (- ez)) by (apply Z.pow_pos_nonneg; lia).
    (* the value is at least 50 *)
    assert (H50 : 50 <= Z.shiftl (Zpos mz) ez').
    { rewrite H3. replace ez' with (ez - (ez - ez')) at 2 by lia.
      rewrite shiftl_scaled by lia.
      rewrite Z.shiftl_div_pow2 by lia.
      apply Z.div_le_lower_bound; [lia|].
      rewrite Pos2Z.inj_add, Hfifty. lia. }
    (* and at most 2^(N+1) *)
    assert (Hup : Zpos mz <= 2 ^ (N + 1 - ez')).
    { rewrite H3, Pos2Z.inj_add, H1, Hfifty.
      replace (N + 1 - ez') with ((N + 1 - ez) + (ez - ez')) by lia.
      rewrite (Z.pow_add_r 2 (N + 1 - ez)) by lia.
      apply Z.mul_le_mono_nonneg_r; [lia|].
      replace (N + 1 - ez) with ((N - ez) + 1) by lia.
      rewrite Z.pow_add_r by lia. change (2 ^ 1) with 2.
      assert (Zpos m * 2 ^ (e - ez) <= 2 ^ (N - ez)).
      { replace (N - ez) with ((N - e) + (e - ez)) by lia.
        rewrite Z.pow_add_r by lia. apply Z.mul_le_mono_nonneg_r; lia. }
      assert (50 * 2 ^ (- ez) <= 2 ^ (N - ez)).
      { replace (N - ez) with (N + - ez) by lia. rewrite Z.pow_add_r by lia.
        apply Z.mul_le_mono_nonneg_r; [lia|].
        assert (2 ^ 6 <= 2 ^ N) by (apply Z.pow_le_mono_r; lia).
        change (2 ^ 6) with 64 in *. lia. }
      lia. }
    pose proof (round_aux_bounded false (Zpos mz) ez' (N + 1) loc_Exact
                  ltac:(lia) ltac:(lia) ltac:(lia) ltac:(lia)) as Hb.
    pose proof (round_aux_ge_50 false (Zpos mz) ez' loc_Exact ltac:(lia) H50) as Hg.
    destruct (binary_round_aux _ _ _ _ _ _) as [s'| | |s' m' e'];
      try contradiction.
    destruct Hb as (-> & _). simpl. eexists. split; [reflexivity|exact Hg].
Qed.

Lemma at_most_weaken (x : float) (N N' : Z) :
  N <= N' -> Spec.float_at_most N x -> Spec.float_at_most N' x.
Proof.
  intros HN. destruct x as [s| | |s m e]; simpl; auto.
  intros (Hs & Hm & He & He'). split; [exact Hs|]. split; [|lia].
  etransitivity; [exact Hm|]. apply Z.pow_le_mono_r; lia.
Qed.

End FloatScore.

Lemma behavior_score_bounds (interactions : list dict) :
  len interactions <= 2 ^ 1000 ->
  exists score,
    Executor._calculate_behavior_score interactions = Ok score /\ 50 <= score <= 100.
Proof.
  intros Hlen. unfold Executor._calculate_behavior_score.
  destruct interactions as [|i0 rest] eqn:Ei; [exists 50; split; [reflexivity|lia]|].
  rewrite <- Ei in *. clear Ei i0 rest.
  destruct (List.filter (Py.is_type "prompt_sent") interactions) as [|p ps] eqn:Ep;
    [exists 50; split; [reflexivity|lia]|].
  rewrite <- Ep.
  pose proof (filter_le_len (Py.is_type "code_modified") interactions) as Hm.
  assert (Hp : 0 < len (List.filter (Py.is_type "prompt_sent") interactions)).
  { rewrite Ep. unfold len. simpl length. lia. }
  destruct (truediv_returns (len (List.filter (Py.is_type "code_modified") interactions))
              (len (List.filter (Py.is_type "prompt_sent") interactions)) 1000)
    as (ratio & -> & Hr);
    [split; [unfold len; lia|etransitivity; [exact Hm|exact Hlen]]|lia|exact Hp|].
  cbn [bind].
  pose proof (mul_fifty_at_most ratio 1001 Hr ltac:(lia)) as Hmul.
  destruct (add_fifty_to_int _ 1008 Hmul ltac:(lia)) as (score & -> & Hscore).
  cbn [bind]. exists (Z.min 100 score). split; [reflexivity|lia].
Qed.

(** The behavior score is defined and lies between 50 and 100, as the
    source says of its scale: the division, the product and the sum of
    floats neither overflow nor fall below 50 before the truncation.  The
    bound on the length, which no list in memory reaches, keeps the count of
    modifications within the range of a float. *)
Theorem behavior_score_in_range (interactions : list dict) :
  len interactions <= 2 ^ 1000 ->
  exists score,
    Executor._calculate_behavior_score interactions = Ok score /\ 50 <= score <= 100.
Proof. exact (behavior_score_bounds interactions). Qed.

Lemma behavior_score_in_range_witness :
  exists score,
    Executor._calculate_behavior_score
      [Demo.text_prompt; Demo.event "code_modified"; Demo.text_prompt] = Ok score
    /\ 50 <= score <= 100.
Proof.
  apply behavior_score_in_range. vm_compute. discriminate.
Defined.

Lemma flag_score_bounds (violations events : list dict) :
  len events <= 2 ^ 1000 ->
  exists score,
    SanityFlag._calculate_risk_score violations events = Ok score /\ 0 <= score <= 100.
Proof.
  intros Hlen. unfold SanityFlag._calculate_risk_score.
  rewrite flag_fold_add_severity.
  pose proof (weight_sum_nonneg violations) as Hw.
  pose proof (filter_le_len Py.is_copy events) as Hc.
  destruct (List.filter (Py.is_type "code_modified") events) as [|m ms] eqn:Em.
  - cbn [bind]. destruct (20 <? _); eexists; (split; [reflexivity|lia]).
  - destruct (List.filter Py.is_copy events) as [|c cs] eqn:Ec.
    + cbn [bind]. destruct (20 <? _); eexists; (split; [reflexivity|lia]).
    + destruct (truediv_returns (len (c :: cs)) (len (m :: ms)) 1000)
        as (ratio & -> & _);
        [split; [unfold len; lia|etransitivity; [exact Hc|exact Hlen]]|lia
        |unfold len; simpl length; lia|].
      cbn [bind].
      destruct (Float64.ltb (Float64.of_Z 2) ratio), (20 <? _);
        eexists; (split; [reflexivity|lia]).
Qed.

(** The flag-mode risk score is defined, whatever the violations and
    the events: the division of the copy count by the modification count
    does not overflow (the bound on the length keeps the counts within the
    range of a float). *)
Theorem flag_score_returns (violations events : list dict) :
  len events <= 2 ^ 1000 ->
  exists score,
    SanityFlag._calculate_risk_score violations events = Ok score /\ 0 <= score <= 100.
Proof. exact (flag_score_bounds violations events). Qed.

Lemma flag_score_returns_witness :
  exists score,
    SanityFlag._calculate_risk_score [] [Demo.big_copy; Demo.event "code_modified"] = Ok score
    /\ 0 <= score <= 100.
Proof.
  apply flag_score_returns. vm_compute. discriminate.
Defined.

(** ** The report of [execute_analysis] *)

Section ExecuteAnalysis.
Context (rt : Runtime).

Lemma extract_patterns_is_ok (interactions : list dict) :
  is_ok (Executor._extract_patterns rt interactions)
  = forallb (fun e => implb (Py.is_type "prompt_sent" e)
                      (Spec.is_text (Py.get_or e "prompt_text" (VStr EmptyString))))
          interactions.
Proof.
  unfold Executor._extract_patterns.
  destruct (timing_of_returns rt interactions) as (timing & -> & _). cbn [bind].
  rewrite <- forallb_filter_implies.
  rewrite <- (for_each_is_ok Executor.categorize _ _
              {| Executor.solution_request := 0; Executor.explanation_request := 0;
                 Executor.code_review := 0; Executor.other := 0 |} categorize_is_ok).
  destruct (for_each Executor.categorize _ _); reflexivity.
Qed.

Lemma split_lines_short (text : string) :
  len (Str.split_lines text) <= 1 + Z.of_nat (String.length text).
Proof.
  rewrite split_lines_count.
  enough (Spec.newlines text <= Z.of_nat (String.length text)) by lia.
  induction text as [|c text IH]; simpl Spec.newlines; simpl String.length; [lia|].
  destruct (Ascii.eqb c Str.newline); lia.
Qed.

Lemma code_quality_returns (text : string) :
  Z.of_nat (String.length text) < 2 ^ 1000 -> text <> EmptyString ->
  exists q, Executor._assess_code_quality (VStr text) = Ok (Some q).
Proof.
  intros Hlen Hne. unfold Executor._assess_code_quality.
  replace (Py.truthy (VStr text)) with true.
  2:{ simpl. destruct text; [congruence|reflexivity]. }
  simpl negb. cbv iota.
  destruct (0 <? len (List.filter Executor.is_non_empty (Str.split_lines text))) eqn:E0;
  [|cbn [bind]; eauto].
  apply Z.ltb_lt in E0.
  pose proof (filter_le_len Executor.is_comment (Str.split_lines text)) as Hc.
  pose proof (split_lines_short text) as Hs.
  destruct (truediv_returns (len (List.filter Executor.is_comment (Str.split_lines text)))
            (len (List.filter Executor.is_non_empty (Str.split_lines text))) 1000)
  as (q & -> & _); [split; [unfold len; lia|lia]|lia|exact E0|].
  cbn [bind]. eauto.
Qed.

Lemma code_integration_returns (interactions : list dict) :
  len interactions <= 2 ^ 1000 ->
  exists c, Executor._analyze_code_integration interactions = Ok c.
Proof.
  intros Hlen. unfold Executor._analyze_code_integration.
  pose proof (filter_le_len (Py.is_type "code_modified") interactions) as Hm.
  destruct (List.filter Py.is_copy interactions) as [|c cs] eqn:Ec; [cbn [bind]; eauto|].
  destruct (truediv_returns (len (List.filter (Py.is_type "code_modified") interactions))
            (len (c :: cs)) 1000)
  as (q & -> & _);
  [split; [unfold len; lia|etransitivity; [exact Hm|exact Hlen]]|lia
  |unfold len; simpl length; lia|].
  cbn [bind]. eauto.
Qed.

Lemma skills_is_ok (interactions : list dict) (code : pyval) :
  len interactions <= 2 ^ 1000 ->
  (exists s, Executor._assess_skills interactions code = Ok s
           /\ Executor.problemSolving s = "medium")
  <-> Spec.text_or_falsy code = true.
Proof.
  intros Hlen. unfold Executor._assess_skills.
  pose proof (filter_le_len (Py.is_type "code_modified") interactions) as Hm.
  assert (Hind : exists i,
           match List.filter (Py.is_type "prompt_sent") interactions,
                 List.filter (Py.is_type "code_modified") interactions with
           | _ :: _, _ :: _ =>
               let* independence_ratio :=
                 Float64.truediv
                   (len (List.filter (Py.is_type "code_modified") interactions))
                   (len (List.filter (Py.is_type "prompt_sent") interactions)) in
               if Float64.ltb (Float64.of_Z 2) independence_ratio then Ok "high"
               else if Float64.ltb independence_ratio Float64.half then Ok "low"
               else Ok "medium"
           | _, _ => Ok "medium"
           end = Ok i).
  { destruct (List.filter (Py.is_type "prompt_sent") interactions) as [|p ps] eqn:Ep;
    [eauto|].
  destruct (List.filter (Py.is_type "code_modified") interactions) as [|m ms] eqn:Em;
    [eauto|].
  destruct (truediv_returns (len (m :: ms)) (len (p :: ps)) 1000)
    as (q & -> & _);
    [split; [unfold len; lia|etransitivity; [exact Hm|exact Hlen]]|lia
    |unfold len; simpl length; lia|].
  cbn [bind]. destruct (Float64.ltb (Float64.of_Z 2) q); [eauto|].
  destruct (Float64.ltb q Float64.half); eauto. }
  destruct Hind as [i ->]. cbn [bind].
  destruct code as [|b|z|text| |d]; simpl Py.truthy; simpl Spec.text_or_falsy.
  - cbn [bind]. split; [reflexivity|eauto].
  - destruct b; cbn [bind Py.split_line_count]; simpl.
  + split; [intros (s & H & _); discriminate H|discriminate].
  + split; [reflexivity|eauto].
  - destruct (z =? 0); cbn [bind Py.split_line_count]; simpl.
  + split; [reflexivity|eauto].
  + split; [intros (s & H & _); discriminate H|discriminate].
  - split; [reflexivity|intros _].
  destruct (negb (String.eqb text EmptyString)); cbn [bind Py.split_line_count]; [|eauto].
  destruct (50 <? _); [eauto|]. destruct (_ <? 10); eauto.
  - cbn [bind Py.split_line_count]. split; [intros (s & H & _); discriminate H|discriminate].
  - destruct (Nat.eqb (size d) 0); cbn [bind Py.split_line_count]; simpl.
  + split; [reflexivity|eauto].
  + split; [intros (s & H & _); discriminate H|discriminate].
Qed.

Lemma skills_medium (interactions : list dict) (code : pyval) (s : Executor.Skills) :
  Executor._assess_skills interactions code = Ok s -> Executor.problemSolving s = "medium".
Proof.
  unfold Executor._assess_skills.
  destruct (match List.filter (Py.is_type "prompt_sent") interactions with
            | [] => _ | _ :: _ => _ end) as [i|e]; cbn [bind]; [|discriminate].
  destruct (if Py.truthy code then _ else _) as [q|e]; cbn [bind]; [|discriminate].
  intros H; injection H as <-. reflexivity.
Qed.

End ExecuteAnalysis.

(** The report of [execute_analysis].  The code that is analysed is the
    code passed when that counts as true, and otherwise the code of the
    last snapshot.  For a session of fewer than [2^1000] interactions and a
    code text of fewer than [2^1000] characters (bounds that keep the counts
    within the range of a float), the report is a success exactly when the
    text of every [prompt_sent] interaction is a string or absent and the
    code is a string or counts as false; on success the behavior score lies
    between 50 and 100, the skill [problemSolving] is "medium", and there
    are code-quality metrics exactly when the code counts as true. *)
Theorem execute_analysis_succeeds_iff (rt : Runtime) (db : Database) (session_id : string)
        (code : pyval) :
  let analysed := Executor.code_to_analyse db session_id code in
  let interactions := get_interactions db session_id in
  let report := Executor.execute_analysis rt db session_id code in
  len interactions <= 2 ^ 1000 ->
  (forall text, analysed = VStr text -> Z.of_nat (String.length text) < 2 ^ 1000) ->
  (Py.truthy code = true -> analysed = code)
  /\ (Py.truthy code = false ->
      analysed = match last (get_code_snapshots db session_id) with
                 | Some snapshot => Py.get_or snapshot "code" (VStr EmptyString)
                 | None => code
                 end)
  /\ ((exists r, report = Executor.Success r)
      <-> Forall (fun e => Py.is_type "prompt_sent" e = true ->
                    Spec.is_text (Py.get_or e "prompt_text" (VStr EmptyString)) = true)
                 interactions
          /\ Spec.text_or_falsy analysed = true)
  /\ ((exists r, report = Executor.Success r) \/ exists e, report = Executor.Failure e)
  /\ forall r, report = Executor.Success r ->
       50 <= Executor.behaviorScore r <= 100
       /\ Executor.problemSolving (Executor.skills r) = "medium"
       /\ (Executor.codeQuality r = None <-> Py.truthy analysed = false).
Proof.
  cbv zeta. intros Hlen Htext.
  split; [intros Ht; unfold Executor.code_to_analyse; rewrite Ht; reflexivity|].
  split; [intros Ht; unfold Executor.code_to_analyse; rewrite Ht; reflexivity|].
  unfold Executor.execute_analysis.
  set (analysed := Executor.code_to_analyse db session_id code) in *.
  set (interactions := get_interactions db session_id) in *.
  pose proof (extract_patterns_is_ok rt interactions) as Hp.
  rewrite <- forallb_Forall_implies, <- Hp. clear Hp.
  destruct (code_integration_returns interactions Hlen) as [ci Hci].
  destruct (behavior_score_bounds interactions Hlen) as (score & Hscore & Hrange).
  pose proof (skills_is_ok interactions analysed Hlen) as Hskills.
  assert (Hq : (exists q, (if Py.truthy analysed
                           then Executor._assess_code_quality analysed
                           else Ok None) = Ok q
                          /\ (q = None <-> Py.truthy analysed = false))
               \/ (Spec.text_or_falsy analysed = false
                   /\ exists e, (if Py.truthy analysed
                                 then Executor._assess_code_quality analysed
                                 else Ok None) = Err e)).
  { destruct (Py.truthy analysed) eqn:Et.
    - destruct analysed as [|b|z|text| |d] eqn:Ea; simpl in Et; try discriminate Et;
        try (right; split; [simpl; rewrite ?Et; reflexivity|];
             unfold Executor._assess_code_quality; simpl Py.truthy; rewrite ?Et;
             simpl; eauto).
      left. destruct (code_quality_returns text) as [q Hq'].
      + apply Htext. reflexivity.
      + intros ->. discriminate Et.
      + exists (Some q). split; [exact Hq'|]. split; discriminate.
    - left. exists None. split; [reflexivity|]. split; auto. }
  destruct Hq as [(q & -> & Hnone)|(Hbad & e & ->)]; cbn [bind].
  - destruct (Executor._extract_patterns rt interactions) as [pt|e] eqn:Ept;
      cbn [bind is_ok].
    + rewrite Hci, Hscore. cbn [bind].
      destruct (Executor._assess_skills interactions analysed) as [sk|e] eqn:Esk;
        cbn [bind].
      * pose proof (skills_medium _ _ _ Esk) as Hmed.
        assert (Hs : Spec.text_or_falsy analysed = true).
        { apply Hskills. exists sk. auto. }
        split; [split; [intros _; auto|intros _; eauto]|].
        split; [left; eauto|].
        intros r H; injection H as <-. simpl. auto.
      * assert (Hs : Spec.text_or_falsy analysed <> true).
        { intros H. apply Hskills in H as (s & H & _). discriminate H. }
        split; [split; [intros [r H]; discriminate H|intros [_ H]; contradiction]|].
        split; [right; eauto|]. intros r H; discriminate H.
    + split; [split; [intros [r H]; discriminate H|intros [H _]; discriminate H]|].
      split; [right; eauto|]. intros r H; discriminate H.
  - split; [split; [intros [r H]; discriminate H|intros [_ H]; congruence]|].
    split; [right; eauto|]. intros r H; discriminate H.
Qed.

Lemma execute_analysis_succeeds_iff_witness :
  exists r,
    Executor.execute_analysis Demo.runtime Demo.database "s1" VNone = Executor.Success r
    /\ 50 <= Executor.behaviorScore r <= 100.
Proof.
  assert (H : exists r, Executor.execute_analysis Demo.runtime Demo.database "s1" VNone
                        = Executor.Success r).
  { eexists. vm_compute. reflexivity. }
  destruct H as [r Hr]. exists r. split; [exact Hr|].
  assert (Hlen : len (get_interactions Demo.database "s1") <= 2 ^ 1000)
    by (vm_compute; discriminate).
  assert (Htext : forall text,
             Executor.code_to_analyse Demo.database "s1" VNone = VStr text ->
             Z.of_nat (String.length text) < 2 ^ 1000).
  { intros text H. vm_compute in H. injection H as <-. vm_compute. reflexivity. }
  exact (proj1 (proj2 (proj2 (proj2 (proj2
           (execute_analysis_succeeds_iff Demo.runtime Demo.database "s1" VNone
              Hlen Htext)))) r Hr)).
Defined.

(** ** The report of [flag_sanity_checks] *)

Lemma plagiarism_returns (submissions events : list dict) :
  Spec.text_fields submissions events ->
  exists a, SanityFlag._analyze_plagiarism submissions events = Ok a.
Proof.
  intros [Hs He]. unfold SanityFlag._analyze_plagiarism. cbv zeta.
  destruct (first_check_spec submissions Hs) as [[_ ->]|[_ ->]]; cbn [bind];
    match goal with |- context [SanityFlag.check_responses events ?a0] =>
      destruct (check_responses_spec events a0 He) as (a & -> & _)
    end; eauto.
Qed.

Lemma sanity_checks_count (violations red_flags anomalies : list dict) :
  length (SanityFlag._generate_sanity_checks violations red_flags anomalies) = 3%nat.
Proof.
  unfold SanityFlag._generate_sanity_checks, append.
  destruct (5 <? len violations);
    destruct red_flags as [|f fs];
    [| destruct (List.filter _ (f :: fs)) | | destruct (List.filter _ (f :: fs))];
    destruct anomalies; reflexivity.
Qed.

Lemma keyed_strings_any_clock (rt : Runtime) (first : nat) (events : list dict) :
  Forall Spec.stamped events ->
  Spec.keys_of_kind Spec.KText (Py.keyed_by_timestamp rt first events).
Proof.
  intros H. pose proof (keyed_strings rt first events H) as Hk.
  unfold Spec.keys_of_kind. eapply Forall_impl; [exact Hk|].
  intros p [s Hs]. rewrite Hs. reflexivity.
Qed.

(** The report of [flag_sanity_checks] on the events that are analysed
    (the events passed, or the stored events of the session when none or an
    empty list is passed), for fewer than [2^1000] of them.  The report is a
    success exactly when (i) the text of every [prompt_sent] event is a
    string or counts as false, (ii) there are fewer than two events or the
    timestamp keys that [min], [max] and [sorted] compare are of one kind,
    and (iii) the plagiarism analysis returns, which it does when the code
    of the submissions, the snippets of the copy events and the texts of the
    responses are strings, null or absent.  In particular a session whose
    records are well formed and all carry a timestamp string gives a
    success.  On success the risk score lies in 0..100, there are three
    sanity checks and at most one anomaly. *)
Theorem flag_sanity_checks_report (rt : Runtime) (clock_red_flags clock_anomalies : nat -> datetime)
        (db : Database) (session_id : string) (events : option (list dict)) :
  let analysed := SanityFlag.events_to_analyse db session_id events in
  let submissions := get_submissions db session_id in
  let report :=
    SanityFlag.flag_sanity_checks rt clock_red_flags clock_anomalies db session_id events in
  let rt_red_flags := Py.with_clock rt clock_red_flags in
  let rt_anomalies := Py.with_clock rt clock_anomalies in
  len analysed <= 2 ^ 1000 ->
  ((exists r, report = SanityFlag.Success r)
   <-> Forall (fun e => Py.is_type "prompt_sent" e = true ->
                 Spec.text_or_falsy (Py.get e "prompt_text") = true) analysed
       /\ (len analysed < 2
           \/ (exists k, Spec.keys_of_kind k (Py.keyed_by_timestamp rt_red_flags 0 analysed))
              /\ (exists k, Spec.keys_of_kind k
                              (Py.keyed_by_timestamp rt_red_flags (length analysed) analysed))
              /\ (exists k, Spec.keys_of_kind k
                              (Py.keyed_by_timestamp rt_anomalies 0 analysed)))
       /\ (exists a, SanityFlag._analyze_plagiarism submissions analysed = Ok a))
  /\ (Forall (fun e => Py.is_type "prompt_sent" e = true ->
                Spec.text_or_falsy (Py.get e "prompt_text") = true) analysed ->
      Forall Spec.stamped analysed ->
      Spec.text_fields submissions analysed ->
      exists r, report = SanityFlag.Success r)
  /\ ((exists r, report = SanityFlag.Success r) \/ exists e, report = SanityFlag.Failure e)
  /\ forall r, report = SanityFlag.Success r ->
       0 <= SanityFlag.riskScore r <= 100
       /\ length (SanityFlag.sanityChecks r) = 3%nat
       /\ (length (SanityFlag.anomalies r) <= 1)%nat.
Proof.
  cbv zeta. intros Hlen.
  set (analysed := SanityFlag.events_to_analyse db session_id events) in *.
  set (submissions := get_submissions db session_id).
  pose proof (flag_detect_returns rt analysed) as Hdet.
  pose proof (red_flags_returns (Py.with_clock rt clock_red_flags) analysed submissions) as Hred.
  pose proof (anomalies_returns (Py.with_clock rt clock_anomalies) analysed) as Hano.
  assert (Hiff : (exists r, SanityFlag.flag_sanity_checks rt clock_red_flags clock_anomalies
                              db session_id events = SanityFlag.Success r)
                 <-> is_ok (SanityFlag._detect_violations rt analysed) = true
                     /\ (exists flags, SanityFlag._detect_red_flags
                                         (Py.with_clock rt clock_red_flags) analysed submissions
                                       = Ok flags)
                     /\ (exists anomalies, SanityFlag._detect_anomalies
                                             (Py.with_clock rt clock_anomalies) analysed
                                           = Ok anomalies)
                     /\ (exists a, SanityFlag._analyze_plagiarism submissions analysed = Ok a)).
  { unfold SanityFlag.flag_sanity_checks. fold analysed. fold submissions.
    destruct (SanityFlag._detect_violations rt analysed) as [vs|e]; cbn [bind is_ok].
    2:{ split; [intros [r H]; discriminate H|intros [H _]; discriminate H]. }
    destruct (flag_score_bounds vs analysed Hlen) as (score & -> & _). cbn [bind].
    destruct (SanityFlag._detect_red_flags _ analysed submissions) as [fs|e]; cbn [bind].
    2:{ split; [intros [r H]; discriminate H|intros (_ & [f H] & _); discriminate H]. }
    destruct (SanityFlag._detect_anomalies _ analysed) as [an|e]; cbn [bind].
    2:{ split; [intros [r H]; discriminate H|intros (_ & _ & [f H] & _); discriminate H]. }
    destruct (SanityFlag._analyze_plagiarism submissions analysed) as [a|e]; cbn [bind].
    2:{ split; [intros [r H]; discriminate H|intros (_ & _ & _ & [f H]); discriminate H]. }
    split; [intros _; eauto 10|intros _; eauto]. }
  split; [|split; [|split]].
  - rewrite Hiff, Hdet, Hred, Hano. clear.
    split.
    + intros (H1 & H2 & H3 & H4). split; [exact H1|]. split; [|exact H4].
      destruct H2 as [H2|[H2 H2']]; [left; exact H2|].
      destruct H3 as [H3|H3]; [left; exact H3|]. right. auto.
    + intros (H1 & H2 & H4). split; [exact H1|].
      destruct H2 as [H2|(H2 & H2' & H3)]; auto.
  - intros Hp Hst Htf. apply Hiff.
    split; [apply Hdet, Hp|].
    split; [apply Hred; right; split; eexists; apply keyed_strings_any_clock, Hst|].
    split; [apply Hano; right; eexists; apply keyed_strings_any_clock, Hst|].
    apply plagiarism_returns, Htf.
  - unfold SanityFlag.flag_sanity_checks.
    destruct (let* _ := _ in _) as [r|e]; eauto.
  - intros r. unfold SanityFlag.flag_sanity_checks. fold analysed. fold submissions.
    destruct (SanityFlag._detect_violations rt analysed) as [vs|e]; cbn [bind];
      [|discriminate].
    destruct (flag_score_bounds vs analysed Hlen) as (score & -> & Hscore). cbn [bind].
    destruct (SanityFlag._detect_red_flags _ analysed submissions) as [fs|e] eqn:Efs;
      cbn [bind]; [|discriminate].
    destruct (SanityFlag._detect_anomalies _ analysed) as [an|e] eqn:Ean; cbn [bind];
      [|discriminate].
    destruct (SanityFlag._analyze_plagiarism submissions analysed) as [a|e]; cbn [bind];
      [|discriminate].
    intros H; injection H as <-. simpl.
    split; [exact Hscore|]. split; [apply sanity_checks_count|].
    unfold SanityFlag._detect_anomalies in Ean.
    destruct (len analysed <? 2); [injection Ean as <-; simpl; lia|].
    destruct (Py.sorted _) as [sorted_events|e]; cbn [bind] in Ean; [|discriminate].
    injection Ean as <-.
    destruct (classify_gaps_cases
                (SanityFlag.consecutive_gaps (Py.with_clock rt clock_anomalies) sorted_events))
      as [[_ ->]|[(_ & _ & ->)|[(_ & _ & _ & ->)|(_ & _ & _ & ->)]]]; simpl; lia.
Qed.

Lemma flag_sanity_checks_report_witness :
  exists r,
    SanityFlag.flag_sanity_checks Demo.runtime (rt_now Demo.runtime) (rt_now Demo.runtime)
      Demo.database "s1" None = SanityFlag.Success r
    /\ 0 <= SanityFlag.riskScore r <= 100.
Proof.
  assert (H : exists r,
             SanityFlag.flag_sanity_checks Demo.runtime (rt_now Demo.runtime)
               (rt_now Demo.runtime) Demo.database "s1" None = SanityFlag.Success r).
  { eexists. vm_compute. reflexivity. }
  destruct H as [r Hr]. exists r. split; [exact Hr|].
  assert (Hlen : len (SanityFlag.events_to_analyse Demo.database "s1" None) <= 2 ^ 1000)
    by (vm_compute; discriminate).
  exact (proj1 (proj2 (proj2 (proj2
           (flag_sanity_checks_report Demo.runtime (rt_now Demo.runtime) (rt_now Demo.runtime)
              Demo.database "s1" None Hlen))) r Hr)).
Defined.

(** ** The risk scores, from the events *)

Lemma weight_sum_map {A} (v : A -> dict) (w : A -> Z) (l : list A) :
  (forall x, x ∈ l -> Spec.severityWeight (v x) = w x) ->
  Spec.weight_sum (map v l) = fold_right (fun x acc => w x + acc) 0 l.
Proof.
  induction l as [|x l IH]; intros H; simpl; [reflexivity|].
  rewrite H by (left). rewrite IH; [reflexivity|].
  intros y Hy. apply H. right. exact Hy.
Qed.

Lemma sum_constant {A} (c : Z) (p : A -> bool) (l : list A) :
  fold_right (fun x acc => c + acc) 0 (List.filter p l) = c * Spec.count p l.
Proof.
  induction l as [|x l IH]; simpl; [lia|].
  destruct (p x); simpl; rewrite IH; lia.
Qed.

Lemma sum_copies (l : list dict) :
  fold_right (fun e acc => (if Spec.huge_copy e then 30 else 15) + acc) 0
             (List.filter Spec.large_copy l)
  = 15 * Spec.count Spec.large_copy l + 15 * Spec.count Spec.huge_copy l.
Proof.
  induction l as [|e l IH]; simpl; [lia|].
  destruct (Spec.large_copy e) eqn:El.
  - simpl. rewrite IH. destruct (Spec.huge_copy e); lia.
  - rewrite IH.
    assert (Hh : Spec.huge_copy e = false).
    { unfold Spec.large_copy, Spec.huge_copy in *.
      destruct (Py.is_copy e); [|reflexivity]. simpl in *.
      destruct (Spec.snippet_lines e) as [n|]; [|reflexivity].
      apply Z.ltb_ge in El. apply Z.ltb_ge. lia. }
    rewrite Hh. lia.
Qed.

Lemma severity_weight_of (v : dict) (sev : string) :
  Spec.has_severity sev v ->
  Spec.severityWeight v
  = if String.eqb sev "high" then 30 else if String.eqb sev "medium" then 15 else 5.
Proof. unfold Spec.has_severity, Spec.severityWeight. intros ->. reflexivity. Qed.

(** The risk score of the watcher, from the events alone: 15 for every
    copy of more than 50 lines and 15 more when it has more than 100 lines,
    30 for every prompt that asks for the solution, 15 for every file
    operation on a suspicious path, capped at 100. *)
Theorem watch_score_from_events (rt : Runtime)
        (interactions file_operations terminal_events vs : list dict) :
  Watcher._detect_violations rt interactions file_operations terminal_events = Ok vs ->
  Watcher._calculate_risk_score vs interactions
  = Z.min 100
      (15 * Spec.count Spec.large_copy interactions
       + 15 * Spec.count Spec.huge_copy interactions
       + 30 * Spec.count (Spec.asks_for_solution Watcher.red_flag_patterns) interactions
       + 15 * Spec.count (Spec.suspicious_operation rt) file_operations)
  /\ len vs
     = Spec.count Spec.large_copy interactions
       + Spec.count (Spec.asks_for_solution Watcher.red_flag_patterns) interactions
       + Spec.count (Spec.suspicious_operation rt) file_operations.
Proof.
  intros Hvs.
  destruct (watch_violations_structure rt _ _ _ _ Hvs)
    as (copy_v & prompt_v & file_v & -> & Hcopy & Hprompt & Hfile).
  rewrite watcher_risk_score_eq. unfold Spec.watch_risk_score.
  rewrite !weight_sum_app.
  rewrite (weight_sum_map copy_v (fun e => if Spec.huge_copy e then 30 else 15)).
  2:{ intros e He. apply list_elem_of_In, filter_In in He as [_ He].
      unfold Spec.large_copy in He. unfold Spec.huge_copy.
      destruct (Py.is_copy e); [|discriminate]. simpl in *.
      destruct (Spec.snippet_lines e) as [n|] eqn:En; [|discriminate].
      destruct (Hcopy e n En) as (_ & Hsev & _).
      rewrite (severity_weight_of _ _ Hsev). destruct (100 <? n); reflexivity. }
  rewrite (weight_sum_map prompt_v (fun _ => 30)).
  2:{ intros e _. destruct (Hprompt e) as (_ & Hsev & _).
      apply (severity_weight_of _ _ Hsev). }
  rewrite (weight_sum_map file_v (fun _ => 15)).
  2:{ intros e He. apply list_elem_of_In, filter_In in He as [_ He].
      assert (Hp : Spec.has_file_path rt e = true).
      { unfold Spec.suspicious_operation in He. unfold Spec.has_file_path.
        unfold Watcher.file_path_of in He.
        destruct (Py.metadata_of rt e) as [|b|z|s| |m]; try discriminate He.
        unfold Py.attr_get, Py.or_else in *. cbn [bind] in He.
        destruct (Py.truthy (Py.get_or m "filePath" (VStr EmptyString)));
          cbn [bind] in He;
          match goal with |- Spec.is_text ?v = true => destruct v; try discriminate He end;
          reflexivity. }
      destruct (Hfile e Hp) as (_ & Hsev & _).
      apply (severity_weight_of _ _ Hsev). }
  rewrite sum_copies, !sum_constant.
  split; [f_equal; lia|].
  unfold len. rewrite !length_app, !length_map.
  rewrite <- !len_filter_count. unfold len. lia.
Qed.

Lemma watch_score_from_events_witness :
  exists vs,
    Watcher._detect_violations Demo.runtime [Demo.big_copy] [] [] = Ok vs
    /\ Watcher._calculate_risk_score vs [Demo.big_copy] = 30.
Proof.
  assert (H : is_ok (Watcher._detect_violations Demo.runtime [Demo.big_copy] [] []) = true)
    by (vm_compute; reflexivity).
  destruct (is_ok_inv _ H) as [vs Hvs].
  exists vs. split; [exact Hvs|].
  rewrite (proj1 (watch_score_from_events Demo.runtime _ _ _ _ Hvs)).
  vm_compute. reflexivity.
Defined.

Section FlagWeights.
Context (rt : Runtime).

Lemma flag_prompt_loop_weights (prompts : list dict) (st st' : list dict * nat) :
  for_each (SanityFlag.check_prompt rt) prompts st = Ok st' ->
  Spec.weight_sum (fst st')
  = Spec.weight_sum (fst st)
    + 30 * Spec.count (fun e =>
                         match Py.lower (Py.get_or e "prompt_text" (VStr EmptyString)) with
                         | Ok text => existsb (fun pattern => Re.search pattern text)
                                              SanityFlag.solution_patterns
                         | Err _ => false
                         end) prompts.
Proof.
  revert st. induction prompts as [|e prompts IH]; intros [vs k].
  - intros H; injection H as <-. simpl. lia.
  - cbn [for_each Spec.count]. unfold SanityFlag.check_prompt at 1.
    destruct (Py.lower (Py.get_or e "prompt_text" (VStr EmptyString))) as [text|err];
      cbn [bind]; [|discriminate].
    destruct (existsb (fun pattern => Re.search pattern text) SanityFlag.solution_patterns);
      intros H; apply IH in H; rewrite H; cbn [fst]; [|lia].
    unfold append. rewrite weight_sum_app. cbn [Spec.weight_sum].
    change (Spec.severityWeight (SanityFlag.violation _ _ _ _)) with 30. lia.
Qed.

Lemma count_filter_andb {A} (p q : A -> bool) (l : list A) :
  Spec.count q (List.filter p l) = Spec.count (fun x => p x && q x) l.
Proof.
  induction l as [|x l IH]; simpl; [reflexivity|].
  destruct (p x); simpl; rewrite IH; reflexivity.
Qed.

Lemma flag_violations_weights (events vs : list dict) :
  SanityFlag._detect_violations rt events = Ok vs ->
  Spec.weight_sum vs
  = 30 * Spec.count (Spec.asks_for_solution SanityFlag.solution_patterns) events
    + (if 5 <? Spec.count Py.is_copy events then 30 else 0)
    + (if (Spec.count (Py.is_type "code_modified") events <? 3)
          && (10 <? Spec.count Spec.is_text_prompt events) then 15 else 0).
Proof.
  unfold SanityFlag._detect_violations.
  destruct (for_each _ _ ([], O)) as [[v1 k1]|err] eqn:E1; cbn [bind]; [|discriminate].
  apply flag_prompt_loop_weights in E1. simpl in E1.
  rewrite count_filter_andb in E1.
  change (Spec.count _ events)
    with (Spec.count (Spec.asks_for_solution SanityFlag.solution_patterns) events) in E1.
  rewrite !len_filter_count.
  change (Spec.count (fun e => Py.is_type "prompt_sent" e
                               && Py.truthy (Py.get e "prompt_text")) events)
    with (Spec.count Spec.is_text_prompt events).
  destruct (5 <? Spec.count Py.is_copy events);
    destruct ((Spec.count (Py.is_type "code_modified") events <? 3)
              && (10 <? Spec.count Spec.is_text_prompt events));
    intros H; injection H as <-; unfold append;
    rewrite ?weight_sum_app; simpl Spec.weight_sum;
    repeat change (Spec.severityWeight (SanityFlag.violation "high" _ _ _)) with 30;
    repeat change (Spec.severityWeight (SanityFlag.violation "medium" _ _ _)) with 15;
    lia.
Qed.

End FlagWeights.

(** The flag-mode risk score of a session, from the events alone: 30 for
    every prompt with a text that asks for the solution, 30 when there are
    more than 5 copy events, 15 when there are fewer than 3 modifications and
    more than 10 prompts with a text, 20 when the copies are more than twice
    the modifications, 15 when there are more than 20 prompts, capped at
    100. *)
Theorem flag_score_from_events (rt : Runtime) (events vs : list dict) (score : Z) :
  SanityFlag._detect_violations rt events = Ok vs ->
  SanityFlag._calculate_risk_score vs events = Ok score ->
  exists ratio_bonus,
    Spec.copy_ratio_bonus (Spec.count Py.is_copy events)
                          (Spec.count (Py.is_type "code_modified") events) = Ok ratio_bonus
    /\ score
       = Z.min 100
           (30 * Spec.count (Spec.asks_for_solution SanityFlag.solution_patterns) events
            + (if 5 <? Spec.count Py.is_copy events then 30 else 0)
            + (if (Spec.count (Py.is_type "code_modified") events <? 3)
                  && (10 <? Spec.count Spec.is_text_prompt events) then 15 else 0)
            + ratio_bonus
            + Spec.prompt_bonus (Spec.count (Py.is_type "prompt_sent") events)).
Proof.
  intros Hvs Hscore. rewrite flag_risk_score_eq in Hscore.
  unfold Spec.flag_risk_score in Hscore.
  destruct (Spec.copy_ratio_bonus _ _) as [bonus|e]; cbn [bind] in Hscore; [|discriminate].
  injection Hscore as <-. exists bonus. split; [reflexivity|].
  rewrite (flag_violations_weights rt _ _ Hvs). reflexivity.
Qed.

Lemma flag_score_from_events_witness :
  exists vs score,
    SanityFlag._detect_violations Demo.runtime [Demo.text_prompt; Demo.big_copy] = Ok vs
    /\ SanityFlag._calculate_risk_score vs [Demo.text_prompt; Demo.big_copy] = Ok score
    /\ score = 0.
Proof.
  assert (H : exists vs score,
             SanityFlag._detect_violations Demo.runtime [Demo.text_prompt; Demo.big_copy]
             = Ok vs
             /\ SanityFlag._calculate_risk_score vs [Demo.text_prompt; Demo.big_copy]
                = Ok score).
  { eexists. eexists. split; vm_compute; reflexivity. }
  destruct H as (vs & score & Hvs & Hs). exists vs, score.
  split; [exact Hvs|]. split; [exact Hs|].
  destruct (flag_score_from_events Demo.runtime _ _ _ Hvs Hs) as (bonus & Hb & ->).
  vm_compute in Hb. injection Hb as <-. vm_compute. reflexivity.
Defined.

(** ** Floats: a positive quotient is not rounded to zero *)

Section FloatPositive.

(** Shifting to the canonical exponent keeps a positive mantissa positive
  when the exponent is not below the least one. *)
Lemma shr_fexp_pos (m e : Z) (l : location) :
  0 < m -> -1074 <= e ->
  let '(r, e') := shr_fexp Float64.prec Float64.emax m e l in
  0 < shr_m r /\ -1074 <= e'.
Proof.
  intros Hm He.
  pose proof (shr_fexp_spec m e l ltac:(lia)) as H. cbv zeta in H.
  destruct (shr_fexp Float64.prec Float64.emax m e l) as [r e'].
  rewrite fexp_eq in H.
  destruct H as [(Hn & -> & ->)|(Hn & -> & ->)]; [lia|].
  split; [|lia].
  set (n := Z.max (Zdigits2 m + e - 53) (-1074) - e) in *.
  assert (Hd : n = Zdigits2 m - 53) by (unfold n in *; lia).
  pose proof (Zdigits2_ge m Hm) as Hge.
  rewrite Z.shiftr_div_pow2 by lia.
  assert (H52 : 2 ^ 52 <= m / 2 ^ n).
  { apply Z.div_le_lower_bound; [apply Z.pow_pos_nonneg; lia|].
    rewrite <- Z.pow_add_r by lia.
    replace (n + 52) with (Zdigits2 m - 1) by lia. exact Hge. }
  assert (0 < 2 ^ 52) by (apply Z.pow_pos_nonneg; lia). lia.
Qed.

(** Rounding gives neither zero nor a NaN for a positive mantissa and an exponent
  that is not below the least one. *)
Lemma round_aux_nonzero (sx : bool) (mx ex : Z) (lx : location) :
  0 < mx -> -1074 <= ex ->
  match binary_round_aux Float64.prec Float64.emax sx mx ex lx with
  | S754_zero _ | S754_nan => False
  | _ => True
  end.
Proof.
  intros Hm He. unfold binary_round_aux.
  pose proof (shr_fexp_pos mx ex lx Hm He) as H1.
  destruct (shr_fexp Float64.prec Float64.emax mx ex lx) as [r1 e1].
  destruct H1 as [Hm1 He1].
  pose proof (round_nearest_even_bounds (shr_m r1) (loc_of_shr_record r1)) as Hr.
  set (mr := round_nearest_even (shr_m r1) (loc_of_shr_record r1)) in *.
  pose proof (shr_fexp_pos mr e1 loc_Exact ltac:(lia) He1) as H2.
  destruct (shr_fexp Float64.prec Float64.emax mr e1 loc_Exact) as [r2 e2].
  destruct H2 as [Hm2 _].
  destruct (shr_m r2) as [|m|m]; [lia| |lia].
  destruct (e2 <=? Float64.emax - Float64.prec); exact I.
Qed.

(** The quotient that the division hands to the rounding is positive, and
  its exponent not below the least one. *)
Lemma div_core_pos (a b : positive) :
  Zpos b <= 2 ^ 1000 ->
  let '(q, e, l) := SFdiv_core_binary Float64.prec Float64.emax (Zpos a) 0 (Zpos b) 0 in
  0 < q /\ -1074 <= e.
Proof.
  intros Hb. unfold SFdiv_core_binary.
  pose proof (Zdigits2_le (Zpos b) 1000 ltac:(lia) ltac:(lia) Hb) as Hd2.
  pose proof (Zdigits2_ge (Zpos a) ltac:(lia)) as Ha1.
  pose proof (Zdigits2_ge (Zpos b) ltac:(lia)) as Hb1.
  assert (Hd1 : 1 <= Zdigits2 (Zpos a)).
  { rewrite Zdigits2_log2 by lia. pose proof (Z.log2_nonneg (Zpos a)). lia. }
  assert (Hd2' : 1 <= Zdigits2 (Zpos b)).
  { rewrite Zdigits2_log2 by lia. pose proof (Z.log2_nonneg (Zpos b)). lia. }
  assert (Hbu : Zpos b < 2 ^ Zdigits2 (Zpos b)).
  { rewrite Zdigits2_log2 by lia.
    replace (Z.log2 (Zpos b) + 1) with (Z.succ (Z.log2 (Zpos b))) by lia.
    apply Z.log2_spec. lia. }
  set (d1 := Zdigits2 (Zpos a)) in *. set (d2 := Zdigits2 (Zpos b)) in *.
  rewrite fexp_eq.
  replace (Z.max (d1 + 0 - (d2 + 0) - 53) (-1074)) with (d1 - d2 - 53) by lia.
  set (e := Z.min (d1 - d2 - 53) (0 - 0)).
  assert (He : e <= 0) by (unfold e; lia).
  assert (He' : -1074 <= e) by (unfold e; lia).
  set (m' := match 0 - 0 - e with Z0 => Zpos a | Zpos _ => _ | Zneg _ => 0 end).
  assert (Hm' : 2 ^ (52 + d2) <= m').
  { unfold m'. destruct (0 - 0 - e) as [|s|s] eqn:Es.
    - assert (e = 0) by lia.
      etransitivity; [|exact Ha1]. apply Z.pow_le_mono_r; unfold e in *; lia.
    - rewrite Z.shiftl_mul_pow2 by lia.
      assert (Hs : Zpos s = 53 + d2 - d1) by (unfold e in *; lia).
      rewrite Hs.
      replace (52 + d2) with ((d1 - 1) + (53 + d2 - d1)) by lia.
      rewrite Z.pow_add_r by lia.
      apply Z.mul_le_mono_nonneg_r; [apply Z.pow_nonneg; lia|exact Ha1].
    - lia. }
  assert (Hq : 2 ^ 52 <= m' / Zpos b).
  { apply Z.div_le_lower_bound; [lia|].
    etransitivity; [|exact Hm'].
    rewrite Z.pow_add_r by lia.
    assert (0 < 2 ^ 52) by (apply Z.pow_pos_nonneg; lia).
    rewrite Z.mul_comm. apply Z.mul_le_mono_nonneg_l; lia. }
  unfold Z.div in Hq.
  destruct (Z.div_eucl m' (Zpos b)) as [q r]. split; [|exact He'].
  assert (0 < 2 ^ 52) by (apply Z.pow_pos_nonneg; lia). lia.
Qed.

(** The true division of a positive integer by a positive integer is a
  positive float. *)
Lemma truediv_of_positive (a b N : Z) :
  0 < a <= 2 ^ N -> 0 <= N <= 1022 -> 0 < b <= 2 ^ 1000 ->
  exists m e, Float64.truediv a b = Ok (S754_finite false m e).
Proof.
  intros Ha HN Hb.
  destruct (truediv_returns a b N ltac:(lia) HN ltac:(lia)) as (q & Hq & _).
  revert Hq. unfold Float64.truediv.
  replace (b =? 0) with false by (symmetry; apply Z.eqb_neq; lia).
  destruct b as [|pb|pb]; try lia.
  destruct a as [|pa|pa]; try lia.
  unfold Float64.div, Float64.exact, SFdiv.
  pose proof (div_core_pos pa pb (proj2 Hb)) as Hc.
  destruct (SFdiv_core_binary _ _ _ _ _ _) as [[qz e] l].
  destruct Hc as [Hqz He]. change (xorb false false) with false.
  pose proof (round_aux_nonzero false qz e l Hqz He) as Hnz.
  unfold binary_round_aux in *.
  destruct (shr_fexp _ _ qz e l) as [r1 e1].
  destruct (shr_fexp _ _ _ e1 loc_Exact) as [r2 e2].
  destruct (shr_m r2) as [|m|m]; try contradiction; try discriminate.
  destruct (e2 <=? Float64.emax - Float64.prec); [|discriminate].
  intros _. eauto.
Qed.

End FloatPositive.

(** ** The timing statistics and the order of the interactions *)

Section TimingLater.
Context (rt : Runtime).

Lemma instant_parsed (t : pyval) (d : datetime) :
  Spec.instant rt t = Some d -> Py.parse_if_str rt t = Ok (VDatetime d).
Proof.
  unfold Spec.instant. destruct (Py.parse_if_str rt t) as [[]|]; try discriminate.
  intros H; injection H as <-. reflexivity.
Qed.

(** A later timestamp gives a gap that counts, the instants being within
  bounds. *)
Lemma later_time_diff (t1 t2 : pyval) :
  Spec.later rt t1 t2 ->
  (forall d, Spec.instant rt t1 = Some d -> Z.abs (dt_us d) <= 2 ^ 1000) ->
  (forall d, Spec.instant rt t2 = Some d -> Z.abs (dt_us d) <= 2 ^ 1000) ->
  exists g, Executor._time_diff rt t1 t2 = Some g /\ Py.gap_truthy (Some g) = true.
Proof.
  intros (d1 & d2 & H1 & H2 & Ha & Hlt) B1 B2.
  specialize (B1 d1 H1). specialize (B2 d2 H2).
  unfold Executor._time_diff.
  rewrite (instant_parsed _ _ H1), (instant_parsed _ _ H2). cbn [bind].
  unfold Py.seconds_between. rewrite Ha, Bool.eqb_reflx.
  assert (Hd : 0 < dt_us d2 - dt_us d1 <= 2 ^ 1001).
  { split; [lia|]. replace 1001 with (1000 + 1) by lia. rewrite Z.pow_add_r by lia.
    change (2 ^ 1) with 2. lia. }
  destruct (truediv_of_positive (dt_us d2 - dt_us d1) 1000000 1001 Hd ltac:(lia))
    as (m & e & ->).
  { split; [lia|]. transitivity (2 ^ 20); [discriminate|].
    apply Z.pow_le_mono_r; lia. }
  cbn [bind catch]. eexists. split; reflexivity.
Qed.

Lemma gaps_from_later (previous : dict) (rest : list dict) :
  (exists k a b g,
      (previous :: rest) !! k = Some a /\ (previous :: rest) !! S k = Some b
      /\ Executor._time_diff rt (Py.get a "timestamp") (Py.get b "timestamp") = Some g
      /\ Py.gap_truthy (Some g) = true) ->
  Executor.gaps_from rt previous rest <> [].
Proof.
  revert previous. induction rest as [|e rest IH]; intros previous.
  - intros (k & a & b & g & _ & Hb & _). destruct k; discriminate.
  - intros (k & a & b & g & Ha & Hb & Hd & Hg). simpl.
    destruct k as [|k].
    + simpl in Ha, Hb. injection Ha as <-. injection Hb as <-.
      rewrite Hd, Hg. discriminate.
    + assert (Hrest : Executor.gaps_from rt e rest <> []).
      { apply IH. exists k, a, b, g. auto. }
      destruct (Executor._time_diff rt (Py.get previous "timestamp") (Py.get e "timestamp"))
        as [d|]; [|exact Hrest].
      destruct (Py.gap_truthy (Some d)); [discriminate|exact Hrest].
Qed.

(** There is a gap exactly when some interaction is later than the one
  before it, the instants being within bounds. *)
Lemma consecutive_gaps_later (interactions : list dict) :
  (Executor.consecutive_gaps rt interactions <> [] -> Spec.some_later rt interactions)
  /\ (Spec.instants_bounded rt interactions -> Spec.some_later rt interactions ->
      Executor.consecutive_gaps rt interactions <> []).
Proof.
  split.
  - destruct interactions as [|e rest]; [intros H; contradiction|]. simpl.
    destruct (Executor.gaps_from rt e rest) as [|g gaps] eqn:Eg; [intros H; contradiction|].
    intros _.
    destruct (gaps_from_observed rt e rest g) as (k & a & b & Ha & Hb & Hd).
    { rewrite Eg. left. }
    exists k, a, b. split; [exact Ha|]. split; [exact Hb|].
    apply (time_diff_later rt _ _ _ Hd).
  - intros Hbound (k & a & b & Ha & Hb & Hl).
    destruct interactions as [|e rest]; [discriminate|]. simpl.
    apply gaps_from_later.
    unfold Spec.instants_bounded in Hbound. rewrite Forall_forall in Hbound.
    destruct (later_time_diff _ _ Hl) as (g & Hg & Ht).
    { apply Hbound. eapply list_elem_of_lookup_2, Ha. }
    { apply Hbound. eapply list_elem_of_lookup_2, Hb. }
    exists k, a, b, g. auto.
Qed.

End TimingLater.

(** What pattern extraction returns: every [prompt_sent] interaction falls
    in exactly one of the four categories, so the four counts are not
    negative and add up to the number of prompts; there are no more
    copy/paste patterns than copy events; timing statistics are present
    exactly when some interaction has a positive gap to the one before it;
    they are present only when some interaction is later than the one
    before it, which takes two interactions, and, the instants of the
    timestamps being within [2^1000] microseconds, whenever one is; and
    they count every interaction. *)
Theorem extract_patterns_counts (rt : Runtime) (interactions : list dict)
        (found : Executor.Patterns) :
  Executor._extract_patterns rt interactions = Ok found ->
  let c := Executor.promptPatterns found in
  Spec.category_total c = Spec.count (Py.is_type "prompt_sent") interactions
  /\ 0 <= Executor.solution_request c /\ 0 <= Executor.explanation_request c
  /\ 0 <= Executor.code_review c /\ 0 <= Executor.other c
  /\ len (Executor.copyPastePatterns found) <= Spec.count Py.is_copy interactions
  /\ (is_Some (Executor.timingPatterns found)
      <-> Executor.consecutive_gaps rt interactions <> [])
  /\ (is_Some (Executor.timingPatterns found) -> Spec.some_later rt interactions)
  /\ (Spec.instants_bounded rt interactions ->
      Spec.some_later rt interactions -> is_Some (Executor.timingPatterns found))
  /\ forall t, Executor.timingPatterns found = Some t ->
               Executor.totalEvents t = len interactions /\ 2 <= len interactions.
Proof.
  unfold Executor._extract_patterns.
  destruct (timing_of_returns rt interactions) as (timing & -> & Hsome & Ht). cbn [bind].
  destruct (for_each Executor.categorize _ _) as [c|err] eqn:Ec; cbn [bind]; [|discriminate].
  intros H; injection H as <-. cbn [Executor.promptPatterns Executor.copyPastePatterns
                                     Executor.timingPatterns].
  apply categorize_all in Ec. unfold Spec.category_total in Ec at 2. simpl in Ec.
  rewrite len_filter_count in Ec.
  pose proof (pair_copy_length rt (List.filter Py.is_paste interactions)
                (List.filter Py.is_copy interactions) []) as Hl.
  simpl in Hl. rewrite <- !len_filter_count. rewrite <- len_filter_count in Ec.
  destruct (consecutive_gaps_later rt interactions) as [Hgl Hlg].
  unfold len in *.
  split; [lia|]. do 4 (split; [lia|]). split; [lia|]. split; [exact Hsome|].
  split; [intros Hs; apply Hgl, Hsome, Hs|].
  split; [intros Hb Hs; apply Hsome, Hlg; assumption|exact Ht].
Qed.

Lemma extract_patterns_counts_witness :
  exists found,
    Executor._extract_patterns Demo.runtime Demo.copy_then_paste = Ok found
    /\ Spec.category_total (Executor.promptPatterns found)
       = Spec.count (Py.is_type "prompt_sent") Demo.copy_then_paste
    /\ is_Some (Executor.timingPatterns found).
Proof.
  assert (H : is_ok (Executor._extract_patterns Demo.runtime Demo.copy_then_paste) = true)
    by (vm_compute; reflexivity).
  destruct (is_ok_inv _ H) as [found Hf].
  exists found. split; [exact Hf|].
  pose proof (extract_patterns_counts Demo.runtime _ _ Hf) as Hc. cbv zeta in Hc.
  destruct Hc as (Htotal & _ & _ & _ & _ & _ & _ & _ & Hlater & _).
  split; [exact Htotal|]. apply Hlater.
  - unfold Spec.instants_bounded, Demo.copy_then_paste.
    repeat (apply List.Forall_cons;
            [intros d Hd; vm_compute in Hd; injection Hd as <-; cbn [dt_us];
             transitivity (2 ^ 40); [discriminate|apply Z.pow_le_mono_r; lia]|]).
    apply List.Forall_nil.
  - exists 0%nat, (Demo.event_at "code_copied" "10:00:00"),
           (Demo.event_at "code_pasted" "10:00:05").
    split; [reflexivity|]. split; [reflexivity|].
    eexists _, _. split; [vm_compute; reflexivity|]. split; [vm_compute; reflexivity|].
    split; [reflexivity|]. simpl. lia.
Defined.

(** ** Records that make an agent raise *)

Section Raising.

Lemma is_ok_false {A} (r : result A) : is_ok r = false -> exists e, r = Err e.
Proof. destruct r; [discriminate|eauto]. Qed.

Lemma forallb_Exists_false {A} (p : A -> bool) (l : list A) :
  Exists (fun x => p x = false) l -> forallb p l = false.
Proof.
  induction 1 as [x l Hx|x l _ IH]; simpl.
  - rewrite Hx. reflexivity.
  - rewrite IH. apply andb_false_r.
Qed.

Lemma Exists_weaken {A} (P Q : A -> Prop) (l : list A) :
  (forall x, P x -> Q x) -> Exists P l -> Exists Q l.
Proof. intros H. induction 1; [left|right]; auto. Qed.

Lemma copy_is_no_prompt (e : dict) : Py.is_copy e = true -> Py.is_type "prompt_sent" e = false.
Proof.
  unfold Py.is_copy. intros H. apply orb_true_iff in H as [H|H].
  - apply (is_type_exclusive "code_copied_from_ai" "prompt_sent" e); [discriminate|exact H].
  - apply (is_type_exclusive "code_copied" "prompt_sent" e); [discriminate|exact H].
Qed.

Lemma unshowable_not_describable (e : dict) :
  Spec.unshowable_prompt e = true -> Spec.describable e = false.
Proof.
  unfold Spec.unshowable_prompt, Spec.describable, Py.get_or.
  intros H. apply andb_true_iff in H as [-> H].
  destruct (e !! "prompt_text") as [[| | | | |d]|]; simpl in *; try reflexivity;
    try discriminate.
  apply Z.ltb_lt in H. apply Z.leb_gt. exact H.
Qed.

Lemma snippet_not_describable (e : dict) :
  Spec.snippet_not_text e = true -> Spec.describable e = false.
Proof.
  unfold Spec.snippet_not_text, Spec.describable.
  intros H. apply andb_true_iff in H as [Hc H].
  rewrite (copy_is_no_prompt e Hc), Hc. apply negb_true_iff, H.
Qed.

Lemma unfit_prompt_not_ok (e : dict) :
  Spec.unfit_prompt e = true ->
  implb (Py.is_type "prompt_sent" e) (Spec.prompt_text_ok e) = false.
Proof.
  unfold Spec.unfit_prompt, Spec.prompt_text_ok.
  intros H. apply andb_true_iff in H as [-> H]. simpl.
  destruct (e !! "prompt_text") as [[| | | | |d]|]; simpl in *; try reflexivity;
    try discriminate.
  apply negb_true_iff, H.
Qed.

Lemma snippet_not_text_not_ok (e : dict) :
  Spec.snippet_not_text e = true ->
  implb (Py.is_copy e) (Spec.is_text (Py.get_or e "code_snippet" (VStr EmptyString))) = false.
Proof.
  unfold Spec.snippet_not_text. intros H. apply andb_true_iff in H as [-> H].
  simpl. apply negb_true_iff, H.
Qed.

Lemma terminal_without_metadata_not_ok (rt : Runtime) (e : dict) :
  Spec.terminal_without_metadata rt e = true ->
  implb (Py.is_type "terminal_spawned" e || Py.is_type "command_executed" e)
        (Spec.has_metadata rt e) = false.
Proof.
  unfold Spec.terminal_without_metadata. intros H. apply andb_true_iff in H as [-> H].
  simpl. apply negb_true_iff, H.
Qed.

End Raising.

(** The timeline builder returns when every description can be formed:
    the text of every [prompt_sent] interaction is a string (or absent) or
    an object of at most 50 keys, the snippet of every copy event is a
    string (or absent), the metadata of every file operation, decoded, is an
    object, and so is the metadata of every [terminal_spawned] and
    [command_executed] event.  It raises when the text of some
    [prompt_sent] interaction is null, a boolean, an integer, a datetime or
    an object of more than 50 keys; when the snippet of some copy event is
    present and not a string; when the metadata of some file operation is
    not an object; and when the metadata of some [terminal_spawned] or
    [command_executed] event is not an object.  A prompt whose text is
    null, which the violation detector skips, so makes the builder
    raise. *)
Theorem timeline_returns_or_raises (rt : Runtime)
        (interactions file_operations terminal_events : list dict) :
  (Forall (fun e => Spec.describable e = true) interactions
   /\ Forall (fun e => Spec.has_metadata rt e = true) file_operations
   /\ Forall (fun e => Py.is_type "terminal_spawned" e || Py.is_type "command_executed" e = true
                       -> Spec.has_metadata rt e = true) terminal_events ->
   exists timeline,
     Watcher._build_timeline rt interactions file_operations terminal_events = Ok timeline)
  /\ (Exists (fun e => Spec.unshowable_prompt e = true) interactions
      \/ Exists (fun e => Spec.snippet_not_text e = true) interactions
      \/ Exists (fun e => Spec.has_metadata rt e = false) file_operations
      \/ Exists (fun e => Spec.terminal_without_metadata rt e = true) terminal_events ->
      exists err,
        Watcher._build_timeline rt interactions file_operations terminal_events = Err err).
Proof.
  pose proof (timeline_is_ok rt interactions file_operations terminal_events) as Hok.
  split.
  - intros (H1 & H2 & H3). apply is_ok_inv. rewrite Hok.
    apply forallb_Forall_true in H1, H2. apply forallb_Forall_implies in H3.
    rewrite H1, H2, H3. reflexivity.
  - intros H. apply is_ok_false. rewrite Hok.
    destruct H as [H|[H|[H|H]]].
    + rewrite (forallb_Exists_false Spec.describable interactions); [reflexivity|].
      eapply Exists_weaken; [|exact H]. apply unshowable_not_describable.
    + rewrite (forallb_Exists_false Spec.describable interactions); [reflexivity|].
      eapply Exists_weaken; [|exact H]. apply snippet_not_describable.
    + rewrite (forallb_Exists_false (Spec.has_metadata rt) file_operations H).
      rewrite andb_false_r. reflexivity.
    + rewrite (forallb_Exists_false _ terminal_events
                 (Exists_weaken _ _ _ (terminal_without_metadata_not_ok rt) H)).
      apply andb_false_r.
Qed.

Lemma timeline_returns_or_raises_witness :
  (exists timeline,
      Watcher._build_timeline Demo.runtime [Demo.text_prompt; Demo.big_copy] [] []
      = Ok timeline)
  /\ (exists err,
        Watcher._build_timeline Demo.runtime [Demo.text_prompt; Demo.null_prompt] [] []
        = Err err).
Proof.
  split.
  - apply (proj1 (timeline_returns_or_raises Demo.runtime
                    [Demo.text_prompt; Demo.big_copy] [] [])).
    split; [|split; constructor].
    repeat (apply List.Forall_cons; [vm_compute; reflexivity|]). apply List.Forall_nil.
  - apply (proj2 (timeline_returns_or_raises Demo.runtime
                    [Demo.text_prompt; Demo.null_prompt] [] [])).
    left. apply List.Exists_cons_tl, List.Exists_cons_hd. vm_compute. reflexivity.
Defined.

(** The report of [watch_session] is a success when the records of the
    session are well formed: the text of every [prompt_sent] interaction is
    a string, absent or an empty object; the snippet of every copy event is
    a string or absent; the metadata of every file operation is an object
    with a path that is a string; the metadata of every [terminal_spawned]
    and [command_executed] event is an object (file operations and terminal
    events count only when they are included).  It is the failure with no
    violation and risk score 0, whatever else the session holds, when the
    text of some [prompt_sent] interaction is null, a boolean, an integer,
    a datetime or an object that is not empty; when the snippet of some
    copy event is present and not a string; when some file operation has
    no such metadata; when the metadata of some [terminal_spawned] or
    [command_executed] event is not an object.  The report is always one
    of the two.  On success the violations are those of the detector, the
    risk score is their capped weight sum, and there is one piece of
    evidence per violation. *)
Theorem watch_session_succeeds_or_fails (rt : Runtime) (db : Database) (session_id : string)
        (include_file_operations include_terminal_events : pyval) :
  let interactions := get_interactions db session_id in
  let file_operations :=
    if Py.truthy include_file_operations then get_file_operations db session_id else [] in
  let terminal_events :=
    if Py.truthy include_terminal_events then get_terminal_events db session_id else [] in
  let report :=
    Watcher.watch_session rt db session_id include_file_operations include_terminal_events in
  (Forall (fun e => Py.is_type "prompt_sent" e = true -> Spec.prompt_text_ok e = true)
          interactions
   /\ Forall (fun e => Py.is_copy e = true ->
                Spec.is_text (Py.get_or e "code_snippet" (VStr EmptyString)) = true)
             interactions
   /\ Forall (fun e => Spec.has_file_path rt e = true) file_operations
   /\ Forall (fun e => Py.is_type "terminal_spawned" e || Py.is_type "command_executed" e
                       = true -> Spec.has_metadata rt e = true) terminal_events ->
   exists r, report = Watcher.Success r)
  /\ (Exists (fun e => Spec.unfit_prompt e = true) interactions
      \/ Exists (fun e => Spec.snippet_not_text e = true) interactions
      \/ Exists (fun e => Spec.has_file_path rt e = false) file_operations
      \/ Exists (fun e => Spec.terminal_without_metadata rt e = true) terminal_events ->
      exists e, report = Watcher.Failure [] 0 e)
  /\ ((exists r, report = Watcher.Success r) \/ exists e, report = Watcher.Failure [] 0 e)
  /\ forall r, report = Watcher.Success r ->
       Watcher._detect_violations rt interactions file_operations terminal_events
       = Ok (Watcher.violations r)
       /\ Watcher.riskScore r = Z.min 100 (Spec.weight_sum (Watcher.violations r))
       /\ Watcher.alerts r = Watcher._generate_alerts (Watcher.violations r) (Watcher.riskScore r)
       /\ length (Watcher.evidence r) = length (Watcher.violations r).
Proof.
  cbv zeta. unfold Watcher.watch_session.
  set (interactions := get_interactions db session_id).
  set (file_operations := if Py.truthy include_file_operations then _ else _).
  set (terminal_events := if Py.truthy include_terminal_events then _ else _).
  pose proof (watch_body_is_ok rt interactions file_operations terminal_events) as Hok.
  assert (Hbad : Exists (fun e => Spec.unfit_prompt e = true) interactions
                 \/ Exists (fun e => Spec.snippet_not_text e = true) interactions
                 \/ Exists (fun e => Spec.has_file_path rt e = false) file_operations
                 \/ Exists (fun e => Spec.terminal_without_metadata rt e = true)
                           terminal_events ->
                 is_ok (Watcher._detect_violations rt interactions file_operations
                          terminal_events)
                 && is_ok (Watcher._build_timeline rt interactions file_operations
                             terminal_events) = false).
  { rewrite Hok. intros [H|[H|[H|H]]].
    - rewrite (forallb_Exists_false _ interactions
                 (Exists_weaken _ _ _ unfit_prompt_not_ok H)). reflexivity.
    - rewrite (forallb_Exists_false _ interactions
                 (Exists_weaken _ _ _ snippet_not_text_not_ok H)).
      rewrite andb_false_r. reflexivity.
    - rewrite (forallb_Exists_false (Spec.has_file_path rt) file_operations H).
      rewrite andb_false_r. reflexivity.
    - rewrite (forallb_Exists_false _ terminal_events
                 (Exists_weaken _ _ _ (terminal_without_metadata_not_ok rt) H)).
      apply andb_false_r. }
  rewrite <- !forallb_Forall_implies, <- forallb_Forall_true.
  destruct (Watcher._detect_violations rt interactions file_operations terminal_events)
    as [vs|e1]; cbn [bind is_ok] in *.
  - destruct (Watcher._build_timeline rt interactions file_operations terminal_events)
      as [tl|e2]; cbn [bind is_ok] in *.
    + split; [intros _; eauto|].
      split; [intros H; specialize (Hbad H); discriminate Hbad|].
      split; [left; eauto|].
      intros r H; injection H as <-. simpl.
      split; [reflexivity|]. split; [apply watcher_risk_score_eq|].
      split; [reflexivity|apply length_map].
    + split; [intros (H1 & H2 & H3 & H4); rewrite H1, H2, H3, H4 in Hok; discriminate Hok|].
      split; [intros _; eauto|].
      split; [right; eauto|]. intros r H; discriminate H.
  - split; [intros (H1 & H2 & H3 & H4); rewrite H1, H2, H3, H4 in Hok; discriminate Hok|].
    split; [intros _; eauto|].
    split; [right; eauto|]. intros r H; discriminate H.
Qed.

Lemma watch_session_succeeds_or_fails_witness :
  (exists r,
      Watcher.watch_session Demo.runtime Demo.database "s1" (VBool true) (VBool true)
      = Watcher.Success r)
  /\ (exists e,
        Watcher.watch_session Demo.runtime Demo.database_with_null_prompt "s1"
          (VBool true) (VBool true)
        = Watcher.Failure [] 0 e).
Proof.
  split.
  - apply (proj1 (watch_session_succeeds_or_fails Demo.runtime Demo.database "s1"
                    (VBool true) (VBool true))).
    split; [|split; [|split; constructor]];
      repeat (apply List.Forall_cons; [vm_compute; intros; reflexivity || discriminate|]);
      apply List.Forall_nil.
  - apply (proj1 (proj2 (watch_session_succeeds_or_fails Demo.runtime
                           Demo.database_with_null_prompt "s1" (VBool true) (VBool true)))).
    left. apply List.Exists_cons_tl, List.Exists_cons_hd. vm_compute. reflexivity.
Defined.

(** ** Keys that do not compare *)

Section Incomparable.

Lemma lt_error (a b : pyval) (e : exn) : Py.lt a b = Err e -> e = TypeError.
Proof.
  destruct a as [|x|x|s|d|m], b as [|y|y|t|d'|n]; simpl; try discriminate;
    try (intros H; injection H as <-; reflexivity).
  destruct (Bool.eqb (dt_aware d) (dt_aware d')); [discriminate|].
  intros H; injection H as <-; reflexivity.
Qed.

Lemma insert_sorted_error {A} (x : pyval * A) (l : list (pyval * A)) (e : exn) :
  Py.insert_sorted x l = Err e -> e = TypeError.
Proof.
  induction l as [|y l IH]; simpl; [discriminate|].
  destruct (Py.lt (fst x) (fst y)) as [b|e'] eqn:E; cbn [bind].
  - destruct b; [discriminate|].
    destruct (Py.insert_sorted x l) as [r|e'']; cbn [bind]; [discriminate|].
    intros H; injection H as <-. apply IH. reflexivity.
  - intros H; injection H as <-. apply (lt_error _ _ _ E).
Qed.

Lemma sort_keyed_error {A} (l : list (pyval * A)) (e : exn) :
  Py.sort_keyed l = Err e -> e = TypeError.
Proof.
  unfold Py.sort_keyed. generalize (@nil (pyval * A)).
  induction l as [|x l IH]; intros acc; simpl; [discriminate|].
  destruct (Py.insert_sorted x acc) as [r|e'] eqn:E; cbn [bind].
  - apply IH.
  - intros H; injection H as <-. apply (insert_sorted_error _ _ _ E).
Qed.

Lemma best_error {A} (lt' : pyval -> pyval -> result bool)
      (rest : list (pyval * A)) (first : pyval * A) (e : exn) :
  (forall a b e', lt' a b = Err e' -> e' = TypeError) ->
  for_each (fun best x => let* b := lt' (fst x) (fst best) in
                          Ok (if b then x else best)) rest first = Err e ->
  e = TypeError.
Proof.
  intros Hlt. revert first. induction rest as [|x rest IH]; intros first; simpl;
    [discriminate|].
  destruct (lt' (fst x) (fst first)) as [b|e'] eqn:E; cbn [bind].
  - apply IH.
  - intros H; injection H as <-. apply (Hlt _ _ _ E).
Qed.

(** Keys that do not compare are not of one kind. *)
Lemma incomparable_no_kind {A} (l : list (pyval * A)) (k : Spec.key_kind) :
  Spec.incomparable_keys l -> ~ Spec.keys_of_kind k l.
Proof.
  intros (p & q & Hp & Hq & H) Hk. unfold Spec.keys_of_kind in Hk.
  rewrite Forall_forall in Hk.
  pose proof (Hk p Hp) as Kp. pose proof (Hk q Hq) as Kq.
  destruct H as [H|H]; congruence.
Qed.

End Incomparable.

(** The anomaly detector returns when there are fewer than two events,
    and when the sort keys of all events are of one kind that [<] compares:
    all texts, or all integers and booleans, or all datetimes of one
    awareness, where an event without a timestamp has the reading of the
    clock for its key.  With two or more events it raises [TypeError] when
    some key is null or an object, and when two keys are of two of these
    kinds.  So a list that mixes a timestamp text with a missing timestamp,
    or holds two null timestamps, makes the detector raise. *)
Theorem anomalies_return_or_raise (rt : Runtime) (events : list dict) :
  (len events < 2 \/ (exists k, Spec.keys_of_kind k (Py.keyed_by_timestamp rt 0 events)) ->
   exists anomalies, SanityFlag._detect_anomalies rt events = Ok anomalies)
  /\ (2 <= len events -> Spec.incomparable_keys (Py.keyed_by_timestamp rt 0 events) ->
      SanityFlag._detect_anomalies rt events = Err TypeError).
Proof.
  split; [apply (anomalies_returns rt events)|].
  intros Hlen Hinc.
  destruct (SanityFlag._detect_anomalies rt events) as [anomalies|e] eqn:E.
  - destruct (proj1 (anomalies_returns rt events)) as [Hl|[k Hk]]; [rewrite E; eauto|lia|].
    destruct (incomparable_no_kind _ k Hinc Hk).
  - f_equal. revert E. unfold SanityFlag._detect_anomalies.
    destruct (len events <? 2); [discriminate|]. unfold Py.sorted.
    destruct (Py.sort_keyed _) as [r|e'] eqn:Es; cbn [bind]; [discriminate|].
    intros H; injection H as <-. apply (sort_keyed_error _ _ Es).
Qed.

Lemma anomalies_return_or_raise_witness :
  (exists anomalies,
      SanityFlag._detect_anomalies Demo.runtime Demo.copy_then_paste = Ok anomalies)
  /\ SanityFlag._detect_anomalies Demo.runtime Demo.one_missing_timestamp = Err TypeError.
Proof.
  split.
  - apply (proj1 (anomalies_return_or_raise Demo.runtime Demo.copy_then_paste)).
    right. exists Spec.KText.
    repeat (apply List.Forall_cons; [reflexivity|]). apply List.Forall_nil.
  - apply (proj2 (anomalies_return_or_raise Demo.runtime Demo.one_missing_timestamp)).
    + vm_compute. discriminate.
    + exists (VStr "10:00:00", Demo.event_at "code_modified" "10:00:00"),
             (VDatetime (rt_now Demo.runtime 1), Demo.event "code_modified").
      split; [left|]. split; [right; left|]. right. discriminate.
Defined.

(** The red-flag detector returns when there are fewer than two events,
    and when the keys that [min] compares and the keys that [max] compares
    are of one kind: all texts, or all integers and booleans, or all
    datetimes of one awareness, where an event without a timestamp has a
    reading of the clock for its key ([min] and [max] read the clock anew).
    With two or more events it raises [TypeError] when some key is null or
    an object, and when two keys are of two of these kinds. *)
Theorem red_flags_return_or_raise (rt : Runtime) (events submissions : list dict) :
  (len events < 2
   \/ ((exists k, Spec.keys_of_kind k (Py.keyed_by_timestamp rt 0 events))
       /\ (exists k, Spec.keys_of_kind k
                       (Py.keyed_by_timestamp rt (length events) events))) ->
   exists flags, SanityFlag._detect_red_flags rt events submissions = Ok flags)
  /\ (2 <= len events ->
      Spec.incomparable_keys (Py.keyed_by_timestamp rt 0 events)
      \/ Spec.incomparable_keys (Py.keyed_by_timestamp rt (length events) events) ->
      SanityFlag._detect_red_flags rt events submissions = Err TypeError).
Proof.
  split; [apply (red_flags_returns rt events submissions)|].
  intros Hlen Hinc.
  destruct (SanityFlag._detect_red_flags rt events submissions) as [flags|e] eqn:E.
  - destruct (proj1 (red_flags_returns rt events submissions))
      as [Hl|[[k Hk] [k' Hk']]]; [rewrite E; eauto|lia|].
    destruct Hinc as [Hinc|Hinc].
    + destruct (incomparable_no_kind _ k Hinc Hk).
    + destruct (incomparable_no_kind _ k' Hinc Hk').
  - f_equal. revert E. unfold SanityFlag._detect_red_flags.
    destruct (Py.keyed_by_timestamp rt 0 events) as [|k ks].
    { cbn [bind]. destruct (List.filter Py.is_copy events);
        [|destruct (len _ =? 0)]; discriminate. }
    destruct (Py.keyed_by_timestamp rt (length events) events) as [|k' ks'].
    { cbn [bind]. destruct (List.filter Py.is_copy events);
        [|destruct (len _ =? 0)]; discriminate. }
    unfold Py.min_by, Py.max_by.
    destruct (for_each _ ks k) as [b1|e1] eqn:E1; cbn [bind].
    2:{ intros H; injection H as <-. apply (best_error Py.lt _ _ _ lt_error E1). }
    destruct (for_each _ ks' k') as [b2|e2] eqn:E2; cbn [bind].
    2:{ intros H; injection H as <-.
        apply (best_error (fun a b => Py.lt b a) _ _ _ (fun a b => lt_error b a) E2). }
    destruct (SanityFlag._time_diff rt _ _) as [d|]; cbn [bind].
    + destruct (Py.gap_truthy (Some d) && Float64.ltb d (Float64.of_Z 300));
        [destruct (10 <? len (List.filter (Py.is_type "code_modified") events))|];
        cbn [bind]; destruct (List.filter Py.is_copy events);
        try destruct (len _ =? 0); discriminate.
    + destruct (List.filter Py.is_copy events); [|destruct (len _ =? 0)]; discriminate.
Qed.

Lemma red_flags_return_or_raise_witness :
  (exists flags,
      SanityFlag._detect_red_flags Demo.runtime Demo.copy_then_paste [] = Ok flags)
  /\ SanityFlag._detect_red_flags Demo.runtime Demo.one_missing_timestamp [] = Err TypeError.
Proof.
  split.
  - apply (proj1 (red_flags_return_or_raise Demo.runtime Demo.copy_then_paste [])).
    right. split; exists Spec.KText;
      repeat (apply List.Forall_cons; [reflexivity|]); apply List.Forall_nil.
  - apply (proj2 (red_flags_return_or_raise Demo.runtime Demo.one_missing_timestamp [])).
    + vm_compute. discriminate.
    + left.
      exists (VStr "10:00:00", Demo.event_at "code_modified" "10:00:00"),
             (VDatetime (rt_now Demo.runtime 1), Demo.event "code_modified").
      split; [left|]. split; [right; left|]. right. discriminate.
Defined.
